(** * AgentDock: the tool-invocation protocol of the agents

    A shallow embedding of the classes [BaseAgent] and [GitHubAgent]
    ([src/mcp/agents/githubAgent.js]) and [SlackAgent]
    ([src/mcp/agents/slackAgent.js]).

    Conventions of the embedding.
    - A JavaScript string is a [string]: the sequence of its code units, on
      the 8-bit alphabet.  Case mapping is the ASCII one.
    - A JavaScript object used as a record of named fields is the list of
      its own entries in [Object.entries] order: the array indices in
      ascending order, then the other keys in insertion order.  An own
      field that is [undefined] is a lookup that returns [None].  A read
      [o[k]] with a key that the code does not fix also sees the members
      the value inherits from its prototype ([JS.inherited]), and an
      assignment [o["__proto__"] = v] calls the setter of
      [Object.prototype] and stores no entry ([JS.set]).
    - A JavaScript number is an integer below 2^53 in absolute value;
      [parseInt] and the string conversion of its result are parameters
      where the code converts the digits of a query.
    - [throw]/[catch] is the [result] type: [Ok v] or [Throw message], the
      message being [error.message].
    - External collaborators (tools, the Slack client, the completion
      service) are functions of the history of the calls made so far, and
      every call is appended to that history. *)

From Stdlib Require Import String Ascii List Bool Arith Lia NArith ZArith.
From Stdlib Require Import DecimalString.
Import ListNotations.
Open Scope string_scope.

(* ================================================================== *)
(** ** Strings *)
(* ================================================================== *)

Module Str.

Definition dquote : ascii := ascii_of_nat 34.
Definition dq : string := String dquote EmptyString.

(** [quoted s] is [s] between two double quotes. *)
Definition quoted (s : string) : string := dq ++ s ++ dq.

(** All characters of [s] satisfy [p]. *)
Fixpoint all (p : ascii -> bool) (s : string) : bool :=
  match s with
  | EmptyString => true
  | String c s' => p c && all p s'
  end.

(** [take n s]: the first [n] characters, [s.substring(0, n)]. *)
Definition take (n : nat) (s : string) : string := substring 0 n s.

(** [String.prototype.toLowerCase] and [toUpperCase] on the ASCII letters. *)
Definition is_upper (c : ascii) : bool :=
  let n := nat_of_ascii c in ((65 <=? n) && (n <=? 90))%nat.
Definition is_lower (c : ascii) : bool :=
  let n := nat_of_ascii c in ((97 <=? n) && (n <=? 122))%nat.
Definition lower_char (c : ascii) : ascii :=
  if is_upper c then ascii_of_nat (nat_of_ascii c + 32) else c.
Definition upper_char (c : ascii) : ascii :=
  if is_lower c then ascii_of_nat (nat_of_ascii c - 32) else c.

Fixpoint toLowerCase (s : string) : string :=
  match s with
  | EmptyString => EmptyString
  | String c s' => String (lower_char c) (toLowerCase s')
  end.

(** [hay.includes(needle)]. *)
Fixpoint includes (needle hay : string) : bool :=
  prefix needle hay ||
  match hay with
  | EmptyString => false
  | String _ h => includes needle h
  end.

(** [Array.prototype.join]. *)
Definition join (sep : string) (l : list string) : string := String.concat sep l.

(** Decimal rendering of a natural number. *)
Definition of_N (n : N) : string := NilZero.string_of_uint (N.to_uint n).

Definition digit_val (c : ascii) : option N :=
  let n := nat_of_ascii c in
  if ((48 <=? n) && (n <=? 57))%nat then Some (N.of_nat (n - 48)) else None.

(** The number that the leading decimal digits of [s] denote, after the
    digits [acc]. *)
Fixpoint parse_digits (acc : N) (s : string) : N :=
  match s with
  | EmptyString => acc
  | String c s' =>
      match digit_val c with
      | Some d => parse_digits (10 * acc + d)%N s'
      | None => acc
      end
  end.

End Str.

(* ================================================================== *)
(** ** Regular expressions

    A backtracking matcher for the constructs the source's regular
    expression literals use, with the priorities of the ECMAScript
    matcher: alternatives left to right, a greedy quantifier tries the
    longer match first, a lazy one the shorter. *)
(* ================================================================== *)

Module Regex.

Inductive regex : Type :=
| Lit (s : string)               (* literal text *)
| Cls (p : ascii -> bool)        (* one character of a class *)
| PlusG (p : ascii -> bool)      (* [class]+   greedy *)
| PlusL (p : ascii -> bool)      (* [class]+?  lazy *)
| Opt (r : regex)                (* (?:r)?     greedy *)
| Seq (r1 r2 : regex)
| Alt (r1 r2 : regex)
| Grp (i : nat) (r : regex).     (* capture group number i *)

Declare Scope regex_scope.
Delimit Scope regex_scope with re.
Bind Scope regex_scope with regex.
Infix ";;" := Seq (at level 61, right associativity) : regex_scope.

(** [(?:r|r1|...|rn)]. *)
Fixpoint alts (r : regex) (rs : list regex) : regex :=
  match rs with
  | [] => r
  | r' :: rs' => Alt r (alts r' rs')
  end.

Definition captures := list (nat * string).

Fixpoint capture (i : nat) (cs : captures) : string :=
  match cs with
  | [] => ""
  | (j, s) :: cs' => if Nat.eqb i j then s else capture i cs'
  end.

(** Canonicalize of the [i] flag: compare upper-cased code units.  It is
    applied to literals; the classes of the source's [i] patterns ([\d],
    [\w], [.]) are closed under case. *)
Definition canon (ci : bool) (c : ascii) : ascii :=
  if ci then Str.upper_char c else c.

(** The rest of [s] after the literal [l], if [s] starts with it. *)
Fixpoint lit (ci : bool) (l s : string) : option string :=
  match l with
  | EmptyString => Some s
  | String a l' =>
      match s with
      | EmptyString => None
      | String c s' =>
          if Ascii.eqb (canon ci a) (canon ci c) then lit ci l' s' else None
      end
  end.

Section Quantifiers.
Context {R : Type}.

(** One or more characters of [p], longest first. *)
Fixpoint plusG (p : ascii -> bool) (s : string) (k : string -> option R) : option R :=
  match s with
  | EmptyString => None
  | String c s' =>
      if p c then
        match plusG p s' k with
        | Some x => Some x
        | None => k s'
        end
      else None
  end.

(** One or more characters of [p], shortest first. *)
Fixpoint plusL (p : ascii -> bool) (s : string) (k : string -> option R) : option R :=
  match s with
  | EmptyString => None
  | String c s' =>
      if p c then
        match k s' with
        | Some x => Some x
        | None => plusL p s' k
        end
      else None
  end.
End Quantifiers.

(** The text consumed between the input [s] and its suffix [rest]. *)
Definition consumed (s rest : string) : string :=
  Str.take (String.length s - String.length rest) s.

Definition cont := string -> captures -> option (string * captures).

Fixpoint rmatch (ci : bool) (r : regex) (s : string) (cs : captures) (k : cont)
  : option (string * captures) :=
  match r with
  | Lit l => match lit ci l s with Some s' => k s' cs | None => None end
  | Cls p =>
      match s with
      | String c s' => if p c then k s' cs else None
      | EmptyString => None
      end
  | PlusG p => plusG p s (fun s' => k s' cs)
  | PlusL p => plusL p s (fun s' => k s' cs)
  | Opt r1 =>
      match rmatch ci r1 s cs k with
      | Some x => Some x
      | None => k s cs
      end
  | Seq r1 r2 => rmatch ci r1 s cs (fun s' cs' => rmatch ci r2 s' cs' k)
  | Alt r1 r2 =>
      match rmatch ci r1 s cs k with
      | Some x => Some x
      | None => rmatch ci r2 s cs k
      end
  | Grp i r1 => rmatch ci r1 s cs (fun s' cs' => k s' ((i, consumed s s') :: cs'))
  end.

(** A match anchored at the start of [s]: the rest and the captures. *)
Definition match_at (ci : bool) (r : regex) (s : string) : option (string * captures) :=
  rmatch ci r s [] (fun s' cs => Some (s', cs)).

(** One found match: the text before it, the matched text, the captures and
    the text after it. *)
Record found := { before : string; matched : string; caps : captures; rest : string }.

(** The leftmost match in [s] ([String.prototype.match] without the [g]
    flag, one call of [RegExp.prototype.exec]). *)
Fixpoint search (ci : bool) (r : regex) (s : string) : option found :=
  match match_at ci r s with
  | Some (s', cs) =>
      Some {| before := ""; matched := consumed s s'; caps := cs; rest := s' |}
  | None =>
      match s with
      | EmptyString => None
      | String c s' =>
          match search ci r s' with
          | Some f => Some {| before := String c (before f); matched := matched f;
                              caps := caps f; rest := rest f |}
          | None => None
          end
      end
  end.

(** [while ((match = re.exec(s)) !== null) ...] with the [g] flag: the
    successive matches, each search resuming where the previous match
    ended.  An empty match does not advance [lastIndex], so the source's
    loop would not end; the model then runs out of [fuel] and returns
    [None]. *)
Fixpoint exec_loop (fuel : nat) (ci : bool) (r : regex) (s : string) : option (list found) :=
  match fuel with
  | O => None
  | S n =>
      match search ci r s with
      | None => Some []
      | Some f =>
          match exec_loop n ci r (rest f) with
          | Some l => Some (f :: l)
          | None => None
          end
      end
  end.

(** The least number of characters a match of [r] consumes. *)
Fixpoint min_len (r : regex) : nat :=
  match r with
  | Lit l => String.length l
  | Cls _ | PlusG _ | PlusL _ => 1
  | Opt _ => 0
  | Seq r1 r2 => min_len r1 + min_len r2
  | Alt r1 r2 => Nat.min (min_len r1) (min_len r2)
  | Grp _ r1 => min_len r1
  end.

(** Character classes of the source's patterns. *)
Definition not_char (x : ascii) : ascii -> bool := fun c => negb (Ascii.eqb c x).
Definition one_of (l : list ascii) : ascii -> bool :=
  fun c => existsb (Ascii.eqb c) l.
Definition digit : ascii -> bool := fun c => (* \d *)
  let n := nat_of_ascii c in ((48 <=? n) && (n <=? 57))%nat.
Definition word : ascii -> bool := fun c => (* \w *)
  Str.is_upper c || Str.is_lower c || digit c || Ascii.eqb c "_".
Definition dot : ascii -> bool := fun c => (* . *)
  negb (Ascii.eqb c (ascii_of_nat 10)) && negb (Ascii.eqb c (ascii_of_nat 13)).

End Regex.

(* ================================================================== *)
(** ** JavaScript values, objects and built-ins *)
(* ================================================================== *)

Module JS.

(** The outcome of code that may throw. *)
Inductive result (A : Type) : Type :=
| Ok (a : A)
| Throw (message : string).
Arguments Ok {A} a.
Arguments Throw {A} message.

(** The values [JSON.parse] produces (numbers: the integers below 2^53 in
    absolute value, which a double holds exactly). *)
#[warnings="-register-all"]
Inductive value : Type :=
| VNull
| VBool (b : bool)
| VNum (n : Z)
| VStr (s : string)
| VArr (items : list value)
| VObj (entries : list (string * value)).

(** The own entries of an object, in the order of [Object.keys]. *)
Definition obj := list (string * value).

(** The own entry [k] of an object; [None]: it has none.  This is [o[k]]
    for a key that no prototype defines, as the keys are that the code
    writes out ([owner], [repo], [channel], [name], ...); the reads with a
    key taken from a schema or from the caller are [nullish_at] and
    [is_undefined] below. *)
Fixpoint get (k : string) (o : obj) : option value :=
  match o with
  | [] => None
  | (k', v) :: o' => if String.eqb k k' then Some v else get k o'
  end.

Definition keys (o : obj) : list string := map fst o.

(** An array index: the decimal text, without leading zero, of a number
    below 2^32 - 1.  The own keys of an object are listed with the array
    indices first, in ascending order, and then the other keys in the
    order in which they were added. *)
Definition array_index (k : string) : option N :=
  let n := Str.parse_digits 0 k in
  if String.eqb (Str.of_N n) k && (n <? 4294967295)%N then Some n else None.

(** An existing key keeps its position and takes the value; a new one is
    added last. *)
Fixpoint put (k : string) (v : value) (o : obj) : obj :=
  match o with
  | [] => [(k, v)]
  | (k', v') :: o' => if String.eqb k k' then (k, v) :: o' else (k', v') :: put k v o'
  end.

(** A new array index [k], of value [n], goes before the first key that
    is a greater index or no index. *)
Fixpoint insert_index (n : N) (k : string) (v : value) (o : obj) : obj :=
  match o with
  | [] => [(k, v)]
  | (k', v') :: o' =>
      match array_index k' with
      | Some n' => if (n <? n')%N then (k, v) :: o else (k', v') :: insert_index n k v o'
      | None => (k, v) :: o
      end
  end.

(** CreateDataProperty, which object literals, the spread and
    [JSON.parse] use: the own entry [k] is given the value [v]. *)
Definition define (k : string) (v : value) (o : obj) : obj :=
  match get k o, array_index k with
  | None, Some n => insert_index n k v o
  | _, _ => put k v o
  end.

(** The string-keyed members of the built-in prototypes (ECMAScript 2023,
    with the legacy accessors of Annex B). *)
Definition Object_prototype : list string :=
  ["constructor"; "__defineGetter__"; "__defineSetter__"; "hasOwnProperty";
   "__lookupGetter__"; "__lookupSetter__"; "isPrototypeOf"; "propertyIsEnumerable";
   "toString"; "valueOf"; "__proto__"; "toLocaleString"].

Definition Number_prototype : list string :=
  ["constructor"; "toExponential"; "toFixed"; "toPrecision"; "toString"; "valueOf";
   "toLocaleString"].

Definition Boolean_prototype : list string := ["constructor"; "toString"; "valueOf"].

Definition String_prototype : list string :=
  ["length"; "constructor"; "anchor"; "at"; "big"; "blink"; "bold"; "charAt";
   "charCodeAt"; "codePointAt"; "concat"; "endsWith"; "fontcolor"; "fontsize";
   "fixed"; "includes"; "indexOf"; "isWellFormed"; "italics"; "lastIndexOf"; "link";
   "localeCompare"; "match"; "matchAll"; "normalize"; "padEnd"; "padStart"; "repeat";
   "replace"; "replaceAll"; "search"; "slice"; "small"; "split"; "strike"; "sub";
   "substr"; "substring"; "sup"; "startsWith"; "toString"; "toWellFormed"; "trim";
   "trimStart"; "trimLeft"; "trimEnd"; "trimRight"; "toLocaleLowerCase";
   "toLocaleUpperCase"; "toLowerCase"; "toUpperCase"; "valueOf"].

Definition Array_prototype : list string :=
  ["length"; "constructor"; "at"; "concat"; "copyWithin"; "fill"; "find";
   "findIndex"; "findLast"; "findLastIndex"; "lastIndexOf"; "pop"; "push";
   "reverse"; "shift"; "unshift"; "slice"; "sort"; "splice"; "includes"; "indexOf";
   "join"; "keys"; "entries"; "values"; "forEach"; "filter"; "flat"; "flatMap";
   "map"; "every"; "some"; "reduce"; "reduceRight"; "toLocaleString"; "toString";
   "toReversed"; "toSorted"; "toSpliced"; "with"].

Definition listed (k : string) (l : list string) : bool := existsb (String.eqb k) l.

(** The prototype chain of a value that [JSON.parse] produced, as the
    names of the members it gives. *)
Definition prototype_chain (v : value) : list string :=
  match v with
  | VNull => []
  | VBool _ => (Boolean_prototype ++ Object_prototype)%list
  | VNum _ => (Number_prototype ++ Object_prototype)%list
  | VStr _ => (String_prototype ++ Object_prototype)%list
  | VArr _ => (Array_prototype ++ Object_prototype)%list
  | VObj _ => Object_prototype
  end.

(** [k] names a member that [v] inherits: a function, or the prototype
    itself for [__proto__]; neither [undefined] nor [null]. *)
Definition inherited (v : value) (k : string) : bool := listed k (prototype_chain v).

(** [o[k] = v] on an object that an object literal made, whose prototype
    is [Object.prototype].  The own entry is defined, except that for the
    key [__proto__], when the object has no own entry of that name, the
    assignment calls the setter that [Object.prototype] has for it: no
    entry is stored.  (The setter makes an object or [null] the prototype
    of [o]; the entries are those of [o] as long as that prototype still
    inherits the setter.) *)
Definition set (k : string) (v : value) (o : obj) : obj :=
  match get k o with
  | None => if String.eqb k "__proto__" then o else define k v o
  | Some _ => define k v o
  end.

(** The entry [k: v] of an object literal, left out when [v] is [undefined]. *)
Definition entry (k : string) (v : option value) : obj :=
  match v with
  | Some x => [(k, x)]
  | None => []
  end.

(** ToBoolean. *)
Definition truthy (v : option value) : bool :=
  match v with
  | None | Some VNull => false
  | Some (VBool b) => b
  | Some (VNum n) => negb (Z.eqb n 0)
  | Some (VStr s) => negb (String.eqb s "")
  | Some (VArr _) | Some (VObj _) => true
  end.

(** [v === undefined || v === null]. *)
Definition nullish (v : option value) : bool :=
  match v with
  | None | Some VNull => true
  | Some _ => false
  end.

Definition of_Z (n : Z) : string :=
  match n with
  | Zneg p => "-" ++ Str.of_N (Npos p)
  | _ => Str.of_N (Z.to_N n)
  end.

(** The message of the TypeError of reading a property of [undefined] or
    [null] (V8's wording). *)
Definition TypeError_read (what prop : string) : string :=
  "Cannot read properties of " ++ what ++ " (reading '" ++ prop ++ "')".

(** The index-keyed own entries of an array and of a string. *)
Fixpoint array_entries (i : N) (l : list value) : obj :=
  match l with
  | [] => []
  | v :: l' => (Str.of_N i, v) :: array_entries (N.succ i) l'
  end.

Fixpoint string_entries (i : N) (s : string) : obj :=
  match s with
  | EmptyString => []
  | String c s' => (Str.of_N i, VStr (String c EmptyString)) :: string_entries (N.succ i) s'
  end.

(** The object spread [{...v}]: the own enumerable entries of [v], which
    the copy lists in the order in which [v] lists them. *)
Definition spread (v : value) : obj :=
  match v with
  | VObj o => o
  | VArr l => array_entries 0 l
  | VStr s => string_entries 0 s
  | VNull | VBool _ | VNum _ => []
  end.

(** All own entries of a value, the [length] of an array or a string
    included. *)
Definition own_entries (v : value) : obj :=
  match v with
  | VObj o => o
  | VArr l => (array_entries 0 l ++ [("length", VNum (Z.of_nat (List.length l)))])%list
  | VStr s => (string_entries 0 s ++ [("length", VNum (Z.of_nat (String.length s)))])%list
  | VNull | VBool _ | VNum _ => []
  end.

(** [v[k] === undefined || v[k] === null], for any key [k]: the read goes
    through the prototype chain, and an inherited member is neither. *)
Definition nullish_at (v : value) (k : string) : result bool :=
  match v with
  | VNull => Throw (TypeError_read "null" k)
  | _ =>
      Ok match get k (own_entries v) with
         | Some x => nullish (Some x)
         | None => negb (inherited v k)
         end
  end.

(** [o[k] === undefined] for an object that an object literal made. *)
Definition is_undefined (k : string) (o : obj) : bool :=
  match get k o with
  | Some _ => false
  | None => negb (listed k Object_prototype)
  end.

(** [v[k]] for a value that may be [undefined] and a key that no
    prototype defines. *)
Definition get_prop (v : option value) (k : string) : result (option value) :=
  match v with
  | None => Throw (TypeError_read "undefined" k)
  | Some VNull => Throw (TypeError_read "null" k)
  | Some (VObj o) => Ok (get k o)
  | Some (VArr l) =>
      Ok (get k (array_entries 0 l ++ [("length", VNum (Z.of_nat (List.length l)))])%list)
  | Some (VStr s) =>
      Ok (get k (string_entries 0 s ++ [("length", VNum (Z.of_nat (String.length s)))])%list)
  | Some (VBool _) | Some (VNum _) => Ok None
  end.

(** String conversion in a template literal, [`${v}`]. *)
Fixpoint to_string (v : value) : string :=
  match v with
  | VNull => "null"
  | VBool true => "true"
  | VBool false => "false"
  | VNum n => of_Z n
  | VStr s => s
  | VArr l =>
      Str.join ","
        (map (fun x => match x with VNull => "" | _ => to_string x end) l)
  | VObj _ => "[object Object]"
  end.

Definition template (v : option value) : string :=
  match v with
  | None => "undefined"
  | Some x => to_string x
  end.

(** *** [String.prototype.replace(searchString, replaceString)] *)

(** The text before and after the first occurrence of [needle] in [hay]. *)
Fixpoint split_first (needle hay : string) : option (string * string) :=
  if prefix needle hay
  then Some ("", substring (String.length needle) (String.length hay - String.length needle) hay)
  else
    match hay with
    | EmptyString => None
    | String c h =>
        match split_first needle h with
        | Some (b, a) => Some (String c b, a)
        | None => None
        end
    end.

(** GetSubstitution for a string pattern (no capture groups): [$$] is a
    dollar sign, [$&] the matched text, [$`] the text before the match,
    [$'] the text after it; every other character stands for itself. *)
Fixpoint GetSubstitution (matched before after template : string) : string :=
  match template with
  | EmptyString => ""
  | String c t =>
      if Ascii.eqb c "$" then
        match t with
        | EmptyString => "$"
        | String d t' =>
            if Ascii.eqb d "$" then "$" ++ GetSubstitution matched before after t'
            else if Ascii.eqb d "&" then matched ++ GetSubstitution matched before after t'
            else if Ascii.eqb d "`" then before ++ GetSubstitution matched before after t'
            else if Ascii.eqb d "'" then after ++ GetSubstitution matched before after t'
            else String c (GetSubstitution matched before after t)
        end
      else String c (GetSubstitution matched before after t)
  end.

(** [str.replace(search, replacement)]: the first occurrence only. *)
Definition replace (str search replacement : string) : string :=
  match split_first search str with
  | None => str
  | Some (b, a) => b ++ GetSubstitution search b a replacement ++ a
  end.

(** *** [JSON.parse]

    The development is parametric in the parser.  The examples are run
    with the reader below, which is [JSON.parse] on the texts it accepts
    when their numbers are below 2^53: JSON texts whose strings have no
    escape sequence and whose numbers are integers. *)

Definition is_ws (c : ascii) : bool :=
  let n := nat_of_ascii c in
  (Nat.eqb n 32 || Nat.eqb n 9 || Nat.eqb n 10 || Nat.eqb n 13).

Fixpoint skip_ws (s : string) : string :=
  match s with
  | String c s' => if is_ws c then skip_ws s' else s
  | EmptyString => s
  end.

(** The characters up to the closing quote, and the text after it. *)
Fixpoint string_body (s : string) : option (string * string) :=
  match s with
  | EmptyString => None
  | String c s' =>
      if Ascii.eqb c Str.dquote then Some ("", s')
      else if Ascii.eqb c "\" then None
      else if (nat_of_ascii c <? 32)%nat then None
      else
        match string_body s' with
        | Some (t, r) => Some (String c t, r)
        | None => None
        end
  end.

(** The leading decimal digits of [s] and the text after them. *)
Fixpoint digits (s : string) : string * string :=
  match s with
  | String c s' =>
      if Regex.digit c then let (d, r) := digits s' in (String c d, r) else ("", s)
  | EmptyString => ("", s)
  end.

Definition number_end (r : string) : bool :=
  match r with
  | String c _ => negb (Ascii.eqb c "." || Ascii.eqb c "e" || Ascii.eqb c "E" || Regex.digit c)
  | EmptyString => true
  end.

(** An integer literal without sign. *)
Definition natural (s : string) : option (N * string) :=
  let (d, r) := digits s in
  match d with
  | EmptyString => None
  | String c d' =>
      if (Ascii.eqb c "0" && negb (String.eqb d' "")) || negb (number_end r) then None
      else Some (Str.parse_digits 0%N d, r)
  end.

Fixpoint parse_value (fuel : nat) (s : string) : option (value * string) :=
  match fuel with
  | O => None
  | S n =>
      match skip_ws s with
      | EmptyString => None
      | String c s' =>
          if Ascii.eqb c "{" then
            match skip_ws s' with
            | String "}" r => Some (VObj [], r)
            | _ =>
                match parse_members n s' [] with
                | Some (o, r) => Some (VObj o, r)
                | None => None
                end
            end
          else if Ascii.eqb c "[" then
            match skip_ws s' with
            | String "]" r => Some (VArr [], r)
            | _ =>
                match parse_elements n s' with
                | Some (l, r) => Some (VArr l, r)
                | None => None
                end
            end
          else if Ascii.eqb c Str.dquote then
            match string_body s' with
            | Some (t, r) => Some (VStr t, r)
            | None => None
            end
          else if Ascii.eqb c "-" then
            match natural s' with
            | Some (m, r) => Some (VNum (- Z.of_N m), r)
            | None => None
            end
          else if Regex.digit c then
            match natural (String c s') with
            | Some (m, r) => Some (VNum (Z.of_N m), r)
            | None => None
            end
          else
            match Regex.lit false "true" (String c s') with
            | Some r => Some (VBool true, r)
            | None =>
                match Regex.lit false "false" (String c s') with
                | Some r => Some (VBool false, r)
                | None =>
                    match Regex.lit false "null" (String c s') with
                    | Some r => Some (VNull, r)
                    | None => None
                    end
                end
            end
      end
  end

with parse_members (fuel : nat) (s : string) (acc : obj) : option (obj * string) :=
  match fuel with
  | O => None
  | S n =>
      match skip_ws s with
      | String c s' =>
          if Ascii.eqb c Str.dquote then
            match string_body s' with
            | Some (k, r) =>
                match skip_ws r with
                | String ":" r' =>
                    match parse_value n r' with
                    | Some (v, r'') =>
                        match skip_ws r'' with
                        | String "," t => parse_members n t (define k v acc)
                        | String "}" t => Some (define k v acc, t)
                        | _ => None
                        end
                    | None => None
                    end
                | _ => None
                end
            | None => None
            end
          else None
      | EmptyString => None
      end
  end

with parse_elements (fuel : nat) (s : string) : option (list value * string) :=
  match fuel with
  | O => None
  | S n =>
      match parse_value n s with
      | Some (v, r) =>
          match skip_ws r with
          | String "," t =>
              match parse_elements n t with
              | Some (l, r') => Some (v :: l, r')
              | None => None
              end
          | String "]" t => Some ([v], t)
          | _ => None
          end
      | None => None
      end
  end.

Definition parse (s : string) : option value :=
  match parse_value (S (String.length s)) s with
  | Some (v, r) => if String.eqb (skip_ws r) "" then Some v else None
  | None => None
  end.

End JS.

(* ================================================================== *)
(** ** Tools and the history of external calls *)
(* ================================================================== *)

Module Tools.
Import JS.

(** One call to an external collaborator and what it returned or threw. *)
Inductive Event : Type :=
| EvExecute (tool : string) (action : string) (params : obj) (out : result value)
    (* [execute(action, params)] on the tool registered under [tool] *)
| EvCompletion (prompt : string) (out : result string)
    (* the completion service *)
| EvSlack (method : string) (args : obj) (out : result value)
    (* a method of the Slack web client *)
| EvOctokit (method : string) (args : obj) (out : result value).
    (* a method of the GitHub client of the agent *)

Definition history := list Event.

(** The schema entry of one parameter; only [required] is read by the
    agents' validation. *)
Record ParamInfo := { required : bool }.

(** An action descriptor of a tool's catalog. *)
Record Action := {
  name : string;
  parameters : option (list (string * ParamInfo))
}.

(** A tool object, as the agents read it. *)
Record Tool := {
  tool_name : string;                        (* tool.name *)
  config_name : option string;               (* tool.config.name *)
  constructor_name : string;                 (* tool.constructor.name *)
  repoOwner : option value;                  (* tool.repoOwner *)
  repoName : option value;                   (* tool.repoName *)
  getAvailableActions : option (list Action);(* None: the tool has no such method *)
  execute : history -> string -> obj -> result value
}.

(** [this.tools]: a [Map] from names to tools, in insertion order. *)
Definition registry := list (string * Tool).

Fixpoint Map_get (k : string) (m : registry) : option Tool :=
  match m with
  | [] => None
  | (k', t) :: m' => if String.eqb k k' then Some t else Map_get k m'
  end.

Fixpoint Map_set (k : string) (t : Tool) (m : registry) : registry :=
  match m with
  | [] => [(k, t)]
  | (k', t') :: m' => if String.eqb k k' then (k, t) :: m' else (k', t') :: Map_set k t m'
  end.

Definition Map_values (m : registry) : list Tool := map snd m.

(** What a query returns: [{ response, toolResults }]. *)
Record Outcome := { response : string; toolResults : obj }.

End Tools.

(* ================================================================== *)
(** ** BaseAgent *)
(* ================================================================== *)

Module BaseAgent.
Import JS Tools Regex.

(** [/\[TOOL_ACTION:([^:]+?)(?:[Tt]ool)?:([^:]+):([^\]]+)\]/g] *)
Definition toolActionRegex : regex :=
  (Lit "[TOOL_ACTION:" ;; Grp 1 (PlusL (not_char ":")) ;;
   Opt (Cls (one_of ["T"; "t"]%char) ;; Lit "ool") ;; Lit ":" ;;
   Grp 2 (PlusG (not_char ":")) ;; Lit ":" ;;
   Grp 3 (PlusG (not_char "]")) ;; Lit "]")%re.

(** [const [fullMatch, toolName, actionName, paramsStr] = match] *)
Definition fullMatch (m : found) : string := matched m.
Definition toolName (m : found) : string := capture 1 (caps m).
Definition actionName (m : found) : string := capture 2 (caps m).
Definition paramsStr (m : found) : string := capture 3 (caps m).

(** The tags of a response, in textual order: the matches the [while]
    loop of [processToolActions] visits.  The loop searches [response],
    which it never changes, so the matches do not depend on the
    processing of earlier tags. *)
Definition extract (response : string) : option (list found) :=
  exec_loop (S (String.length response)) false toolActionRegex response.

(** [registerTool(name, tool)] and [deregisterTool(name)]. *)
Definition registerTool (nm : string) (tool : Tool) (tools : registry) : registry :=
  Map_set nm tool tools.

Definition deregisterTool (nm : string) (tools : registry) : registry * bool :=
  match Map_get nm tools with
  | Some _ => (filter (fun e => negb (String.eqb nm (fst e))) tools, true)
  | None => (tools, false)
  end.

(** [Array.from(this.tools.values()).some(t =>
      t.config.name.toLowerCase() == toolName.toLowerCase())] *)
Fixpoint hasMatchingTool (ts : list Tool) (tn : string) : result bool :=
  match ts with
  | [] => Ok false
  | t :: ts' =>
      match config_name t with
      | None => Throw (TypeError_read "undefined" "toLowerCase")
      | Some n =>
          if String.eqb (Str.toLowerCase n) (Str.toLowerCase tn) then Ok true
          else hasMatchingTool ts' tn
      end
  end.

(** [getActionInfo(tool, actionName)]; [None] is [null]. *)
Definition getActionInfo (tool : Tool) (an : string) : option Action :=
  match getAvailableActions tool with
  | None => None
  | Some actions => find (fun a => String.eqb (name a) an) actions
  end.

(** The [forEach] of [checkRequiredParameters] over the schema entries:
    [if (paramInfo.required && (params[paramName] === undefined
                                || params[paramName] === null))]. *)
Fixpoint missing_required (ps : list (string * ParamInfo)) (params : value)
  : result (list string) :=
  match ps with
  | [] => Ok []
  | (paramName, paramInfo) :: ps' =>
      if required paramInfo then
        match nullish_at params paramName with
        | Throw e => Throw e
        | Ok missing =>
            match missing_required ps' params with
            | Throw e => Throw e
            | Ok l => Ok (if missing then paramName :: l else l)
            end
        end
      else missing_required ps' params
  end.

(** [checkRequiredParameters(actionInfo, params)] *)
Definition checkRequiredParameters (actionInfo : option Action) (params : value)
  : result (list string) :=
  match actionInfo with
  | None => Ok []
  | Some a =>
      match parameters a with
      | None => Ok []
      | Some ps => missing_required ps params
      end
  end.

(** [if (!enhancedParams.key && dflt) enhancedParams.key = dflt] *)
Definition fill_default (key : string) (dflt : option value) (e : obj) : obj :=
  match dflt with
  | Some d => if negb (truthy (get key e)) && truthy dflt then set key d e else e
  | None => e
  end.

(** [if (enhancedParams[key] === undefined) enhancedParams[key] = value] *)
Definition fill_ambient (e : obj) (kv : string * value) : obj :=
  if is_undefined (fst kv) e then set (fst kv) (snd kv) e else e.

(** [enhanceToolParameters(tool, actionName, params, toolParams)] *)
Definition enhanceToolParameters (tool : Tool) (an : string) (params : value)
    (toolParams : obj) : obj :=
  let enhancedParams := spread params in
  let enhancedParams :=
    if String.eqb (constructor_name tool) "GitHubTool" then
      fill_default "repo" (repoName tool)
        (fill_default "owner" (repoOwner tool) enhancedParams)
    else enhancedParams in
  fold_left fill_ambient toolParams enhancedParams.

(** The working state of [processToolActions]: the text buffer, the result
    map, and the history of external calls. *)
Record state := {
  processedResponse : string;
  results : obj;
  calls : history
}.

(** What the body of the outer [try] does for one tag whose parameters
    parsed: nothing found, or an executed action with its result key and
    result, or an exception; with the history after it. *)
Inductive dispatched : Type :=
| NotFound
| Executed (resultKey : string) (r : value).

Definition dispatch (tools : registry) (toolParams : obj) (m : found)
    (params : value) (h : history) : result dispatched * history :=
  match hasMatchingTool (Map_values tools) (toolName m) with
  | Throw e => (Throw e, h)
  | Ok false => (Ok NotFound, h)
  | Ok true =>
      match Map_get (toolName m) tools with
      | None =>
          (* [getActionInfo] reads [tool.getAvailableActions] of [undefined] *)
          (Throw (TypeError_read "undefined" "getAvailableActions"), h)
      | Some tool =>
          let actionInfo := getActionInfo tool (actionName m) in
          match checkRequiredParameters actionInfo params with
          | Throw e => (Throw e, h)
          | Ok [] =>
              let enhancedParams :=
                enhanceToolParameters tool (actionName m) params toolParams in
              let out := execute tool h (actionName m) enhancedParams in
              let h' := (h ++ [EvExecute (toolName m) (actionName m) enhancedParams out])%list in
              match out with
              | Ok r => (Ok (Executed (toolName m ++ "_" ++ actionName m) r), h')
              | Throw e => (Throw e, h')
              end
          | Ok missingParams =>
              (Throw ("Missing required parameters for " ++ actionName m ++ ": "
                      ++ Str.join ", " missingParams), h)
          end
      end
  end.

(** The markers that replace a tag. *)
Definition marker_invalid (m : found) : string :=
  "[Error: Invalid parameter format for " ++ toolName m ++ "." ++ actionName m ++ "]".
Definition marker_success (resultKey : string) : string :=
  "[" ++ resultKey ++ " completed successfully]".
Definition marker_not_found (m : found) : string :=
  "[" ++ toolName m ++ " " ++ actionName m ++ " result: Tool not found]".
Definition marker_error (m : found) (message : string) : string :=
  "[" ++ toolName m ++ " " ++ actionName m ++ " result: Error - " ++ message ++ "]".

Section Protocol.

(** [JSON.parse]; [None] when it throws. *)
Variable JSON_parse : string -> option value.

(** One iteration of the [while] loop of [processToolActions]. *)
Definition process_tag (tools : registry) (toolParams : obj) (m : found)
    (st : state) : state :=
  match JSON_parse (paramsStr m) with
  | None =>
      {| processedResponse :=
           replace (processedResponse st) (fullMatch m) (marker_invalid m);
         results := results st;
         calls := calls st |}
  | Some params =>
      match dispatch tools toolParams m params (calls st) with
      | (Ok (Executed resultKey r), h) =>
          {| processedResponse :=
               replace (processedResponse st) (fullMatch m) (marker_success resultKey);
             results := set resultKey r (results st);
             calls := h |}
      | (Ok NotFound, h) =>
          {| processedResponse :=
               replace (processedResponse st) (fullMatch m) (marker_not_found m);
             results := results st;
             calls := h |}
      | (Throw message, h) =>
          {| processedResponse :=
               replace (processedResponse st) (fullMatch m) (marker_error m message);
             results := results st;
             calls := h |}
      end
  end.

Fixpoint process_tags (tools : registry) (toolParams : obj) (ms : list found)
    (st : state) : state :=
  match ms with
  | [] => st
  | m :: ms' => process_tags tools toolParams ms' (process_tag tools toolParams m st)
  end.

(** [processToolActions(response, toolParams)]; [None] if the loop did not
    end. *)
Definition processToolActions (tools : registry) (response : string)
    (toolParams : obj) (h : history) : option (Outcome * history) :=
  match extract response with
  | None => None
  | Some ms =>
      let st := process_tags tools toolParams ms
                  {| processedResponse := response; results := []; calls := h |} in
      Some ({| response := processedResponse st; toolResults := results st |}, calls st)
  end.

(** [processQuery(query, toolParams)] of [BaseAgent], for the
    [generateCompletion] method of the agent's class. *)
Definition processQuery
    (generateCompletion : string -> obj -> history -> result string * history)
    (tools : registry) (query : string) (toolParams : obj) (h : history)
  : option (result Outcome * history) :=
  match generateCompletion query toolParams h with
  | (Throw e, h') => Some (Throw e, h')
  | (Ok completion, h') =>
      match processToolActions tools completion toolParams h' with
      | Some (out, h'') => Some (Ok out, h'')
      | None => None
      end
  end.

End Protocol.

(** [generateCompletion(query, toolParams)] of a class, once the class has
    gathered its context: the prompt is rendered (not modelled:
    [prompt]), the completion service is called
    ([groqService.generateChatCompletion] by [BaseAgent],
    [groqService.generateCompletion] by the two other classes), and its
    failure is rethrown under the class's prefix. *)
Definition generateCompletion_with
    (groqService : history -> string -> result string)
    (prompt : string -> string) (prefix : string)
    (query : string) (toolParams : obj) (h : history) : result string * history :=
  let out := groqService h (prompt query) in
  (match out with
   | Ok text => Ok text
   | Throw message => Throw (prefix ++ message)
   end,
   (h ++ [EvCompletion (prompt query) out])%list).

Definition generateCompletion groqService prompt :=
  generateCompletion_with groqService prompt "Failed to generate response: ".

End BaseAgent.

(* ================================================================== *)
(** ** GitHubAgent *)
(* ================================================================== *)

Module GitHubAgent.
Import JS Tools Regex.

Record agent := {
  name : string;
  tools : registry;
  repoOwner : option value;        (* config.repoOwner *)
  repoName : option value;         (* config.repoName *)
  octokit : history -> string -> obj -> result value;
                                   (* this.octokit: a method and its argument *)
  groqService : history -> string -> result string
}.

(** [/(?:summarize|summarise|show|explain|tell me about) (?:pull request|PR) #?(\d+)/i] *)
Definition prSummaryPattern : regex :=
  (alts (Lit "summarize") [Lit "summarise"; Lit "show"; Lit "explain"; Lit "tell me about"] ;;
   Lit " " ;; alts (Lit "pull request") [Lit "PR"] ;; Lit " " ;;
   Opt (Lit "#") ;; Grp 1 (PlusG digit))%re.

(** [/(?:review|analyze|analyse) (?:code|changes|pull request|PR) #?(\d+)/i] *)
Definition codeReviewPattern : regex :=
  (alts (Lit "review") [Lit "analyze"; Lit "analyse"] ;; Lit " " ;;
   alts (Lit "code") [Lit "changes"; Lit "pull request"; Lit "PR"] ;; Lit " " ;;
   Opt (Lit "#") ;; Grp 1 (PlusG digit))%re.

(** [match[1]]: the digits of the pull-request number. *)
Definition prDigits (m : found) : string := capture 1 (caps m).

(** [Array.from(this.tools.values()).find(tool =>
      tool.name === "github" || tool.name.includes("github"))],
    with the key the tool is registered under. *)
Definition findGithubTool (ts : registry) : option (string * Tool) :=
  find (fun e => String.eqb (tool_name (snd e)) "github"
                 || Str.includes "github" (tool_name (snd e))) ts.

Definition no_github_tool : Outcome :=
  {| response := "I can't access GitHub right now. Please make sure the GitHub tool is registered.";
     toolResults := [] |}.

(** [{ owner: this.repoOwner, repo: this.repoName, number: prNumber }] *)
Definition pr_params (a : agent) (prNumber : value) : obj :=
  (entry "owner" (repoOwner a) ++ entry "repo" (repoName a)
   ++ [("number", prNumber)])%list.

(** The degraded responses; [prNumber] is the text of the number. *)
Definition summary_failed (prNumber : string) (message : string) : Outcome :=
  {| response := "I encountered an error trying to summarize PR #"
                 ++ prNumber ++ ": " ++ message;
     toolResults := [] |}.

Definition review_failed (prNumber : string) (message : string) : Outcome :=
  {| response := "I encountered an error trying to review PR #"
                 ++ prNumber ++ ": " ++ message;
     toolResults := [] |}.

(** The arguments of the three calls of [getGitHubContext]. *)
Definition repo_args (a : agent) : obj :=
  (entry "owner" (repoOwner a) ++ entry "repo" (repoName a))%list.

Definition open_args (a : agent) : obj :=
  (repo_args a ++ [("state", VStr "open"); ("per_page", VNum 5)])%list.

Section Patterns.

Variable JSON_parse : string -> option value.
(** [parseInt(text, 10)] on the digits of a query, and [`${prNumber}`] for
    its result.  The result is a double: digits that denote an integer
    below 2^53 give that integer, printed as it is written; a longer
    numeral is rounded to the nearest double.  The development is
    parametric in the two conversions. *)
Variable parseInt : string -> value.
Variable Number_toString : value -> string.
(** The hand-written reports built from the number and a tool result
    (their text is not modelled); they throw when the result lacks a field
    they read. *)
Variable summary_report : value -> value -> result string.
Variable review_report : value -> value -> result string.
(** The text that [getGitHubContext] builds from the answers of the three
    calls (not modelled); it is the text of the failure when an answer
    lacks a field that is read. *)
Variable context_report : value -> value -> value -> string.
(** The prompt of [generateCompletion], from the context and the query
    (its text is not modelled). *)
Variable prompt : agent -> string -> string -> string.

(** [processGitHubPatterns(query)]; [None] is [null]: no pattern matched. *)
Definition processGitHubPatterns (a : agent) (query : string) (h : history)
  : option Outcome * history :=
  match search true prSummaryPattern query with
  | Some prSummaryMatch =>
      let prNumber := parseInt (prDigits prSummaryMatch) in
      match findGithubTool (tools a) with
      | None => (Some no_github_tool, h)
      | Some (key, githubTool) =>
          let params := pr_params a prNumber in
          let out := execute githubTool h "summarizePR" params in
          let h' := (h ++ [EvExecute key "summarizePR" params out])%list in
          match out with
          | Throw message =>
              (Some (summary_failed (Number_toString prNumber) message), h')
          | Ok summary =>
              match summary_report prNumber summary with
              | Throw message =>
                  (Some (summary_failed (Number_toString prNumber) message), h')
              | Ok text =>
                  (Some {| response := text; toolResults := [("summary", summary)] |}, h')
              end
          end
      end
  | None =>
      match search true codeReviewPattern query with
      | Some codeReviewMatch =>
          let prNumber := parseInt (prDigits codeReviewMatch) in
          match findGithubTool (tools a) with
          | None => (Some no_github_tool, h)
          | Some (key, githubTool) =>
              let params := pr_params a prNumber in
              let out := execute githubTool h "reviewCode" params in
              let h' := (h ++ [EvExecute key "reviewCode" params out])%list in
              match out with
              | Throw message =>
                  (Some (review_failed (Number_toString prNumber) message), h')
              | Ok review =>
                  match review_report prNumber review with
                  | Throw message =>
                      (Some (review_failed (Number_toString prNumber) message), h')
                  | Ok text =>
                      (Some {| response := text; toolResults := [("review", review)] |}, h')
                  end
              end
          end
      | None => (None, h)
      end
  end.

(** [getGitHubContext()]: without a configured repository, the fixed
    text; else [repos.get], [issues.listForRepo] and [pulls.list], in this
    order and up to the first that fails, whose message the text then
    carries. *)
Definition getGitHubContext (a : agent) (h : history) : string * history :=
  if negb (truthy (repoOwner a)) || negb (truthy (repoName a))
  then ("No GitHub repository configured.", h)
  else
    let out1 := octokit a h "repos.get" (repo_args a) in
    let h1 := (h ++ [EvOctokit "repos.get" (repo_args a) out1])%list in
    match out1 with
    | Throw message => ("Failed to get GitHub context: " ++ message, h1)
    | Ok repoInfo =>
        let out2 := octokit a h1 "issues.listForRepo" (open_args a) in
        let h2 := (h1 ++ [EvOctokit "issues.listForRepo" (open_args a) out2])%list in
        match out2 with
        | Throw message => ("Failed to get GitHub context: " ++ message, h2)
        | Ok issues =>
            let out3 := octokit a h2 "pulls.list" (open_args a) in
            let h3 := (h2 ++ [EvOctokit "pulls.list" (open_args a) out3])%list in
            match out3 with
            | Throw message => ("Failed to get GitHub context: " ++ message, h3)
            | Ok prs => (context_report repoInfo issues prs, h3)
            end
        end
    end.

(** [generateCompletion(query, toolParams)] of [GitHubAgent]: the context
    is gathered first. *)
Definition generateCompletion (a : agent) (query : string) (toolParams : obj)
    (h : history) : result string * history :=
  let (githubContext, h') := getGitHubContext a h in
  BaseAgent.generateCompletion_with (groqService a) (prompt a githubContext)
    "Failed to generate GitHub response: " query toolParams h'.

(** [processQuery(query, toolParams)] of [GitHubAgent]. *)
Definition processQuery (a : agent) (query : string) (toolParams : obj) (h : history)
  : option (result Outcome * history) :=
  match processGitHubPatterns a query h with
  | (Some r, h') => Some (Ok r, h')
  | (None, h') =>
      BaseAgent.processQuery JSON_parse (generateCompletion a) (tools a) query toolParams h'
  end.

End Patterns.
End GitHubAgent.

(* ================================================================== *)
(** ** SlackAgent *)
(* ================================================================== *)

Module SlackAgent.
Import JS Tools Regex.

(** The methods of the Slack web client the agent calls. *)
Record WebClient := {
  chat_postMessage : history -> obj -> result value;
  conversations_info : history -> obj -> result value;
  conversations_history : history -> obj -> result value;
  conversations_create : history -> obj -> result value;
  conversations_list : history -> obj -> result value
}.

Record agent := {
  name : string;
  tools : registry;
  client : option WebClient;       (* set when a token is configured *)
  defaultChannel : string;
  groqService : history -> string -> result string
}.

(** [/send (?:a )?message to (?:channel )?(?:#)?(\w+) saying (.+)/i] *)
Definition sendMessagePattern : regex :=
  (Lit "send " ;; Opt (Lit "a ") ;; Lit "message to " ;; Opt (Lit "channel ") ;;
   Opt (Lit "#") ;; Grp 1 (PlusG word) ;; Lit " saying " ;; Grp 2 (PlusG dot))%re.

(** [/(?:get|show|tell me about) (?:channel|conversation) (?:#)?(\w+)/i] *)
Definition getChannelInfoPattern : regex :=
  (alts (Lit "get") [Lit "show"; Lit "tell me about"] ;; Lit " " ;;
   alts (Lit "channel") [Lit "conversation"] ;; Lit " " ;;
   Opt (Lit "#") ;; Grp 1 (PlusG word))%re.

(** [/create (?:a )?(?:new )?channel (?:called )?(?:#)?(\w+)/i] *)
Definition createChannelPattern : regex :=
  (Lit "create " ;; Opt (Lit "a ") ;; Opt (Lit "new ") ;; Lit "channel " ;;
   Opt (Lit "called ") ;; Opt (Lit "#") ;; Grp 1 (PlusG word))%re.

(** [m && m[1]]: a match whose first group is not empty. *)
Definition match1 (pattern : regex) (query : string) : option found :=
  match search true pattern query with
  | Some m => if String.eqb (capture 1 (caps m)) "" then None else Some m
  | None => None
  end.

(** [sendMessage(channel, text)] *)
Definition sendMessage (a : agent) (channel text : string) (h : history)
  : result value * history :=
  match client a with
  | None => (Throw "Slack client not initialized", h)
  | Some c =>
      let messageParams :=
        [("channel", VStr (if String.eqb channel "" then defaultChannel a else channel));
         ("text", VStr text)] in
      let out := chat_postMessage c h messageParams in
      (out, (h ++ [EvSlack "chat.postMessage" messageParams out])%list)
  end.

(** [name.toLowerCase().replace(/[^a-z0-9_-]/g, '-').substring(0, 79)] *)
Fixpoint dashed (s : string) : string :=
  match s with
  | EmptyString => EmptyString
  | String c s' =>
      String (if Str.is_lower c || digit c || Ascii.eqb c "_" || Ascii.eqb c "-"
              then c else "-"%char) (dashed s')
  end.

Definition formattedName (nm : string) : string :=
  Str.take 79 (dashed (Str.toLowerCase nm)).

(** [createChannel(name)], with [isPrivate = false]. *)
Definition createChannel (a : agent) (nm : string) (h : history)
  : result value * history :=
  match client a with
  | None => (Throw "Slack client not initialized", h)
  | Some c =>
      let args := [("name", VStr (formattedName nm)); ("is_private", VBool false)] in
      let out := conversations_create c h args in
      (out, (h ++ [EvSlack "conversations.create" args out])%list)
  end.

Definition channel_info_failed (channel message : string) : Outcome :=
  {| response := "Couldn't get information for channel #" ++ channel ++ ": " ++ message;
     toolResults := [("error", VStr message)] |}.

Definition create_channel_failed (channelName message : string) : Outcome :=
  {| response := "Failed to create channel #" ++ channelName ++ ": " ++ message;
     toolResults := [("error", VStr message)] |}.

(** [result.channel.name] *)
Definition channel_name (r : value) : result (option value) :=
  match get_prop (Some r) "channel" with
  | Throw e => Throw e
  | Ok ch => get_prop ch "name"
  end.

Section Patterns.

Variable JSON_parse : string -> option value.
(** The report built from a channel's info and history (its text is not
    modelled); it throws when they lack a field it reads. *)
Variable channel_report : value -> value -> result Outcome.
(** The text that [getSlackContext] builds from the outcomes of its two
    calls (not modelled): each call has its own [try], so a failed one
    only changes the text. *)
Variable context_report : agent -> result value -> result value -> string.
(** The prompt of [generateCompletion], from the context and the query
    (its text is not modelled). *)
Variable prompt : agent -> string -> string -> string.

(** [processSlackQuery(query)]; [None] is [null]. *)
Definition processSlackQuery (a : agent) (query : string) (h : history)
  : option Outcome * history :=
  match search true sendMessagePattern query with
  | Some sendMessageMatch =>
      let channel := capture 1 (caps sendMessageMatch) in
      let message := capture 2 (caps sendMessageMatch) in
      match client a with
      | Some _ =>
          match sendMessage a channel message h with
          | (Ok r, h') =>
              (Some {| response := "Message sent to #" ++ channel ++ ": " ++ Str.quoted message;
                       toolResults := [("slack_sendMessage", r)] |}, h')
          | (Throw _, h') =>
              (* the outer [catch]: "Fall back to LLM if direct processing fails" *)
              (None, h')
          end
      | None =>
          (Some {| response := "Cannot send message: Slack client not initialized";
                   toolResults := [] |}, h)
      end
  | None =>
      match match1 getChannelInfoPattern query with
      | Some channelInfoMatch =>
          let channel := capture 1 (caps channelInfoMatch) in
          match client a with
          | Some c =>
              let args1 := [("channel", VStr channel)] in
              let out1 := conversations_info c h args1 in
              let h1 := (h ++ [EvSlack "conversations.info" args1 out1])%list in
              match out1 with
              | Throw message => (Some (channel_info_failed channel message), h1)
              | Ok channelInfo =>
                  let args2 := [("channel", VStr channel); ("limit", VNum 5)] in
                  let out2 := conversations_history c h1 args2 in
                  let h2 := (h1 ++ [EvSlack "conversations.history" args2 out2])%list in
                  match out2 with
                  | Throw message => (Some (channel_info_failed channel message), h2)
                  | Ok hist =>
                      match channel_report channelInfo hist with
                      | Throw message => (Some (channel_info_failed channel message), h2)
                      | Ok out => (Some out, h2)
                      end
                  end
              end
          | None =>
              (Some {| response := "Cannot get channel info: Slack client not initialized";
                       toolResults := [] |}, h)
          end
      | None =>
          match match1 createChannelPattern query with
          | Some createChannelMatch =>
              let channelName := Str.toLowerCase (capture 1 (caps createChannelMatch)) in
              match client a with
              | Some _ =>
                  match createChannel a channelName h with
                  | (Throw message, h') =>
                      (Some (create_channel_failed channelName message), h')
                  | (Ok r, h') =>
                      match channel_name r with
                      | Throw message =>
                          (Some (create_channel_failed channelName message), h')
                      | Ok nm =>
                          (Some {| response := "Channel #" ++ template nm
                                               ++ " has been created successfully!";
                                   toolResults := [("slack_createChannel", r)] |}, h')
                      end
                  end
              | None =>
                  (Some {| response := "Cannot create channel: Slack client not initialized";
                           toolResults := [] |}, h)
              end
          | None => (None, h)
          end
      end
  end.

(** [getSlackContext()] with a client: [conversations.list], then
    [conversations.history] of the default channel, whether or not the
    first call failed. *)
Definition getSlackContext (a : agent) (c : WebClient) (h : history)
  : string * history :=
  let args1 := [("limit", VNum 10); ("exclude_archived", VBool true)] in
  let out1 := conversations_list c h args1 in
  let h1 := (h ++ [EvSlack "conversations.list" args1 out1])%list in
  let args2 := [("channel", VStr (defaultChannel a)); ("limit", VNum 5)] in
  let out2 := conversations_history c h1 args2 in
  (context_report a out1 out2,
   (h1 ++ [EvSlack "conversations.history" args2 out2])%list).

(** [generateCompletion(query, toolParams)] of [SlackAgent]: the context
    is gathered first, when there is a client. *)
Definition generateCompletion (a : agent) (query : string) (toolParams : obj)
    (h : history) : result string * history :=
  let (slackContext, h') :=
    match client a with
    | Some c => getSlackContext a c h
    | None => ("Slack context not available. Please configure Slack credentials.", h)
    end in
  BaseAgent.generateCompletion_with (groqService a) (prompt a slackContext)
    "Failed to generate Slack response: " query toolParams h'.

(** [processQuery(query, toolParams)] of [SlackAgent]. *)
Definition processQuery (a : agent) (query : string) (toolParams : obj) (h : history)
  : option (result Outcome * history) :=
  match processSlackQuery a query h with
  | (Some r, h') => Some (Ok r, h')
  | (None, h') =>
      BaseAgent.processQuery JSON_parse (generateCompletion a) (tools a) query toolParams h'
  end.

End Patterns.
End SlackAgent.

(* ================================================================== *)
(** ** Notions the statements below use *)
(* ================================================================== *)

Module Notions.
Import JS Tools Regex BaseAgent.

(** The tag syntax: [[TOOL_ACTION:tool:action:params]]. *)
Definition serialize (tool action params : string) : string :=
  "[TOOL_ACTION:" ++ tool ++ ":" ++ action ++ ":" ++ params ++ "]".

(** [s] is [x ++ "Tool"] or [x ++ "tool"] with [x] not empty: the tool
    tokens whose suffix the tag pattern leaves out of its first group. *)
Definition is_suffix_word (u : string) : bool :=
  String.eqb u "Tool" || String.eqb u "tool".

Fixpoint strip_tool_suffix (tool : string) : string :=
  match tool with
  | EmptyString => EmptyString
  | String c t =>
      if is_suffix_word t then String c EmptyString
      else
        match t with
        | EmptyString => String c EmptyString
        | _ => String c (strip_tool_suffix t)
        end
  end.

(** The invocations the extractor reads in a text: tool token, action
    name and parameter text of each tag. *)
Definition invocations (response : string) : option (list (string * string * string)) :=
  option_map (map (fun m => (toolName m, actionName m, paramsStr m))) (extract response).

(** A string that matches [r] from its first to its last character. *)
Inductive Matches (ci : bool) : regex -> string -> Prop :=
| MLit l u : lit ci l u = Some "" -> Matches ci (Lit l) u
| MCls (p : ascii -> bool) c : p c = true -> Matches ci (Cls p) (String c "")
| MPlusG p u : u <> "" -> Str.all p u = true -> Matches ci (PlusG p) u
| MPlusL p u : u <> "" -> Str.all p u = true -> Matches ci (PlusL p) u
| MOptNone r : Matches ci (Opt r) ""
| MOptSome r u : Matches ci r u -> Matches ci (Opt r) u
| MSeq r1 r2 u1 u2 : Matches ci r1 u1 -> Matches ci r2 u2 -> Matches ci (Seq r1 r2) (u1 ++ u2)
| MAltL r1 r2 u : Matches ci r1 u -> Matches ci (Alt r1 r2) u
| MAltR r1 r2 u : Matches ci r2 u -> Matches ci (Alt r1 r2) u
| MGrp i r u : Matches ci r u -> Matches ci (Grp i r) u.




(** The required parameters of a schema that an object leaves out: those
    for which it has no entry, or the entry [null], in schema order. *)
Definition missing_names (ps : list (string * ParamInfo)) (params : obj) : list string :=
  map fst (filter (fun e => required (snd e) && nullish (get (fst e) params)) ps).

(** The names that [checkRequiredParameters] reports on an object: a
    required name is read through the prototype chain, so one that the
    object leaves out is reported unless [Object.prototype] has a member
    of that name. *)
Definition reads_nullish (params : obj) (nm : string) : bool :=
  match get nm params with
  | Some x => nullish (Some x)
  | None => negb (listed nm Object_prototype)
  end.

Definition reported_names (ps : list (string * ParamInfo)) (params : obj) : list string :=
  map fst (filter (fun e => required (snd e) && reads_nullish params (fst e)) ps).

(** No required parameter of the schema bears the name of a member of
    [Object.prototype]. *)
Definition ordinary_names (ps : list (string * ParamInfo)) : Prop :=
  forall nm info, In (nm, info) ps -> required info = true -> ~ In nm Object_prototype.

Definition schema_of (a : Action) : list (string * ParamInfo) :=
  match parameters a with
  | Some ps => ps
  | None => []
  end.

(** The three layers of the enhanced parameters, key by key: the
    repository defaults of a [GitHubTool] replace an [owner] or [repo]
    that is absent or falsy in the tag; any other key of the tag stays;
    the ambient parameters fill the keys that are still absent. *)
Definition contextual (tool : Tool) (params : obj) (k : string) : option value :=
  if String.eqb (constructor_name tool) "GitHubTool"
     && String.eqb k "owner"
     && negb (truthy (get "owner" params)) && truthy (Tools.repoOwner tool)
  then Tools.repoOwner tool
  else if String.eqb (constructor_name tool) "GitHubTool"
     && String.eqb k "repo"
     && negb (truthy (get "repo" params)) && truthy (Tools.repoName tool)
  then Tools.repoName tool
  else get k params.

Definition merged (tool : Tool) (params toolParams : obj) (k : string) : option value :=
  match contextual tool params k with
  | Some v => Some v
  | None => get k toolParams
  end.

(** A key that an assignment adds last when it is new: it is no array
    index and not [__proto__]. *)
Definition named (k : string) : Prop := k <> "__proto__" /\ array_index k = None.

(** No tag of the text has [__proto__] as the key of its result. *)
Definition plain_keys (ms : list found) : Prop :=
  forall m, In m ms -> toolName m ++ "_" ++ actionName m <> "__proto__".

(** The executions of a history that returned, each with the key it is
    stored under. *)
Fixpoint stored (h : history) : list (string * value) :=
  match h with
  | [] => []
  | EvExecute tool action _ (Ok r) :: h' => (tool ++ "_" ++ action, r) :: stored h'
  | _ :: h' => stored h'
  end.

(** [toolResults[key] = result] *)
Definition store (o : obj) (kv : string * value) : obj := set (fst kv) (snd kv) o.

(** The calls one tag adds to the history: none, or one execution of the
    tag's action on the tool registered under the tag's token. *)
Definition tag_events (m : found) (ev : history) : Prop :=
  ev = [] \/ exists params out, ev = [EvExecute (toolName m) (actionName m) params out].

Definition mem (x : string) (l : list string) : bool := existsb (String.eqb x) l.

(** The distinct elements of [l] not in [seen], in the order of their
    first occurrence. *)
Fixpoint first_occurrences (seen l : list string) : list string :=
  match l with
  | [] => []
  | x :: l' =>
      if mem x seen then first_occurrences seen l'
      else x :: first_occurrences (x :: seen) l'
  end.

(** The value of the last entry of [l] under [k]. *)
Fixpoint last_under (k : string) (l : list (string * value)) : option value :=
  match l with
  | [] => None
  | (k', v) :: l' =>
      match last_under k l' with
      | Some w => Some w
      | None => if String.eqb k k' then Some v else None
      end
  end.

End Notions.

(* ================================================================== *)
(** ** Sample tools and agents *)
(* ================================================================== *)

Module Samples.
Import Str JS Tools.

Definition echo (h : history) (action : string) (params : obj) : result value :=
  Ok (VObj [("success", VBool true); ("data", VObj params)]).

Definition failing (message : string) (h : history) (action : string) (params : obj)
  : result value := Throw message.

(** A [GitHubTool] for the repository acme/dock. *)
Definition githubTool : Tool :=
  {| tool_name := "github";
     config_name := Some "github";
     constructor_name := "GitHubTool";
     Tools.repoOwner := Some (VStr "acme");
     Tools.repoName := Some (VStr "dock");
     getAvailableActions := Some
       [ {| name := "info"; parameters := Some [] |};
         {| name := "getPR";
            parameters := Some [("number", {| required := true |})] |};
         {| name := "createComment";
            parameters := Some [("number", {| required := true |});
                                ("body", {| required := true |})] |};
         {| name := "getRepository";
            parameters := Some [("owner", {| required := true |});
                                ("repo", {| required := true |})] |} ];
     execute := echo |}.

(** The same tool when the GitHub API answers every call with an error. *)
Definition downGithubTool : Tool :=
  {| tool_name := "github";
     config_name := Some "github";
     constructor_name := "GitHubTool";
     Tools.repoOwner := Some (VStr "acme");
     Tools.repoName := Some (VStr "dock");
     getAvailableActions := getAvailableActions githubTool;
     execute := failing "Not Found" |}.

(** A [SlackTool]. *)
Definition slackTool : Tool :=
  {| tool_name := "slack";
     config_name := Some "slack";
     constructor_name := "SlackTool";
     Tools.repoOwner := None;
     Tools.repoName := None;
     getAvailableActions := Some
       [ {| name := "sendMessage";
            parameters := Some [("channel", {| required := true |});
                                ("text", {| required := true |});
                                ("blocks", {| required := false |})] |} ];
     execute := echo |}.

(** A tool without catalog whose every action fails. *)
Definition brokenTool : Tool :=
  {| tool_name := "legacy";
     config_name := Some "legacy";
     constructor_name := "Object";
     Tools.repoOwner := None;
     Tools.repoName := None;
     getAvailableActions := None;
     execute := failing "service unavailable" |}.

Definition tools : registry :=
  [("github", githubTool); ("slack", slackTool); ("legacy", brokenTool)].

(** A tool one of whose required parameters bears the name of a member
    of [Object.prototype]. *)
Definition scaffoldTool : Tool :=
  {| tool_name := "scaffold";
     config_name := Some "scaffold";
     constructor_name := "ScaffoldTool";
     Tools.repoOwner := None;
     Tools.repoName := None;
     getAvailableActions := Some
       [ {| name := "createClass";
            parameters := Some [("name", {| required := true |});
                                ("constructor", {| required := true |})] |} ];
     execute := echo |}.

(** A tool without catalog, registered under its name. *)
Definition deployTool (nm : string) : Tool :=
  {| tool_name := nm;
     config_name := Some nm;
     constructor_name := "DeployTool";
     Tools.repoOwner := None;
     Tools.repoName := None;
     getAvailableActions := None;
     execute := echo |}.

(** [{"number": n}] and the like, as JSON text. *)
Definition json_number (n : string) : string := "{" ++ quoted "number" ++ ": " ++ n ++ "}".
Definition json_name (t : string) : string := "{" ++ quoted "name" ++ ": " ++ quoted t ++ "}".

(** The match of a tag in a text: the text before it, the token without
    its suffix, the suffix, the action name, the parameter text and the
    text after the tag. *)
Definition tag (before tool suffix action params rest : string) : Regex.found :=
  {| Regex.before := before;
     Regex.matched := Notions.serialize (tool ++ suffix) action params;
     Regex.caps := [(3, params); (2, action); (1, tool)];
     Regex.rest := rest |}.


(** A completion that asks for the same action twice. *)
Definition text_repeated : string :=
  "a " ++ Notions.serialize "github" "getPR" (json_number "1")
  ++ " b " ++ Notions.serialize "github" "info" "{}"
  ++ " c " ++ Notions.serialize "github" "getPR" (json_number "2").

Definition tags_repeated : list Regex.found :=
  [ tag "a " "github" "" "getPR" (json_number "1")
      (" b " ++ Notions.serialize "github" "info" "{}"
       ++ " c " ++ Notions.serialize "github" "getPR" (json_number "2"));
    tag " b " "github" "" "info" "{}"
      (" c " ++ Notions.serialize "github" "getPR" (json_number "2"));
    tag " c " "github" "" "getPR" (json_number "2") "" ].

Definition start (response : string) : BaseAgent.state :=
  {| BaseAgent.processedResponse := response; BaseAgent.results := []; BaseAgent.calls := [] |}.

(** A completion service that answers every prompt with [text], and one
    that cannot be reached. *)
Definition answers (text : string) (h : history) (prompt : string) : result string := Ok text.
Definition unreachable (h : history) (prompt : string) : result string := Throw "timeout".

Definition plain_prompt {A : Type} (a : A) (context query : string) : string := query.

(** [parseInt] on the digits of a number below 2^53, as the examples
    have them. *)
Definition parseInt (digits : string) : value := VNum (Z.of_N (parse_digits 0 digits)).

(** A GitHub client that cannot be reached, and the text of a context. *)
Definition offline (h : history) (method : string) (args : obj) : result value :=
  Throw "getaddrinfo ENOTFOUND api.github.com".
Definition no_context (repoInfo issues prs : value) : string := "context".

(** [`${n}`] for such a number. *)
Definition Number_toString (n : value) : string := JS.to_string n.

Definition githubAgent (t : Tool) : GitHubAgent.agent :=
  {| GitHubAgent.name := "gh";
     GitHubAgent.tools := [("github", t)];
     GitHubAgent.repoOwner := Some (VStr "acme");
     GitHubAgent.repoName := Some (VStr "dock");
     GitHubAgent.octokit := offline;
     GitHubAgent.groqService := answers "model text" |}.

Definition no_report (n : value) (v : value) : result string := Ok "report".

(** A Slack client whose every call fails with [message]. *)
Definition downClient (message : string) : SlackAgent.WebClient :=
  {| SlackAgent.chat_postMessage := fun _ _ => Throw message;
     SlackAgent.conversations_info := fun _ _ => Throw message;
     SlackAgent.conversations_history := fun _ _ => Throw message;
     SlackAgent.conversations_create := fun _ _ => Throw message;
     SlackAgent.conversations_list := fun _ _ => Throw message |}.

Definition slackAgent : SlackAgent.agent :=
  {| SlackAgent.name := "sl";
     SlackAgent.tools := [("slack", slackTool)];
     SlackAgent.client := Some (downClient "channel_not_found");
     SlackAgent.defaultChannel := "general";
     SlackAgent.groqService := answers "model text" |}.

Definition no_channel_report (info hist : value) : result Outcome :=
  Ok {| response := "report"; toolResults := [] |}.

Definition no_slack_context (a : SlackAgent.agent) (channels messages : result value)
  : string := "context".

End Samples.

(* ================================================================== *)
(** ** Notions for the further properties *)
(* ================================================================== *)

From Stdlib Require DecimalN.

Module Shapes.
Import JS Tools Regex BaseAgent.

(** The text made of the given matches, each after the text that comes
    before it, and of [tail]. *)
Fixpoint reassemble (ms : list found) (tail : string) : string :=
  match ms with
  | [] => tail
  | m :: ms' => before m ++ matched m ++ reassemble ms' tail
  end.

(** The shape of an extracted tag: tokens without colon, a parameter text
    without closing bracket, none of them empty, and the text of the tag
    is their serialization, with or without the [Tool] suffix. *)
Definition tag_shape (m : found) : Prop :=
  toolName m <> "" /\ Str.all (not_char ":") (toolName m) = true
  /\ actionName m <> "" /\ Str.all (not_char ":") (actionName m) = true
  /\ paramsStr m <> "" /\ Str.all (not_char "]") (paramsStr m) = true
  /\ exists suffix,
       (suffix = "" \/ Notions.is_suffix_word suffix = true)
       /\ fullMatch m
          = Notions.serialize (toolName m ++ suffix) (actionName m) (paramsStr m).

(** An event is an execution, on a tool of the registry, registered under
    the token the event names. *)
Definition registered_execution (tools : registry) (e : Event) : Prop :=
  exists key action params out tool,
    e = EvExecute key action params out /\ Map_get key tools = Some tool.

Definition is_completion (e : Event) : bool :=
  match e with
  | EvCompletion _ _ => true
  | _ => false
  end.

(** The required names of a schema, in schema order. *)
Definition required_names (ps : list (string * ParamInfo)) : list string :=
  map fst (filter (fun e => required (snd e)) ps).

(** [t.config.name.toLowerCase() == toolName.toLowerCase()] for a tool
    that has a configured name. *)
Definition config_matches (tn : string) (t : Tool) : bool :=
  match config_name t with
  | Some n => String.eqb (Str.toLowerCase n) (Str.toLowerCase tn)
  | None => false
  end.

Definition registry_keys (m : registry) : list string := map fst m.

(** The characters of a Slack channel name: [[a-z0-9_-]]. *)
Definition channel_char (c : ascii) : bool :=
  Str.is_lower c || digit c || Ascii.eqb c "_" || Ascii.eqb c "-".

(** The phrasings of the pull-request patterns. *)
Definition summary_verbs : list string :=
  ["summarize"; "summarise"; "show"; "explain"; "tell me about"].
Definition summary_nouns : list string := ["pull request"; "PR"].
Definition review_verbs : list string := ["review"; "analyze"; "analyse"].
Definition review_nouns : list string := ["code"; "changes"; "pull request"; "PR"].

(** [tail] does not go on with a character of the class [p]. *)
Definition stops (p : ascii -> bool) (tail : string) : bool :=
  match tail with
  | EmptyString => true
  | String c _ => negb (p c)
  end.

(** The number a decimal numeral denotes after the digits read so far
    gave [acc]. *)
Fixpoint uint_value (d : Decimal.uint) (acc : N) : N :=
  match d with
  | Decimal.Nil => acc
  | Decimal.D0 l => uint_value l (10 * acc)%N
  | Decimal.D1 l => uint_value l (10 * acc + 1)%N
  | Decimal.D2 l => uint_value l (10 * acc + 2)%N
  | Decimal.D3 l => uint_value l (10 * acc + 3)%N
  | Decimal.D4 l => uint_value l (10 * acc + 4)%N
  | Decimal.D5 l => uint_value l (10 * acc + 5)%N
  | Decimal.D6 l => uint_value l (10 * acc + 6)%N
  | Decimal.D7 l => uint_value l (10 * acc + 7)%N
  | Decimal.D8 l => uint_value l (10 * acc + 8)%N
  | Decimal.D9 l => uint_value l (10 * acc + 9)%N
  end.

(** A query in one of the phrasings of a pull-request pattern. *)
Definition phrased (verb noun hash : string) (n : N) (tail : string) : string :=
  verb ++ " " ++ noun ++ " " ++ hash ++ Str.of_N n ++ tail.

End Shapes.


(* ================================================================== *)
(** ** GitHubTool

    [this.actions], [this.validateParams] and [this.logger] are set by
    [BaseTool], which is not part of these sources: the first two are
    fields of the tool here, logging through [this.logger] is not
    modelled.  The Octokit client is a function of the calls made so far;
    what it gives is the [data] of the response. *)
(* ================================================================== *)

Module GitHubTool.
Import Str JS Tools.

(** One call of the Octokit client. *)
Record call := { method : string; args : obj; outcome : result value }.
Definition log := list call.

Record tool := {
  repoOwner : option value;          (* toolConfig.config.repoOwner *)
  repoName : option value;           (* toolConfig.config.repoName *)
  octokit : log -> string -> obj -> result value;
  actions : list Action;             (* this.actions *)
  validateParams : string -> obj -> option (list (string * ParamInfo)) -> result unit;
  logger_bound : bool                (* whether the free name [logger] is bound *)
}.

(** [await this.octokit.<method>(args)] *)
Definition request (t : tool) (l : log) (m : string) (a : obj) : result value * log :=
  let out := octokit t l m a in
  (out, (l ++ [{| method := m; args := a; outcome := out |}])%list).

(** The schemas of the catalog.  The last two actions give their
    parameters as an array, whose entries [Object.entries] keys by index;
    such an entry has no [required] member. *)
Definition number_only : list (string * ParamInfo) :=
  [("number", {| required := true |})].
Definition state_limit : list (string * ParamInfo) :=
  [("state", {| required := false |}); ("limit", {| required := false |})].
Definition indexed (n : nat) : list (string * ParamInfo) :=
  map (fun i => (Str.of_N (N.of_nat i), {| required := false |})) (seq 0 n).

(** [getAvailableActions()] *)
Definition getAvailableActions : list Action :=
  [ {| name := "info"; parameters := Some [] |};
    {| name := "listPRs"; parameters := Some state_limit |};
    {| name := "getPR"; parameters := Some number_only |};
    {| name := "listIssues"; parameters := Some state_limit |};
    {| name := "getIssue"; parameters := Some number_only |};
    {| name := "reviewCode"; parameters := Some number_only |};
    {| name := "summarizePR"; parameters := Some number_only |};
    {| name := "getChangedFiles"; parameters := Some number_only |};
    {| name := "reviewCode"; parameters := Some number_only |};
    {| name := "createComment";
       parameters := Some [("number", {| required := true |});
                           ("body", {| required := true |})] |};
    {| name := "mergePullRequest"; parameters := Some (indexed 5) |};
    {| name := "declinePullRequest"; parameters := Some (indexed 4) |} ].

(** The methods the [switch] of [execute] calls. *)
Inductive method_name : Type :=
| GetInfo | GetRepositories | GetPullRequests | GetPR | ListIssues | GetIssue
| SummarizePR | GetChangedFiles | ReviewCode | CreateComment
| MergePullRequest | DeclinePullRequest.

(** The [case] labels of the [switch], in source order. *)
Definition cases : list (string * method_name) :=
  [ ("info", GetInfo);
    ("listRepositories", GetRepositories); ("getRepositories", GetRepositories);
    ("listRepositories", GetRepositories); ("getRepositories", GetRepositories);
    ("listPRs", GetPullRequests); ("getPullRequests", GetPullRequests);
    ("getPR", GetPR); ("getPullRequestDetails", GetPR);
    ("listIssues", ListIssues);
    ("getIssue", GetIssue);
    ("summarizePR", SummarizePR); ("summarizePullRequest", SummarizePR);
    ("getChangedFiles", GetChangedFiles);
    ("reviewPR", ReviewCode); ("reviewCode", ReviewCode); ("codeReview", ReviewCode);
    ("addComment", CreateComment); ("addNewComment", CreateComment);
    ("createComment", CreateComment);
    ("mergePR", MergePullRequest); ("mergePullRequest", MergePullRequest);
    ("declinePR", DeclinePullRequest); ("declinePullRequest", DeclinePullRequest) ].

Definition switch (action : string) : option method_name :=
  option_map snd (find (fun c => String.eqb action (fst c)) cases).

(** A destructuring default, [{ k = d } = params]. *)
Definition or_default (v d : option value) : option value :=
  match v with
  | None => d
  | Some _ => v
  end.

(** [{ owner, repo, pull_number: number }] *)
Definition target (owner repo number : option value) : obj :=
  (entry "owner" owner ++ entry "repo" repo ++ entry "pull_number" number)%list.

(** [{ success: false, data: { message } }] *)
Definition refusal (message : string) : value :=
  VObj [("success", VBool false); ("data", VObj [("message", VStr message)])].

(** [mergePullRequest(params)] *)
Definition mergePullRequest (t : tool) (params : obj) (l : log) : result value * log :=
  let owner := or_default (get "owner" params) (repoOwner t) in
  let repo := or_default (get "repo" params) (repoName t) in
  let number := get "number" params in
  let commit_message := get "commit_message" params in
  let merge_method := or_default (get "merge_method" params) (Some (VStr "merge")) in
  let commit_title := get "commit_title" params in
  if negb (truthy owner) || negb (truthy repo)
  then (Throw "Repository owner and name are required", l)
  else if negb (truthy number) then (Throw "Pull request number is required", l)
  else
    let failed (message : string) : result value :=
      Throw ("Failed to merge PR #" ++ template number ++ ": " ++ message) in
    match request t l "pulls.get" (target owner repo number) with
    | (Throw message, l1) => (failed message, l1)
    | (Ok pr, l1) =>
        match get_prop (Some pr) "merged" with
        | Throw message => (failed message, l1)
        | Ok merged =>
            if truthy merged then
              (Ok (refusal ("Pull request #" ++ template number
                            ++ " has already been merged")), l1)
            else
              match get_prop (Some pr) "mergeable" with
              | Throw message => (failed message, l1)
              | Ok (Some (VBool false)) =>
                  (Ok (refusal ("Pull request #" ++ template number
                                ++ " has conflicts that must be resolved before merging")),
                   l1)
              | Ok _ =>
                  let mergeParams :=
                    (target owner repo number ++ entry "merge_method" merge_method
                     ++ (if truthy commit_message
                         then entry "commit_message" commit_message else [])
                     ++ (if truthy commit_title
                         then entry "commit_title" commit_title else []))%list in
                  match request t l1 "pulls.merge" mergeParams with
                  | (Throw message, l2) => (failed message, l2)
                  | (Ok result, l2) =>
                      match get_prop (Some result) "merged" with
                      | Throw message => (failed message, l2)
                      | Ok result_merged =>
                          match get_prop (Some result) "sha" with
                          | Throw message => (failed message, l2)
                          | Ok sha =>
                              (Ok (VObj
                                 [("success", VBool true);
                                  ("data",
                                   VObj ([("message",
                                           VStr ("Pull request #" ++ template number
                                                 ++ " merged successfully"))]
                                         ++ entry "merged" result_merged
                                         ++ entry "sha" sha)%list)]),
                               l2)
                          end
                      end
                  end
              end
        end
    end.

(** [declinePullRequest(params)]; its [catch] logs through the free name
    [logger]. *)
Definition declinePullRequest (t : tool) (params : obj) (l : log) : result value * log :=
  let owner := or_default (get "owner" params) (repoOwner t) in
  let repo := or_default (get "repo" params) (repoName t) in
  let number := get "number" params in
  let reason := get "reason" params in
  if negb (truthy owner) || negb (truthy repo)
  then (Throw "Repository owner and name are required", l)
  else if negb (truthy number) then (Throw "Pull request number is required", l)
  else
    let failed (message : string) : result value :=
      if logger_bound t
      then Throw ("Failed to decline PR #" ++ template number ++ ": " ++ message)
      else Throw "logger is not defined" in
    match request t l "pulls.get" (target owner repo number) with
    | (Throw message, l1) => (failed message, l1)
    | (Ok pr, l1) =>
        match get_prop (Some pr) "state" with
        | Throw message => (failed message, l1)
        | Ok state =>
            let close (l2 : log) : result value * log :=
              match request t l2 "pulls.update"
                      (target owner repo number ++ [("state", VStr "closed")])%list with
              | (Throw message, l3) => (failed message, l3)
              | (Ok result, l3) =>
                  match get_prop (Some result) "state" with
                  | Throw message => (failed message, l3)
                  | Ok result_state =>
                      (Ok (VObj
                         [("success", VBool true);
                          ("data",
                           VObj ([("message",
                                   VStr ("Pull request #" ++ template number
                                         ++ " declined successfully"))]
                                 ++ entry "state" result_state)%list)]),
                       l3)
                  end
              end in
            match state with
            | Some (VStr "open") =>
                if truthy reason then
                  match request t l1 "issues.createComment"
                          (entry "owner" owner ++ entry "repo" repo
                           ++ entry "issue_number" number
                           ++ [("body", VStr ("Declining this pull request: "
                                              ++ template reason))])%list with
                  | (Throw message, l2) => (failed message, l2)
                  | (Ok _, l2) => close l2
                  end
                else close l1
            | _ =>
                (Ok (refusal ("Pull request #" ++ template number ++ " is already "
                              ++ template state)), l1)
            end
        end
    end.

Section Execute.

(** The other methods of the tool. *)
Variable others : method_name -> tool -> obj -> log -> result value * log.

Definition run (m : method_name) : tool -> obj -> log -> result value * log :=
  match m with
  | MergePullRequest => mergePullRequest
  | DeclinePullRequest => declinePullRequest
  | _ => others m
  end.

(** [execute(action, params)] *)
Definition execute (t : tool) (action : string) (params : obj) (l : log)
  : result value * log :=
  if negb (truthy (repoOwner t)) || negb (truthy (repoName t))
  then (Throw "GitHub repository not configured", l)
  else
    match find (fun a => String.eqb (name a) action) (actions t) with
    | None => (Throw ("Action '" ++ action ++ "' not found for GitHub tool"), l)
    | Some actionObj =>
        match validateParams t action params (parameters actionObj) with
        | Throw message => (Throw message, l)
        | Ok _ =>
            match switch action with
            | Some m => run m t params l
            | None =>
                (Throw ("Action '" ++ action ++ "' not implemented for GitHub tool"), l)
            end
        end
    end.

End Execute.

(** The tool as an agent sees it; [name] and [config] are set by
    [BaseTool].  Every execution starts a call log of its own. *)
Definition as_Tool (others : method_name -> tool -> obj -> log -> result value * log)
    (nm : string) (cfg : option string) (t : tool) : Tool :=
  {| tool_name := nm;
     config_name := cfg;
     constructor_name := "GitHubTool";
     Tools.repoOwner := repoOwner t;
     Tools.repoName := repoName t;
     Tools.getAvailableActions := Some getAvailableActions;
     Tools.execute := fun _ action params => fst (execute others t action params []) |}.

End GitHubTool.

(* ================================================================== *)
(** ** SlackTool

    The Slack web client is a function of the calls made so far; it gives
    the body of the response. *)
(* ================================================================== *)

Module SlackTool.
Import Str JS Tools.

(** One call of the web client. *)
Record call := { method : string; args : obj; outcome : result value }.
Definition log := list call.

Definition WebClient := log -> string -> obj -> result value.

Record tool := {
  client : option WebClient;        (* set when a token is configured *)
  defaultChannel : option value     (* config.defaultChannel || 'general' *)
}.

(** [await this.client.<method>(args)] *)
Definition request (c : WebClient) (l : log) (m : string) (a : obj) : result value * log :=
  let out := c l m a in
  (out, (l ++ [{| method := m; args := a; outcome := out |}])%list).

Definition required_all (names : list string) : list (string * ParamInfo) :=
  map (fun nm => (nm, {| required := true |})) names.
Definition optional (names : list string) : list (string * ParamInfo) :=
  map (fun nm => (nm, {| required := false |})) names.

(** [getAvailableActions()] *)
Definition getAvailableActions : list Action :=
  [ {| name := "info"; parameters := Some [] |};
    {| name := "sendMessage";
       parameters := Some (required_all ["channel"; "text"] ++ optional ["blocks"])%list |};
    {| name := "getChannels"; parameters := Some (optional ["limit"]) |};
    {| name := "getChannelHistory";
       parameters := Some (required_all ["channel"] ++ optional ["limit"])%list |};
    {| name := "findUser"; parameters := Some (required_all ["query"]) |};
    {| name := "createChannel";
       parameters := Some (required_all ["name"]
                           ++ optional ["is_private"; "description"])%list |};
    {| name := "joinChannel"; parameters := Some (required_all ["channel"]) |};
    {| name := "leaveChannel"; parameters := Some (required_all ["channel"]) |};
    {| name := "inviteToChannel"; parameters := Some (required_all ["channel"; "users"]) |};
    {| name := "addReaction";
       parameters := Some (required_all ["channel"; "timestamp"; "name"]) |};
    {| name := "searchMessages";
       parameters := Some (required_all ["query"] ++ optional ["count"])%list |} ].

Inductive method_name : Type :=
| GetInfo | SendMessage | GetChannels | GetChannelHistory | FindUser | CreateChannel
| JoinChannel | LeaveChannel | InviteToChannel | AddReaction | SearchMessages.

(** The [case] labels of the [switch] of [execute], in source order. *)
Definition cases : list (string * method_name) :=
  [ ("info", GetInfo); ("sendMessage", SendMessage); ("getChannels", GetChannels);
    ("getChannelHistory", GetChannelHistory); ("findUser", FindUser);
    ("createChannel", CreateChannel); ("joinChannel", JoinChannel);
    ("leaveChannel", LeaveChannel); ("inviteToChannel", InviteToChannel);
    ("addReaction", AddReaction); ("searchMessages", SearchMessages) ].

Definition switch (action : string) : option method_name :=
  option_map snd (find (fun c => String.eqb action (fst c)) cases).

Definition or_default (v d : option value) : option value :=
  match v with
  | None => d
  | Some _ => v
  end.

(** [a.b] for [a] the outcome of a read. *)
Definition read (v : result (option value)) (k : string) : result (option value) :=
  match v with
  | Throw message => Throw message
  | Ok a => get_prop a k
  end.

(** [sendMessage(params)] *)
Definition sendMessage (t : tool) (c : WebClient) (params : obj) (l : log)
  : result value * log :=
  let failed (message : string) : result value :=
    Throw ("Failed to send Slack message: " ++ message) in
  let channel := or_default (get "channel" params) (defaultChannel t) in
  let text := get "text" params in
  let blocks := get "blocks" params in
  let messageParams :=
    (entry "channel" channel ++ entry "text" text
     ++ (if truthy blocks then entry "blocks" blocks else []))%list in
  match request c l "chat.postMessage" messageParams with
  | (Throw message, l1) => (failed message, l1)
  | (Ok result, l1) =>
      match get_prop (Some result) "channel" with
      | Throw message => (failed message, l1)
      | Ok result_channel =>
          match get_prop (Some result) "ts" with
          | Throw message => (failed message, l1)
          | Ok ts =>
              match read (get_prop (Some result) "message") "text" with
              | Throw message => (failed message, l1)
              | Ok message_text =>
                  (Ok (VObj
                     [("success", VBool true);
                      ("data",
                       VObj (entry "channel" result_channel ++ entry "ts" ts
                             ++ [("message", VObj (entry "text" message_text))])%list)]),
                   l1)
              end
          end
      end
  end.

(** [name.toLowerCase().replace(/[^a-z0-9_-]/g, '-').substring(0, 79)] for
    the [name] of the parameters. *)
Definition formattedName (nm : option value) : result string :=
  match nm with
  | Some (VStr s) => Ok (SlackAgent.formattedName s)
  | None => Throw (TypeError_read "undefined" "toLowerCase")
  | Some VNull => Throw (TypeError_read "null" "toLowerCase")
  | Some _ => Throw "name.toLowerCase is not a function"
  end.

(** [createChannel(params)] *)
Definition createChannel (t : tool) (c : WebClient) (params : obj) (l : log)
  : result value * log :=
  let failed (message : string) : result value :=
    Throw ("Failed to create Slack channel: " ++ message) in
  let nm := get "name" params in
  let is_private := or_default (get "is_private" params) (Some (VBool false)) in
  let description := or_default (get "description" params) (Some (VStr "")) in
  match formattedName nm with
  | Throw message => (failed message, l)
  | Ok formatted =>
      match request c l "conversations.create"
              ([("name", VStr formatted)] ++ entry "is_private" is_private)%list with
      | (Throw message, l1) => (failed message, l1)
      | (Ok created, l1) =>
          let answer (l2 : log) : result value * log :=
            match read (get_prop (Some created) "channel") "id" with
            | Throw message => (failed message, l2)
            | Ok id =>
                match read (get_prop (Some created) "channel") "name" with
                | Throw message => (failed message, l2)
                | Ok channel_name =>
                    match read (get_prop (Some created) "channel") "is_private" with
                    | Throw message => (failed message, l2)
                    | Ok channel_private =>
                        match read (get_prop (Some created) "channel") "creator" with
                        | Throw message => (failed message, l2)
                        | Ok creator =>
                            (Ok (VObj
                               [("success", VBool true);
                                ("data",
                                 VObj (entry "id" id ++ entry "name" channel_name
                                       ++ entry "is_private" channel_private
                                       ++ entry "creator" creator)%list)]),
                             l2)
                        end
                    end
                end
            end in
          if truthy description then
            match read (get_prop (Some created) "channel") "id" with
            | Throw message => (failed message, l1)
            | Ok id =>
                match request c l1 "conversations.setTopic"
                        (entry "channel" id ++ entry "topic" description)%list with
                | (Throw message, l2) => (failed message, l2)
                | (Ok _, l2) => answer l2
                end
            end
          else answer l1
      end
  end.

Section Execute.

(** The other methods of the tool. *)
Variable others : method_name -> tool -> WebClient -> obj -> log -> result value * log.

Definition run (m : method_name) : tool -> WebClient -> obj -> log -> result value * log :=
  match m with
  | SendMessage => sendMessage
  | CreateChannel => createChannel
  | _ => others m
  end.

(** [execute(action, params)] *)
Definition execute (t : tool) (action : string) (params : obj) (l : log)
  : result value * log :=
  match client t with
  | None => (Throw "Slack client not initialized. Please check your API token.", l)
  | Some c =>
      match switch action with
      | Some m => run m t c params l
      | None => (Throw ("Action '" ++ action ++ "' not implemented for Slack tool"), l)
      end
  end.

End Execute.

(** The tool as an agent sees it; [name] and [config] are set by
    [BaseTool].  Every execution starts a call log of its own. *)
Definition as_Tool
    (others : method_name -> tool -> WebClient -> obj -> log -> result value * log)
    (nm : string) (cfg : option string) (t : tool) : Tool :=
  {| tool_name := nm;
     config_name := cfg;
     constructor_name := "SlackTool";
     Tools.repoOwner := None;
     Tools.repoName := None;
     Tools.getAvailableActions := Some getAvailableActions;
     Tools.execute := fun _ action params => fst (execute others t action params []) |}.

End SlackTool.

(* ================================================================== *)
(** ** The changed files of a pull request

    The parts of [getChangedFiles] and [reviewCode] of [GitHubTool] that
    work on the patch and the name of a file, both strings. *)
(* ================================================================== *)

Module Files.
Import Str JS.

(** [s.split(sep)] for a separator that is not empty: the texts between
    the successive occurrences of [sep].  There are at most
    [String.length s] occurrences. *)
Fixpoint split_upto (fuel : nat) (sep s : string) : list string :=
  match fuel with
  | O => [s]
  | S n =>
      match split_first sep s with
      | None => [s]
      | Some (b, a) => b :: split_upto n sep a
      end
  end.

Definition split (sep s : string) : list string := split_upto (String.length s) sep s.

Definition newline : string := String (ascii_of_nat 10) "".

(** White space and line terminators among the code units below 256:
    what [trim] removes. *)
Definition is_space (c : ascii) : bool :=
  let n := nat_of_ascii c in
  (((9 <=? n) && (n <=? 13)) || Nat.eqb n 32 || Nat.eqb n 160)%nat.

(** [line.trim() === ""] *)
Definition trims_to_empty (line : string) : bool := Str.all is_space line.

(** [{ type, content: line }] *)
Record change := { type : string; content : string }.

(** [{ lineInfo, changes: chunkChanges }] *)
Record hunk := { lineInfo : string; changes : list change }.

Definition classify (line : string) : change :=
  {| type := match line with
             | String c _ =>
                 if Ascii.eqb c "+" then "addition"
                 else if Ascii.eqb c "-" then "deletion"
                 else "context"
             | EmptyString => "context"
             end;
     content := line |}.

(** The body of the loop over the chunks: what one chunk adds to
    [lineChanges]. *)
Definition chunk_changes (chunk : string) : list hunk :=
  match split " @@" chunk with
  | info :: text :: _ =>
      if String.eqb text "" then []
      else [ {| lineInfo := info;
                changes := map classify
                             (filter (fun line => negb (trims_to_empty line))
                                (split newline text)) |} ]
  | _ => []
  end.

(** [lineChanges] for a patch: the chunks after the first. *)
Definition lineChanges (patch : string) : list hunk :=
  flat_map chunk_changes (tl (split "@@ " patch)).

(** The [lineChanges] member of a file: [null] when nothing was found;
    [patch] is [None] when the file has none. *)
Definition file_lineChanges (patch : option string) : option (list hunk) :=
  match (match patch with
         | Some p => if String.eqb p "" then [] else lineChanges p
         | None => []
         end) with
  | [] => None
  | found => Some found
  end.


End Files.

(* ================================================================== *)
(** ** Unified diffs *)
(* ================================================================== *)

Module Unified.
Import Str JS Regex.

Definition no_at (s : string) : bool := Str.all (not_char "@") s.
Definition no_newline (s : string) : bool := Str.all (not_char (ascii_of_nat 10)) s.

(** The lines of a hunk, each after a line break. *)
Definition body (lines : list string) : string :=
  String.concat "" (map (fun line => Files.newline ++ line) lines).

(** A hunk whose header line ends after the range: [@@ range @@]. *)
Definition plain (h : string * list string) : string :=
  "@@ " ++ fst h ++ " @@" ++ body (snd h).

(** A hunk whose header carries a section heading:
    [@@ range @@ heading], and the lines that follow. *)
Definition headed (h : string * string) : string :=
  "@@ " ++ fst h ++ " @@ " ++ snd h.

(** A line of a hunk: no line break, no [@], not only white space. *)
Definition is_line (line : string) : bool :=
  no_newline line && no_at line && negb (Files.trims_to_empty line).

Definition is_plain_hunk (h : string * list string) : bool :=
  no_at (fst h) && negb (match snd h with [] => true | _ => false end)
  && forallb is_line (snd h).

(** The text of the plain hunks [hs], each on a line of its own, after
    the first three characters [@@ ]. *)
Fixpoint after (hs : list (string * list string)) : string :=
  match hs with
  | [] => ""
  | h :: hs' =>
      fst h ++ " @@" ++ body (snd h)
      ++ match hs' with
         | [] => ""
         | _ => Files.newline ++ "@@ " ++ after hs'
         end
  end.

(** What the parser should find for a plain hunk. *)
Definition parsed (h : string * list string) : Files.hunk :=
  {| Files.lineInfo := fst h; Files.changes := map Files.classify (snd h) |}.

Definition is_headed_hunk (h : string * string) : bool := no_at (fst h) && no_at (snd h).

End Unified.

(* ================================================================== *)
(** ** The phrasings of the Slack patterns *)
(* ================================================================== *)

Module Phrases.

(** [send (a )message to (channel )(#)w saying msg], and what follows. *)
Definition send_phrase (article chan hash w msg tail : string) : string :=
  "send " ++ article ++ "message to " ++ chan ++ hash ++ w ++ " saying " ++ msg ++ tail.

(** [create (a )(new )channel (called )(#)w], and what follows. *)
Definition create_phrase (article new called hash w tail : string) : string :=
  "create " ++ article ++ new ++ "channel " ++ called ++ hash ++ w ++ tail.

(** The channel is introduced by the optional word or by the hash. *)
Definition introduced (word hash : string) (intro : string) : Prop :=
  (word = intro /\ (hash = "" \/ hash = "#")) \/ (word = "" /\ hash = "#").

End Phrases.

(* ================================================================== *)
(** ** Further samples *)
(* ================================================================== *)

Module MoreSamples.
Import Str JS Tools.

(** A Slack agent for which no token is configured. *)
Definition offlineSlackAgent : SlackAgent.agent :=
  {| SlackAgent.name := "sl";
     SlackAgent.tools := [("slack", Samples.slackTool)];
     SlackAgent.client := None;
     SlackAgent.defaultChannel := "general";
     SlackAgent.groqService := Samples.answers "model text" |}.

(** The tag [[TOOL_ACTION:github:getPR:{"number": 1}]] alone. *)
Definition getPR_tag : Regex.found :=
  Samples.tag "" "github" "" "getPR" (Samples.json_number "1") "".

(** An Octokit client for which pull request 7 is open and mergeable and
    every other call succeeds with an empty object. *)
Definition octokit7 (l : GitHubTool.log) (method : string) (args : obj) : result value :=
  if String.eqb method "pulls.get"
  then Ok (VObj [("number", VNum 7); ("state", VStr "open"); ("merged", VBool false);
                 ("mergeable", VBool true)])
  else Ok (VObj []).

(** A [GitHubTool] for acme/dock whose action list is its catalog. *)
Definition dockTool : GitHubTool.tool :=
  {| GitHubTool.repoOwner := Some (VStr "acme");
     GitHubTool.repoName := Some (VStr "dock");
     GitHubTool.octokit := octokit7;
     GitHubTool.actions := GitHubTool.getAvailableActions;
     GitHubTool.validateParams := fun _ _ _ => Ok tt;
     GitHubTool.logger_bound := false |}.

(** The same tool when the API answers every call with [Not Found]. *)
Definition downDockTool : GitHubTool.tool :=
  {| GitHubTool.repoOwner := Some (VStr "acme");
     GitHubTool.repoName := Some (VStr "dock");
     GitHubTool.octokit := fun _ _ _ => Throw "Not Found";
     GitHubTool.actions := GitHubTool.getAvailableActions;
     GitHubTool.validateParams := fun _ _ _ => Ok tt;
     GitHubTool.logger_bound := false |}.

(** A Slack client that accepts the creation of a channel and refuses
    every other call. *)
Definition createOnly : SlackTool.WebClient := fun _ method _ =>
  if String.eqb method "conversations.create"
  then Ok (VObj [("channel", VObj [("id", VStr "C1"); ("name", VStr "release")])])
  else Throw "not_allowed".

Definition slackTool : SlackTool.tool :=
  {| SlackTool.client := Some createOnly;
     SlackTool.defaultChannel := Some (VStr "general") |}.

End MoreSamples.

(* ================================================================== *)
(** * Facts *)
(* ================================================================== *)

Import Str JS Tools Regex BaseAgent Notions.

(** ** Strings *)

Lemma app_nil_r (s : string) : s ++ "" = s.
Proof. induction s as [|c s IH]; simpl; [reflexivity | now rewrite IH]. Qed.

Lemma app_assoc (a b c : string) : (a ++ b) ++ c = a ++ (b ++ c).
Proof. induction a as [|x a IH]; simpl; [reflexivity | now rewrite IH]. Qed.

Lemma length_app (a b : string) :
  String.length (a ++ b) = String.length a + String.length b.
Proof. induction a as [|x a IH]; simpl; [reflexivity | now rewrite IH]. Qed.

Lemma take_app (a b : string) : take (String.length a) (a ++ b) = a.
Proof.
  unfold take. induction a as [|x a IH]; simpl.
  - destruct b; reflexivity.
  - now rewrite IH.
Qed.

Lemma app_self_nil (u s : string) : u ++ s = s -> u = "".
Proof.
  intros E. apply (f_equal String.length) in E. rewrite length_app in E.
  destruct u; [reflexivity | simpl in E; lia].
Qed.

Lemma app_cons_self (v : string) (c : ascii) (s : string) : s <> v ++ String c s.
Proof.
  intros E. apply (f_equal String.length) in E. rewrite length_app in E.
  simpl in E. lia.
Qed.

Lemma consumed_app (u s : string) : consumed (u ++ s) s = u.
Proof.
  unfold consumed. rewrite length_app.
  replace (String.length u + String.length s - String.length s) with (String.length u) by lia.
  apply take_app.
Qed.

Lemma all_app p a b : all p (a ++ b) = all p a && all p b.
Proof.
  induction a as [|x a IH]; simpl; [reflexivity | now rewrite IH, andb_assoc].
Qed.

(** ** The matcher consumes a prefix of its input *)

Lemma lit_inv ci l : forall s s',
  lit ci l s = Some s' -> exists u, s = u ++ s' /\ String.length u = String.length l.
Proof.
  induction l as [|a l IH]; simpl; intros s s' H.
  - inversion H; subst. now exists "".
  - destruct s as [|c s]; [discriminate|].
    destruct (Ascii.eqb (canon ci a) (canon ci c)); [|discriminate].
    destruct (IH _ _ H) as (u & -> & Hu).
    exists (String c u). simpl. auto.
Qed.

Lemma lit_refl l s : lit false l (l ++ s) = Some s.
Proof.
  induction l as [|a l IH]; simpl; [reflexivity|].
  now rewrite Ascii.eqb_refl.
Qed.

Lemma plusG_inv {R} p (k : string -> option R) : forall s x,
  plusG p s k = Some x ->
  exists u s', s = u ++ s' /\ u <> "" /\ all p u = true /\ k s' = Some x.
Proof.
  induction s as [|c s IH]; simpl; intros x H; [discriminate|].
  destruct (p c) eqn:Hc; [|discriminate].
  destruct (plusG p s k) as [y|] eqn:Hg.
  - inversion H; subst y. destruct (IH _ eq_refl) as (u & s' & -> & _ & Hall & Hk).
    exists (String c u), s'. simpl. rewrite Hc, Hall. repeat split; auto; discriminate.
  - exists (String c ""), s. simpl. rewrite Hc. repeat split; auto; discriminate.
Qed.

Lemma plusL_inv {R} p (k : string -> option R) : forall s x,
  plusL p s k = Some x ->
  exists u s', s = u ++ s' /\ u <> "" /\ all p u = true /\ k s' = Some x.
Proof.
  induction s as [|c s IH]; simpl; intros x H; [discriminate|].
  destruct (p c) eqn:Hc; [|discriminate].
  destruct (k s) as [y|] eqn:Hk.
  - inversion H; subst y.
    exists (String c ""), s. simpl. rewrite Hc. repeat split; auto; discriminate.
  - destruct (IH _ H) as (u & s' & -> & _ & Hall & Hk').
    exists (String c u), s'. simpl. rewrite Hc, Hall. repeat split; auto; discriminate.
Qed.

Lemma nonempty_length (u : string) : u <> "" -> 1 <= String.length u.
Proof. destruct u; simpl; [congruence | lia]. Qed.

(** Whenever the matcher succeeds, its continuation was run on a suffix
    of the input, after a text that matches the expression. *)
Lemma rmatch_inv ci r : forall s cs k x,
  rmatch ci r s cs k = Some x ->
  exists u s' cs', s = u ++ s' /\ Matches ci r u /\ min_len r <= String.length u
                   /\ k s' cs' = Some x.
Proof.
  induction r as [l|p|p|p|r IH|r1 IH1 r2 IH2|r1 IH1 r2 IH2|i r IH];
    simpl; intros s cs k x H.
  - destruct (lit ci l s) as [s'|] eqn:Hl; [|discriminate].
    destruct (lit_inv _ _ _ _ Hl) as (u & -> & Hu).
    exists u, s', cs. repeat split; auto; [|lia].
    constructor. clear - Hl. revert u Hl.
    induction l as [|a l IH]; simpl; intros u Hl.
    + inversion Hl as [E]. now rewrite (app_self_nil _ _ E).
    + destruct u as [|c u]; simpl in *.
      * destruct s' as [|c s']; [discriminate|].
        destruct (Ascii.eqb (canon ci a) (canon ci c)); [|discriminate].
        destruct (lit_inv _ _ _ _ Hl) as (v & E & _).
        exfalso. now apply (app_cons_self v c s').
      * destruct (Ascii.eqb (canon ci a) (canon ci c)); [|discriminate]. auto.
  - destruct s as [|c s]; [discriminate|]. destruct (p c) eqn:Hc; [|discriminate].
    exists (String c ""), s, cs. simpl. repeat split; auto. now constructor.
  - destruct (plusG_inv _ _ _ _ H) as (u & s' & -> & Hne & Hall & Hk).
    exists u, s', cs. repeat split; auto using nonempty_length. now constructor.
  - destruct (plusL_inv _ _ _ _ H) as (u & s' & -> & Hne & Hall & Hk).
    exists u, s', cs. repeat split; auto using nonempty_length. now constructor.
  - destruct (rmatch ci r s cs k) as [y|] eqn:Hr.
    + inversion H; subst y. destruct (IH _ _ _ _ Hr) as (u & s' & cs' & -> & Hm & _ & Hk).
      exists u, s', cs'. repeat split; auto; try lia. now apply MOptSome.
    + exists "", s, cs. repeat split; auto; try (simpl; lia). constructor.
  - destruct (IH1 _ _ _ _ H) as (u1 & s1 & cs1 & -> & Hm1 & Hl1 & Hk1).
    destruct (IH2 _ _ _ _ Hk1) as (u2 & s2 & cs2 & -> & Hm2 & Hl2 & Hk2).
    exists (u1 ++ u2), s2, cs2. rewrite app_assoc, length_app.
    repeat split; auto; try lia. now constructor.
  - destruct (rmatch ci r1 s cs k) as [y|] eqn:Hr.
    + inversion H; subst y. destruct (IH1 _ _ _ _ Hr) as (u & s' & cs' & -> & Hm & Hl & Hk).
      exists u, s', cs'. repeat split; auto; try lia. now apply MAltL.
    + destruct (IH2 _ _ _ _ H) as (u & s' & cs' & -> & Hm & Hl & Hk).
      exists u, s', cs'. repeat split; auto; try lia. now apply MAltR.
  - destruct (IH _ _ _ _ H) as (u & s' & cs' & -> & Hm & Hl & Hk).
    exists u, s', ((i, consumed (u ++ s') s') :: cs'). repeat split; auto. now constructor.
Qed.

Lemma match_at_inv ci r s s' cs :
  match_at ci r s = Some (s', cs) ->
  exists u, s = u ++ s' /\ Matches ci r u /\ min_len r <= String.length u.
Proof.
  unfold match_at. intros H.
  destruct (rmatch_inv _ _ _ _ _ _ H) as (u & s1 & cs1 & -> & Hm & Hl & Hk).
  inversion Hk; subst. eauto.
Qed.

(** ** The matcher finds a match wherever one exists *)






(** ** The leftmost match *)

Lemma match_at_consumed ci r s s' cs :
  match_at ci r s = Some (s', cs) ->
  s = consumed s s' ++ s'
  /\ Matches ci r (consumed s s')
  /\ min_len r <= String.length (consumed s s').
Proof.
  intros E. destruct (match_at_inv _ _ _ _ _ E) as (u & -> & Hm & Hl).
  rewrite consumed_app. auto.
Qed.

Lemma search_inv ci r : forall s f,
  search ci r s = Some f ->
  s = before f ++ matched f ++ rest f
  /\ Matches ci r (matched f)
  /\ min_len r <= String.length (matched f).
Proof.
  induction s as [|c s IH]; intros f H; simpl in H.
  - destruct (match_at ci r "") as [[s' cs]|] eqn:E; [|discriminate].
    inversion H; subst f. exact (match_at_consumed _ _ _ _ _ E).
  - destruct (match_at ci r (String c s)) as [[s' cs]|] eqn:E.
    + inversion H; subst f. exact (match_at_consumed _ _ _ _ _ E).
    + destruct (search ci r s) as [g|] eqn:Eg; [|discriminate].
      inversion H; subst f; simpl.
      destruct (IH _ eq_refl) as (Hs & Hm & Hl). rewrite Hs at 1. auto.
Qed.

Lemma search_rest_shorter ci r s f :
  search ci r s = Some f -> String.length (rest f) + min_len r <= String.length s.
Proof.
  intros H. destruct (search_inv _ _ _ _ H) as (Hs & _ & Hl).
  apply (f_equal String.length) in Hs. rewrite !length_app in Hs. lia.
Qed.

(** The loop over the matches of an expression that cannot match the
    empty string ends: the fuel [S (length s)] is enough. *)
Lemma exec_loop_ends ci r :
  0 < min_len r ->
  forall n s, String.length s < n -> exists l, exec_loop n ci r s = Some l.
Proof.
  intros Hr. induction n as [|n IH]; intros s Hn; [lia|].
  simpl. destruct (search ci r s) as [f|] eqn:E; [|eauto].
  pose proof (search_rest_shorter _ _ _ _ E).
  destruct (IH (rest f)) as [l Hl]; [lia|]. rewrite Hl. eauto.
Qed.

Lemma extract_ends (response : string) : exists ms, extract response = Some ms.
Proof.
  unfold extract. apply exec_loop_ends; [simpl; lia | lia].
Qed.

(** ** The tag pattern on a serialized tag *)

Lemma plusG_stop {R} p (k : string -> option R) c rest x : forall u,
  u <> "" -> all p u = true -> p c = false -> k (String c rest) = Some x ->
  plusG p (u ++ String c rest) k = Some x.
Proof.
  induction u as [|a u IH]; intros Hne Hall Hc Hk; [congruence|].
  simpl in *. apply andb_prop in Hall as [Ha Hall]. rewrite Ha.
  destruct u as [|b u].
  - simpl. now rewrite Hc.
  - rewrite IH; auto. discriminate.
Qed.

Lemma suffix_word_length u : is_suffix_word u = true -> String.length u = 4.
Proof.
  unfold is_suffix_word. intros H. apply orb_prop in H as [H|H];
    apply String.eqb_eq in H; subst; reflexivity.
Qed.

(** What the lazy first group leaves to the optional suffix. *)
Lemma strip_tool_suffix_cut : forall u,
  u <> "" ->
  exists v, u = strip_tool_suffix u ++ v
            /\ (v = "" \/ is_suffix_word v = true)
            /\ strip_tool_suffix u <> "".
Proof.
  induction u as [|c t IH]; intros Hne; [congruence|]. simpl.
  destruct (is_suffix_word t) eqn:Hw.
  - exists t. repeat split; auto; discriminate.
  - destruct t as [|d t'].
    + exists "". repeat split; auto; discriminate.
    + destruct IH as (v & Hv & Hc & _); [discriminate|].
      exists v. repeat split; auto; try discriminate.
      cbn [append]. now f_equal.
Qed.

Lemma strip_tool_suffix_app (w : string) : forall x,
  x <> "" -> is_suffix_word w = true -> strip_tool_suffix (x ++ w) = x.
Proof.
  intros x Hx Hw. induction x as [|c x IH]; [congruence|]. simpl.
  destruct x as [|d x]; simpl.
  - now rewrite Hw.
  - destruct (is_suffix_word (String d (x ++ w))) eqn:E.
    + apply suffix_word_length in E. apply suffix_word_length in Hw.
      simpl in E. rewrite length_app in E. lia.
    + f_equal. apply IH. discriminate.
Qed.

Lemma strip_tool_suffix_id (tool : string) :
  (forall x w, x <> "" -> is_suffix_word w = true -> tool <> x ++ w) ->
  strip_tool_suffix tool = tool.
Proof.
  intros H. destruct tool as [|c t]; [reflexivity|].
  destruct (strip_tool_suffix_cut (String c t)) as (v & Hv & [->|Hw] & Hne); [discriminate| |].
  - now rewrite app_nil_r in Hv.
  - exfalso. exact (H _ _ Hne Hw Hv).
Qed.

Ltac ascii_cases :=
  repeat (match goal with
          | |- context [Ascii.eqb ?a ?b] => destruct (Ascii.eqb_spec a b)
          | H : context [Ascii.eqb ?a ?b] |- _ => destruct (Ascii.eqb_spec a b)
          end;
          try discriminate; subst; cbn -[Ascii.eqb] in *;
          try discriminate; try congruence).

(** The optional [(?:[Tt]ool)?] and the separator after a colon-free [u]. *)
Lemma suffix_then_colon (r : regex) u rest cs (k : cont) :
  all (not_char ":") u = true ->
  rmatch false (Opt (Cls (one_of ["T"; "t"]%char) ;; Lit "ool") ;; Lit ":" ;; r)
    (u ++ String ":" rest) cs k
  = if String.eqb u "" || is_suffix_word u then rmatch false r rest cs k else None.
Proof.
  intros Hu. unfold is_suffix_word, not_char, one_of in *.
  destruct u as [|c1 [|c2 [|c3 [|c4 [|c5 u]]]]]; cbn -[Ascii.eqb] in *;
    ascii_cases; try reflexivity;
    destruct (rmatch false r rest cs k); reflexivity.
Qed.

Lemma lazy_tool_group {R} (kk : string -> option R) (F : string -> option R) rest :
  (forall v, all (not_char ":") v = true ->
             kk (v ++ String ":" rest)
             = if String.eqb v "" || is_suffix_word v then F v else None) ->
  (forall v, F v <> None) ->
  forall u, u <> "" -> all (not_char ":") u = true ->
  exists v, u = strip_tool_suffix u ++ v
            /\ plusL (not_char ":") (u ++ String ":" rest) kk = F v.
Proof.
  intros Hkk HF. induction u as [|c t IH]; intros Hne Hall; [congruence|].
  simpl in Hall. apply andb_prop in Hall as [Hc Hall].
  cbn [append plusL strip_tool_suffix]. rewrite Hc, (Hkk t Hall).
  destruct (is_suffix_word t) eqn:Hw.
  - rewrite orb_true_r. exists t. split; [reflexivity|].
    destruct (F t) eqn:E; [reflexivity | now apply HF in E].
  - rewrite orb_false_r. destruct t as [|d t'].
    + simpl. exists "". split; [reflexivity|].
      destruct (F "") eqn:E; [reflexivity | now apply HF in E].
    + cbn [String.eqb]. destruct IH as (v & Hv & Hp); [discriminate | assumption |].
      exists v. split; [|assumption].
      cbn [append]. now f_equal.
Qed.

Lemma serialize_app tool action params tail :
  serialize tool action params ++ tail
  = "[TOOL_ACTION:" ++ tool ++ String ":" (action ++ String ":" (params ++ String "]" tail)).
Proof.
  unfold serialize. now rewrite !app_assoc.
Qed.

Lemma rmatch_seq ci r1 r2 s cs k :
  rmatch ci (r1 ;; r2) s cs k = rmatch ci r1 s cs (fun s' cs' => rmatch ci r2 s' cs' k).
Proof. reflexivity. Qed.

Lemma rmatch_lit l s cs k : rmatch false (Lit l) (l ++ s) cs k = k s cs.
Proof. simpl. now rewrite lit_refl. Qed.

Lemma rmatch_grp_plusL ci i p s cs k :
  rmatch ci (Grp i (PlusL p)) s cs k = plusL p s (fun s' => k s' ((i, consumed s s') :: cs)).
Proof. reflexivity. Qed.

Lemma rmatch_grp_plusG ci i p s cs k :
  rmatch ci (Grp i (PlusG p)) s cs k = plusG p s (fun s' => k s' ((i, consumed s s') :: cs)).
Proof. reflexivity. Qed.

(** The part of the tag pattern after the tool token, on a well-formed
    action name and parameter text. *)
Lemma match_action_params action params tail cs :
  action <> "" -> all (not_char ":") action = true ->
  params <> "" -> all (not_char "]") params = true ->
  rmatch false
    (Grp 2 (PlusG (not_char ":")) ;; Lit ":" ;; Grp 3 (PlusG (not_char "]")) ;; Lit "]")
    (action ++ String ":" (params ++ String "]" tail)) cs
    (fun s' cs' => Some (s', cs'))
  = Some (tail, (3, params) :: (2, action) :: cs).
Proof.
  intros Ha Hac Hp Hpc.
  rewrite rmatch_seq, rmatch_grp_plusG.
  apply plusG_stop; auto. rewrite consumed_app.
  rewrite rmatch_seq. rewrite (rmatch_lit ":" (params ++ String "]" tail)).
  rewrite rmatch_seq, rmatch_grp_plusG.
  apply plusG_stop; auto. rewrite consumed_app.
  now rewrite (rmatch_lit "]" tail).
Qed.

(** The tag pattern on a tag: one match, with the tool token cut before
    its suffix. *)
Lemma match_at_tag tool action params tail :
  tool <> "" -> all (not_char ":") tool = true ->
  action <> "" -> all (not_char ":") action = true ->
  params <> "" -> all (not_char "]") params = true ->
  match_at false toolActionRegex (serialize tool action params ++ tail)
  = Some (tail, [(3, params); (2, action); (1, strip_tool_suffix tool)]).
Proof.
  intros Ht Htc Ha Hac Hp Hpc. rewrite serialize_app.
  unfold match_at, toolActionRegex.
  set (R3 := (Grp 2 (PlusG (not_char ":")) ;; Lit ":" ;; Grp 3 (PlusG (not_char "]")) ;; Lit "]")%re).
  set (Y := action ++ String ":" (params ++ String "]" tail)).
  rewrite rmatch_seq, rmatch_lit, rmatch_seq, rmatch_grp_plusL.
  set (X := tool ++ String ":" Y).
  destruct (lazy_tool_group
              (fun s' => rmatch false
                           (Opt (Cls (one_of ["T"; "t"]%char) ;; Lit "ool") ;; Lit ":" ;; R3)
                           s' [(1, consumed X s')] (fun s' cs' => Some (s', cs')))
              (fun v => rmatch false R3 Y [(1, consumed X (v ++ String ":" Y))]
                          (fun s' cs' => Some (s', cs')))
              Y) with (u := tool) as (v & Hv & Hplus); auto.
  - intros v Hvc. now apply suffix_then_colon.
  - intros v. unfold R3, Y. rewrite match_action_params; auto. discriminate.
  - fold X in Hplus. rewrite Hplus.
    unfold R3, Y. rewrite match_action_params; auto.
    repeat f_equal. unfold X. rewrite Hv at 1. rewrite app_assoc. apply consumed_app.
Qed.

Lemma search_here ci r s s' cs :
  match_at ci r s = Some (s', cs) ->
  search ci r s = Some {| before := ""; matched := consumed s s'; caps := cs; rest := s' |}.
Proof. intros H. destruct s; simpl; now rewrite H. Qed.

Lemma extract_tag tool action params :
  tool <> "" -> all (not_char ":") tool = true ->
  action <> "" -> all (not_char ":") action = true ->
  params <> "" -> all (not_char "]") params = true ->
  extract (serialize tool action params)
  = Some [ {| before := ""; matched := serialize tool action params;
              caps := [(3, params); (2, action); (1, strip_tool_suffix tool)];
              rest := "" |} ].
Proof.
  intros Ht Htc Ha Hac Hp Hpc.
  pose proof (match_at_tag tool action params "" Ht Htc Ha Hac Hp Hpc) as Hm.
  rewrite app_nil_r in Hm. apply search_here in Hm.
  unfold extract. cbn [exec_loop]. rewrite Hm. cbn [rest].
  replace (consumed (serialize tool action params) "") with (serialize tool action params) in *.
  - unfold serialize at 1. cbn [String.length append exec_loop]. reflexivity.
  - symmetry. rewrite <- (app_nil_r (serialize tool action params)) at 1. apply consumed_app.
Qed.

(** ** [String.prototype.replace] *)

Lemma prefix_app (u s : string) : prefix u (u ++ s) = true.
Proof.
  induction u as [|c u IH]; simpl; [now destruct s|].
  destruct (ascii_dec c c); [assumption | congruence].
Qed.

Lemma prefix_inv : forall u t, prefix u t = true -> exists s, t = u ++ s.
Proof.
  induction u as [|c u IH]; intros t H.
  - now exists t.
  - destruct t as [|d t]; simpl in H; [discriminate|].
    destruct (ascii_dec c d); [subst d | discriminate].
    destruct (IH _ H) as [s ->]. now exists s.
Qed.

Lemma substring_all (s : string) : substring 0 (String.length s) s = s.
Proof. induction s as [|c s IH]; simpl; [reflexivity | now rewrite IH]. Qed.

Lemma drop_app (u s : string) :
  substring (String.length u) (String.length (u ++ s) - String.length u) (u ++ s) = s.
Proof.
  induction u as [|c u IH]; simpl.
  - rewrite Nat.sub_0_r. apply substring_all.
  - apply IH.
Qed.

Lemma split_first_eq needle hay :
  split_first needle hay =
  if prefix needle hay
  then Some ("", substring (String.length needle)
                   (String.length hay - String.length needle) hay)
  else
    match hay with
    | EmptyString => None
    | String c h =>
        match split_first needle h with
        | Some (b, a) => Some (String c b, a)
        | None => None
        end
    end.
Proof. destruct hay; reflexivity. Qed.

(** [split_first] finds an occurrence: the text is the part before, the
    needle and the part after. *)
Lemma split_first_spec needle : forall hay b a,
  split_first needle hay = Some (b, a) -> hay = b ++ needle ++ a.
Proof.
  induction hay as [|c h IH]; intros b a H; rewrite split_first_eq in H.
  - destruct (prefix needle "") eqn:E; [|discriminate].
    inversion H; subst. destruct (prefix_inv _ _ E) as [s Hs].
    destruct needle; [reflexivity | discriminate].
  - destruct (prefix needle (String c h)) eqn:E.
    + destruct (prefix_inv _ _ E) as [s Hs]. rewrite Hs in H |- *.
      rewrite drop_app in H. now inversion H.
    + destruct (split_first needle h) as [[b' a']|] eqn:E'; [|discriminate].
      inversion H; subst. simpl. f_equal. now apply IH.
Qed.



(* ================================================================== *)
(** * The claims *)
(* ================================================================== *)

(** ** C4: serializing a tag and extracting it *)

(** C4, as the code has it.  For a tool token and an action name that are
    not empty and have no colon, and a parameter text that is not empty
    and has no closing bracket, the extractor reads exactly one invocation
    in the serialized tag: the action name and the parameter text are the
    serialized ones, and the tool token is the serialized one without one
    trailing [Tool] or [tool] (kept when the token is that word alone). *)
Theorem tag_round_trip (tool action params : string) :
  tool <> "" -> all (not_char ":") tool = true ->
  action <> "" -> all (not_char ":") action = true ->
  params <> "" -> all (not_char "]") params = true ->
  invocations (serialize tool action params) = Some [(strip_tool_suffix tool, action, params)]
  /\ (forall x w, x <> "" -> is_suffix_word w = true -> tool = x ++ w ->
                  strip_tool_suffix tool = x)
  /\ ((forall x w, x <> "" -> is_suffix_word w = true -> tool <> x ++ w) ->
      strip_tool_suffix tool = tool).
Proof.
  intros Ht Htc Ha Hac Hp Hpc. split; [|split].
  - unfold invocations. now rewrite extract_tag.
  - intros x w Hx Hw ->. now apply strip_tool_suffix_app.
  - apply strip_tool_suffix_id.
Qed.

Lemma tag_round_trip_witness :
  invocations (serialize "github" "getPR" (Samples.json_number "123"))
  = Some [("github", "getPR", Samples.json_number "123")].
Proof.
  exact (proj1 (tag_round_trip "github" "getPR" (Samples.json_number "123")
                  ltac:(discriminate) eq_refl ltac:(discriminate) eq_refl
                  ltac:(discriminate) eq_refl)).
Defined.

(** C4 as stated fails: a parameter object with an array is cut at the
    first closing bracket, and the [Tool] suffix of the token is lost. *)
Lemma tag_round_trip_counterexample :
  let params := "{" ++ quoted "blocks" ++ ":[1,2]}" in
  invocations (serialize "githubTool" "sendMessage" params)
  = Some [("github", "sendMessage", "{" ++ quoted "blocks" ++ ":[1,2")]
  /\ invocations (serialize "githubTool" "sendMessage" params)
     <> Some [("githubTool", "sendMessage", params)]
  /\ JS.parse params = Some (VObj [("blocks", VArr [VNum 1; VNum 2])])
  /\ JS.parse ("{" ++ quoted "blocks" ++ ":[1,2") = None.
Proof.
  cbv zeta. repeat split; try (vm_compute; reflexivity).
  vm_compute. discriminate.
Qed.

(** ** The loop over the tags *)

Lemma exec_loop_head n ci r s m l :
  exec_loop n ci r s = Some (m :: l) -> search ci r s = Some m.
Proof.
  destruct n as [|n]; simpl; [discriminate|].
  destruct (search ci r s) as [f|]; [|discriminate].
  destruct (exec_loop n ci r (rest f)); [|discriminate].
  now inversion 1.
Qed.

Lemma find_all_false {A} (f : A -> bool) (l : list A) :
  (forall x, In x l -> f x = false) -> find f l = None.
Proof.
  induction l as [|a l IH]; intros H; simpl; [reflexivity|].
  rewrite (H a (or_introl eq_refl)). apply IH. intros x Hx. apply H. now right.
Qed.

Lemma getActionInfo_unlisted tool an :
  getAvailableActions tool = None
  \/ (exists actions, getAvailableActions tool = Some actions
                      /\ forall a, In a actions -> name a <> an) ->
  getActionInfo tool an = None.
Proof.
  unfold getActionInfo. intros [->|(actions & -> & H)]; [reflexivity|].
  apply find_all_false. intros a Ha. apply String.eqb_neq. now apply H.
Qed.

Lemma listed_In (k : string) (l : list string) : listed k l = true <-> In k l.
Proof.
  unfold listed. rewrite existsb_exists. split.
  - intros (x & Hx & He). apply String.eqb_eq in He. now subst.
  - intros H. exists k. split; [assumption | apply String.eqb_refl].
Qed.

Lemma listed_false (k : string) (l : list string) : ~ In k l -> listed k l = false.
Proof.
  intros H. destruct (listed k l) eqn:E; [|reflexivity].
  now apply listed_In in E.
Qed.

(** What [checkRequiredParameters] reports on an object. *)
Lemma missing_required_reported (params : obj) : forall ps,
  missing_required ps (VObj params) = Ok (reported_names ps params).
Proof.
  unfold reported_names.
  induction ps as [|[paramName info] ps IH]; [reflexivity|].
  cbn [missing_required filter map fst snd].
  destruct (required info); cbn [andb]; rewrite IH; [|reflexivity].
  change (nullish_at (VObj params) paramName) with (Ok (A := bool) (reads_nullish params paramName)).
  cbv beta iota. now destruct (reads_nullish params paramName).
Qed.

Lemma reported_ordinary (params : obj) : forall ps,
  ordinary_names ps -> reported_names ps params = missing_names ps params.
Proof.
  unfold reported_names, missing_names.
  induction ps as [|[nm info] ps IH]; intros H; [reflexivity|].
  assert (Hps : ordinary_names ps).
  { intros nm' info' Hin. apply (H nm' info'). now right. }
  specialize (IH Hps). cbn [filter fst snd].
  destruct (required info) eqn:Er; cbn [andb]; [|exact IH].
  assert (E : reads_nullish params nm = nullish (get nm params)).
  { unfold reads_nullish.
    rewrite (listed_false nm Object_prototype (H nm info (or_introl eq_refl) Er)).
    now destruct (get nm params). }
  rewrite E. destruct (nullish (get nm params)); cbn [map fst]; now rewrite ?IH.
Qed.

(** When no required name is the name of a member of [Object.prototype],
    the names reported are those the object leaves out. *)
Lemma missing_required_obj (params : obj) : forall ps,
  ordinary_names ps ->
  missing_required ps (VObj params) = Ok (missing_names ps params).
Proof.
  intros ps H. now rewrite missing_required_reported, reported_ordinary.
Qed.

Lemma nullish_spec (v : option value) : nullish v = true <-> v = None \/ v = Some VNull.
Proof.
  destruct v as [[]|]; simpl; split; intros H; auto;
    try discriminate; destruct H as [H|H]; discriminate.
Qed.

Section Tags.

Variable JSON_parse : string -> option value.
Variable tools : registry.
Variable toolParams : obj.

Local Abbreviation process_tag := (process_tag JSON_parse tools toolParams).
Local Abbreviation process_tags := (process_tags JSON_parse tools toolParams).




Lemma dispatch_missing m params h tool missing :
  hasMatchingTool (Map_values tools) (toolName m) = Ok true ->
  Map_get (toolName m) tools = Some tool ->
  checkRequiredParameters (getActionInfo tool (actionName m)) params = Ok missing ->
  missing <> [] ->
  dispatch tools toolParams m params h
  = (Throw ("Missing required parameters for " ++ actionName m ++ ": "
            ++ Str.join ", " missing), h).
Proof.
  intros H1 H2 H3 H4. unfold dispatch. rewrite H1, H2, H3.
  destruct missing; [congruence | reflexivity].
Qed.

Lemma dispatch_execute m params h tool :
  hasMatchingTool (Map_values tools) (toolName m) = Ok true ->
  Map_get (toolName m) tools = Some tool ->
  checkRequiredParameters (getActionInfo tool (actionName m)) params = Ok [] ->
  let enhanced := enhanceToolParameters tool (actionName m) params toolParams in
  let out := execute tool h (actionName m) enhanced in
  dispatch tools toolParams m params h
  = (match out with
     | Ok r => Ok (Executed (toolName m ++ "_" ++ actionName m) r)
     | Throw e => Throw e
     end,
     (h ++ [EvExecute (toolName m) (actionName m) enhanced out])%list).
Proof.
  intros H1 H2 H3. cbv zeta. unfold dispatch. rewrite H1, H2, H3.
  now destruct (execute tool h (actionName m) _).
Qed.

(** A tag with a missing required parameter: no call, nothing stored, the
    error marker in the text. *)
Lemma process_tag_missing m st params tool missing :
  JSON_parse (paramsStr m) = Some params ->
  hasMatchingTool (Map_values tools) (toolName m) = Ok true ->
  Map_get (toolName m) tools = Some tool ->
  checkRequiredParameters (getActionInfo tool (actionName m)) params = Ok missing ->
  missing <> [] ->
  calls (process_tag m st) = calls st
  /\ results (process_tag m st) = results st
  /\ processedResponse (process_tag m st)
     = replace (processedResponse st) (fullMatch m)
         (marker_error m ("Missing required parameters for " ++ actionName m ++ ": "
                          ++ Str.join ", " missing)).
Proof.
  intros Hp Hh Hg Hc Hm. unfold BaseAgent.process_tag.
  now rewrite Hp, (dispatch_missing m _ _ tool missing Hh Hg Hc Hm).
Qed.







(** C5 fails on the code for a required parameter that bears the name of
    a member of [Object.prototype].  On a parameter object,
    [checkRequiredParameters] reads each required name through the
    prototype chain: it reports the names whose entry is [null], and the
    names without entry unless they are inherited, all of them and in
    schema order; an empty string, zero and [false] are present.  For a
    schema without such a name these are the parameters that are absent
    or null, as the claim says; when the list is not empty the tag's step
    calls no tool and stores nothing, and it writes the error marker that
    lists the names; the schema [{ number: { required: true } }] with
    [{}] gives [["number"]].  But the action [createClass], which requires
    [name] and [constructor], is executed on the parameters
    [{"name": "Point"}]: nothing is reported missing. *)
Theorem required_parameters_are_checked (a : Action) (params : obj) :
  checkRequiredParameters (Some a) (VObj params) = Ok (reported_names (schema_of a) params)
  /\ (forall nm, In nm (reported_names (schema_of a) params) <->
        exists info, In (nm, info) (schema_of a) /\ required info = true
                     /\ (get nm params = Some VNull
                         \/ (get nm params = None /\ ~ In nm Object_prototype)))
  /\ (ordinary_names (schema_of a) ->
      checkRequiredParameters (Some a) (VObj params)
      = Ok (missing_names (schema_of a) params))
  /\ (forall nm, get nm params = Some (VStr "") \/ get nm params = Some (VNum 0)
                 \/ get nm params = Some (VBool false) ->
                 ~ In nm (reported_names (schema_of a) params))
  /\ (forall m st tool,
        JSON_parse (paramsStr m) = Some (VObj params) ->
        hasMatchingTool (Map_values tools) (toolName m) = Ok true ->
        Map_get (toolName m) tools = Some tool ->
        getActionInfo tool (actionName m) = Some a ->
        reported_names (schema_of a) params <> [] ->
        calls (process_tag m st) = calls st
        /\ results (process_tag m st) = results st
        /\ processedResponse (process_tag m st)
           = replace (processedResponse st) (fullMatch m)
               (marker_error m ("Missing required parameters for " ++ actionName m ++ ": "
                                ++ Str.join ", " (reported_names (schema_of a) params))))
  /\ checkRequiredParameters
       (Some {| name := "getPR"; parameters := Some [("number", {| required := true |})] |})
       (VObj []) = Ok ["number"]
  /\ (let createClass :=
        {| name := "createClass";
           parameters := Some [("name", {| required := true |});
                               ("constructor", {| required := true |})] |} in
      let given := [("name", VStr "Point")] in
      missing_names (schema_of createClass) given = ["constructor"]
      /\ checkRequiredParameters (Some createClass) (VObj given) = Ok []
      /\ processToolActions JS.parse [("scaffold", Samples.scaffoldTool)]
           (serialize "scaffold" "createClass" (Samples.json_name "Point")) [] []
         = Some ({| response := "[scaffold_createClass completed successfully]";
                    toolResults :=
                      [("scaffold_createClass",
                        VObj [("success", VBool true); ("data", VObj given)])] |},
                 [EvExecute "scaffold" "createClass" given
                    (Ok (VObj [("success", VBool true); ("data", VObj given)]))])).
Proof.
  assert (Hcheck : checkRequiredParameters (Some a) (VObj params)
                   = Ok (reported_names (schema_of a) params)).
  { unfold checkRequiredParameters, schema_of.
    destruct (parameters a); [apply missing_required_reported | reflexivity]. }
  assert (Hin : forall nm, In nm (reported_names (schema_of a) params) <->
        exists info, In (nm, info) (schema_of a) /\ required info = true
                     /\ (get nm params = Some VNull
                         \/ (get nm params = None /\ ~ In nm Object_prototype))).
  { intros nm. unfold reported_names. rewrite in_map_iff. split.
    - intros ([k info] & <- & Hf). apply filter_In in Hf as [Hi Hb].
      apply andb_prop in Hb as [Hr Hn]. cbn [fst snd] in *. exists info.
      split; [assumption|]. split; [assumption|].
      unfold reads_nullish in Hn. destruct (get k params) as [x|] eqn:E.
      + left. apply nullish_spec in Hn as [Hn|Hn]; [discriminate | assumption].
      + right. split; [reflexivity|]. intros Hl. apply listed_In in Hl.
        now rewrite Hl in Hn.
    - intros (info & Hi & Hr & Hn). exists (nm, info). split; [reflexivity|].
      apply filter_In. split; [assumption|]. cbn [fst snd]. rewrite Hr.
      unfold reads_nullish. destruct Hn as [->|[-> Hl]]; [reflexivity|].
      cbn [andb]. now rewrite (listed_false _ _ Hl). }
  split; [assumption|]. split; [assumption|].
  split; [|split; [|split; [|split; [reflexivity|]]]].
  - intros Ho. rewrite Hcheck. now rewrite reported_ordinary.
  - intros nm Hv Hm. apply Hin in Hm as (info & _ & _ & [Hn|[Hn _]]);
      destruct Hv as [Hv|[Hv|Hv]]; congruence.
  - intros m st tool Hp Hh Hg Ha Hm.
    apply (process_tag_missing m st (VObj params) tool); auto.
    now rewrite Ha.
  - cbv zeta. repeat split; vm_compute; reflexivity.
Qed.


(** C10.  When the resolved tool has no catalog, or its catalog does not
    list the action, validation reports nothing missing, whatever the
    parameters are; the action is executed with the enhanced parameters,
    and a failure of the tool shows as the error marker with the tool's
    message. *)
Theorem unlisted_action_is_executed_unchecked
    (m : found) (st : state) (params : value) (tool : Tool) :
  JSON_parse (paramsStr m) = Some params ->
  hasMatchingTool (Map_values tools) (toolName m) = Ok true ->
  Map_get (toolName m) tools = Some tool ->
  (getAvailableActions tool = None
   \/ exists actions, getAvailableActions tool = Some actions
                      /\ forall a, In a actions -> name a <> actionName m) ->
  let enhanced := enhanceToolParameters tool (actionName m) params toolParams in
  let out := execute tool (calls st) (actionName m) enhanced in
  checkRequiredParameters (getActionInfo tool (actionName m)) params = Ok []
  /\ calls (process_tag m st)
     = (calls st ++ [EvExecute (toolName m) (actionName m) enhanced out])%list
  /\ processedResponse (process_tag m st)
     = replace (processedResponse st) (fullMatch m)
         (match out with
          | Ok _ => marker_success (toolName m ++ "_" ++ actionName m)
          | Throw e => marker_error m e
          end)
  /\ results (process_tag m st)
     = match out with
       | Ok r => set (toolName m ++ "_" ++ actionName m) r (results st)
       | Throw _ => results st
       end.
Proof.
  intros Hp Hh Hg Hu enhanced out.
  assert (Hc : checkRequiredParameters (getActionInfo tool (actionName m)) params = Ok []).
  { now rewrite (getActionInfo_unlisted _ _ Hu). }
  split; [assumption|].
  unfold BaseAgent.process_tag. rewrite Hp, (dispatch_execute m _ _ tool Hh Hg Hc).
  fold enhanced. fold out. now destruct out.
Qed.

(** ** The result map *)

Lemma get_put (k k' : string) (v : value) : forall o,
  get k' (put k v o) = if String.eqb k' k then Some v else get k' o.
Proof.
  induction o as [|[k0 v0] o IH]; simpl.
  - reflexivity.
  - destruct (String.eqb_spec k k0) as [<-|Hk]; simpl.
    + now destruct (String.eqb k' k).
    + rewrite IH. destruct (String.eqb_spec k' k0) as [->|]; [|reflexivity].
      destruct (String.eqb_spec k0 k); [congruence | reflexivity].
Qed.

Lemma get_insert_index (n : N) (k k' : string) (v : value) : forall o,
  get k o = None ->
  get k' (insert_index n k v o) = if String.eqb k' k then Some v else get k' o.
Proof.
  induction o as [|[k0 v0] o IH]; intros Hk; [reflexivity|].
  cbn [get] in Hk. destruct (String.eqb_spec k k0) as [|Hne]; [discriminate|].
  cbn [insert_index].
  destruct (array_index k0) as [n0|]; [destruct (n <? n0)%N|]; try reflexivity.
  cbn [get]. rewrite (IH Hk).
  destruct (String.eqb_spec k' k0) as [->|]; [|reflexivity].
  destruct (String.eqb_spec k0 k); [congruence | reflexivity].
Qed.

Lemma get_define (k k' : string) (v : value) (o : obj) :
  get k' (define k v o) = if String.eqb k' k then Some v else get k' o.
Proof.
  unfold define. destruct (get k o) eqn:E; [apply get_put|].
  destruct (array_index k); [now apply get_insert_index | apply get_put].
Qed.

Lemma set_ordinary (k : string) (v : value) (o : obj) :
  k <> "__proto__" -> set k v o = define k v o.
Proof.
  intros H. unfold set. apply String.eqb_neq in H. rewrite H. now destruct (get k o).
Qed.

Lemma get_set (k k' : string) (v : value) (o : obj) :
  k <> "__proto__" ->
  get k' (set k v o) = if String.eqb k' k then Some v else get k' o.
Proof. intros H. rewrite (set_ordinary _ _ _ H). apply get_define. Qed.

(** A key that is no array index and not [__proto__] is added last. *)
Lemma set_named (k : string) (v : value) (o : obj) :
  k <> "__proto__" -> array_index k = None -> set k v o = put k v o.
Proof.
  intros H Hi. rewrite (set_ordinary _ _ _ H). unfold define. rewrite Hi.
  now destruct (get k o).
Qed.

Lemma keys_put (k : string) (v : value) : forall o,
  keys (put k v o) = if mem k (keys o) then keys o else (keys o ++ [k])%list.
Proof.
  unfold keys, mem. induction o as [|[k0 v0] o IH]; simpl; [reflexivity|].
  destruct (String.eqb_spec k k0) as [<-|Hk]; simpl; [reflexivity|].
  rewrite IH. now destruct (existsb (String.eqb k) (map fst o)).
Qed.

Lemma length_put (k : string) (v : value) : forall o,
  List.length (put k v o) <= S (List.length o).
Proof.
  induction o as [|[k0 v0] o IH]; simpl; [lia|].
  destruct (String.eqb k k0); simpl; lia.
Qed.

Lemma length_insert_index (n : N) (k : string) (v : value) : forall o,
  List.length (insert_index n k v o) <= S (List.length o).
Proof.
  induction o as [|[k0 v0] o IH]; simpl; [lia|].
  destruct (array_index k0) as [n0|]; [destruct (n <? n0)%N|]; simpl; lia.
Qed.

Lemma length_set (k : string) (v : value) (o : obj) :
  List.length (set k v o) <= S (List.length o).
Proof.
  assert (D : List.length (define k v o) <= S (List.length o)).
  { unfold define. destruct (get k o); [apply length_put|].
    destruct (array_index k); [apply length_insert_index | apply length_put]. }
  unfold set. destruct (get k o); [assumption|].
  destruct (String.eqb k "__proto__"); [lia | assumption].
Qed.

Lemma all_digit_of_uint : forall d, all digit (NilEmpty.string_of_uint d) = true.
Proof.
  induction d as [|d IH|d IH|d IH|d IH|d IH|d IH|d IH|d IH|d IH|d IH];
    cbn [NilEmpty.string_of_uint all]; [reflexivity | ..]; now rewrite IH.
Qed.

Lemma of_N_digits (n : N) : Str.of_N n <> "" /\ all digit (Str.of_N n) = true.
Proof.
  unfold Str.of_N, NilZero.string_of_uint.
  destruct (N.to_uint n) eqn:E; try (split; [discriminate | apply all_digit_of_uint]).
  split; [discriminate | reflexivity].
Qed.

(** The key of a result is no array index: it has an underscore. *)
Lemma array_index_joined (tool action : string) :
  array_index (tool ++ "_" ++ action) = None.
Proof.
  unfold array_index. cbv zeta.
  destruct (String.eqb_spec (Str.of_N (Str.parse_digits 0 (tool ++ "_" ++ action)))
              (tool ++ "_" ++ action)) as [E|]; [|reflexivity].
  destruct (of_N_digits (Str.parse_digits 0 (tool ++ "_" ++ action))) as [_ H].
  rewrite E, all_app in H. apply andb_prop in H as [_ H]. discriminate.
Qed.

Lemma first_occurrences_ext (l : list string) : forall s1 s2,
  (forall x, mem x s1 = mem x s2) -> first_occurrences s1 l = first_occurrences s2 l.
Proof.
  induction l as [|x l IH]; intros s1 s2 H; simpl; [reflexivity|].
  rewrite (H x). destruct (mem x s2); [now apply IH|].
  f_equal. apply IH. intros y. unfold mem in *. simpl. now rewrite (H y).
Qed.

Lemma mem_snoc (x k : string) (l : list string) :
  mem x (l ++ [k])%list = mem x (k :: l).
Proof.
  unfold mem. rewrite existsb_app. simpl. rewrite orb_false_r. apply orb_comm.
Qed.

Lemma keys_fold_store : forall (l : list (string * value)) (o : obj),
  (forall k, In k (map fst l) -> named k) ->
  keys (fold_left store l o)
  = (keys o ++ first_occurrences (keys o) (map fst l))%list.
Proof.
  induction l as [|[k v] l IH]; intros o Hl; simpl.
  - now rewrite List.app_nil_r.
  - destruct (Hl k (or_introl eq_refl)) as [Hp Hi].
    rewrite IH by (intros k' Hk'; apply Hl; now right).
    unfold store. cbn [fst snd]. rewrite (set_named _ _ _ Hp Hi), keys_put.
    destruct (mem k (keys o)) eqn:E; [reflexivity|].
    rewrite <- List.app_assoc. simpl. do 2 f_equal.
    apply first_occurrences_ext. intros x. apply mem_snoc.
Qed.

Lemma get_fold_store (k : string) : forall (l : list (string * value)) (o : obj),
  (forall k', In k' (map fst l) -> k' <> "__proto__") ->
  get k (fold_left store l o)
  = match last_under k l with
    | Some v => Some v
    | None => get k o
    end.
Proof.
  induction l as [|[k' v] l IH]; intros o Hl; simpl; [reflexivity|].
  rewrite IH by (intros k0 Hk0; apply Hl; now right).
  destruct (last_under k l); [reflexivity|].
  unfold store. simpl. rewrite get_set by (apply Hl; now left).
  now destruct (String.eqb k k').
Qed.

Lemma length_fold_store : forall (l : list (string * value)) (o : obj),
  List.length (fold_left store l o) <= List.length o + List.length l.
Proof.
  induction l as [|kv l IH]; intros o; simpl; [lia|].
  specialize (IH (store o kv)). unfold store in *.
  pose proof (length_set (fst kv) (snd kv) o). lia.
Qed.

Lemma stored_app (a b : history) : stored (a ++ b)%list = (stored a ++ stored b)%list.
Proof.
  induction a as [|e a IH]; simpl; [reflexivity|].
  destruct e as [t an p [r|msg]| | |]; simpl; now rewrite IH.
Qed.

(** One call of [dispatch] adds nothing to the history, or the one
    execution of the tag. *)
Lemma dispatch_shape m params h :
  (exists r, dispatch tools toolParams m params h = (r, h)
             /\ forall key v, r <> Ok (Executed key v))
  \/ (exists enhanced out,
        dispatch tools toolParams m params h
        = (match out with
           | Ok v => Ok (Executed (toolName m ++ "_" ++ actionName m) v)
           | Throw e => Throw e
           end,
           (h ++ [EvExecute (toolName m) (actionName m) enhanced out])%list)).
Proof.
  unfold dispatch.
  destruct (hasMatchingTool (Map_values tools) (toolName m)) as [[|]|e].
  - destruct (Map_get (toolName m) tools) as [tool|].
    + destruct (checkRequiredParameters (getActionInfo tool (actionName m)) params)
        as [[|x missing]|e].
      * right.
        exists (enhanceToolParameters tool (actionName m) params toolParams),
               (execute tool h (actionName m)
                  (enhanceToolParameters tool (actionName m) params toolParams)).
        now destruct (execute tool h (actionName m) _).
      * left. eexists. split; [reflexivity | discriminate].
      * left. eexists. split; [reflexivity | discriminate].
    + left. eexists. split; [reflexivity | discriminate].
  - left. eexists. split; [reflexivity | discriminate].
  - left. eexists. split; [reflexivity | discriminate].
Qed.

Lemma process_tag_stores m st :
  exists ev, tag_events m ev
             /\ calls (process_tag m st) = (calls st ++ ev)%list
             /\ results (process_tag m st) = fold_left store (stored ev) (results st).
Proof.
  unfold BaseAgent.process_tag, tag_events.
  destruct (JSON_parse (paramsStr m)) as [params|].
  - destruct (dispatch_shape m params (calls st)) as [(r & -> & Hr)|(enhanced & out & ->)].
    + exists []. rewrite List.app_nil_r.
      destruct r as [[|key v]|e]; simpl; auto. now destruct (Hr key v).
    + exists [EvExecute (toolName m) (actionName m) enhanced out].
      destruct out as [v|e]; simpl; eauto 6.
  - exists []. rewrite List.app_nil_r. simpl. auto.
Qed.

Lemma process_tags_stores : forall ms st,
  exists evs, Forall2 tag_events ms evs
              /\ calls (process_tags ms st) = (calls st ++ concat evs)%list
              /\ results (process_tags ms st)
                 = fold_left store (stored (concat evs)) (results st).
Proof.
  induction ms as [|m ms IH]; intros st; simpl.
  - exists []. rewrite List.app_nil_r. simpl. auto.
  - destruct (process_tag_stores m st) as (ev & Hev & Hc & Hr).
    destruct (IH (process_tag m st)) as (evs & Hevs & Hcs & Hrs).
    exists (ev :: evs). simpl. split; [now constructor|].
    rewrite Hcs, Hrs, Hc, Hr, stored_app, fold_left_app, List.app_assoc. auto.
Qed.

(** The keys of the stored executions are those of tags of the text. *)
Lemma stored_keys_of_tags : forall ms evs,
  Forall2 tag_events ms evs ->
  forall k, In k (map fst (stored (concat evs))) ->
  exists m, In m ms /\ k = toolName m ++ "_" ++ actionName m.
Proof.
  induction 1 as [|m ev ms evs Hev _ IH]; intros k Hk; [contradiction|].
  cbn [concat] in Hk. rewrite stored_app, map_app in Hk.
  apply in_app_or in Hk as [Hk|Hk].
  - exists m. split; [now left|].
    destruct Hev as [->|(params & [r|e] & ->)]; simpl in Hk; try contradiction.
    now destruct Hk.
  - destruct (IH k Hk) as (m' & Hm' & ->). exists m'. split; [now right | reflexivity].
Qed.

(** C8, as the code has it.  Each tag adds at most one execution to the
    history, in the order of the tags in the text; an execution that
    returns is stored under the text [<toolName>_<actionName>].  When no
    tag of the text has [__proto__] as that text, the keys of the result
    map are those texts in the order of their first occurrence, and the
    value under a key is the result of the last execution with that key:
    the map has one entry for all the executions whose key is the same
    text, whether or not they are of the same tool and action. *)
Theorem results_keyed_in_first_occurrence_order
    (response : string) (h : history) (ms : list found) :
  extract response = Some ms ->
  plain_keys ms ->
  exists evs out,
    processToolActions JSON_parse tools response toolParams h
    = Some (out, (h ++ concat evs)%list)
    /\ Forall2 tag_events ms evs
    /\ (forall tool action params r,
          In (EvExecute tool action params (Ok r)) (concat evs) ->
          In (tool ++ "_" ++ action, r) (stored (concat evs)))
    /\ keys (toolResults out) = first_occurrences [] (map fst (stored (concat evs)))
    /\ (forall k, get k (toolResults out) = last_under k (stored (concat evs))).
Proof.
  intros Hex Hplain. unfold processToolActions. rewrite Hex.
  destruct (process_tags_stores ms {| processedResponse := response; results := []; calls := h |})
    as (evs & Hevs & Hc & Hr).
  assert (Hnamed : forall k, In k (map fst (stored (concat evs))) -> named k).
  { intros k Hk. destruct (stored_keys_of_tags _ _ Hevs k Hk) as (m & Hm & ->).
    split; [now apply Hplain | apply array_index_joined]. }
  exists evs. eexists. split; [rewrite Hc; reflexivity|].
  cbn [toolResults results calls] in *. rewrite Hr. repeat split; auto.
  - intros tool action params r. generalize (concat evs).
    induction l as [|e l IH]; simpl; [tauto|].
    intros [->|Hin]; [now left|].
    destruct e as [t an p [v|msg]| | |]; simpl; auto.
  - now rewrite keys_fold_store.
  - intros k. rewrite get_fold_store by (intros k' Hk'; now apply Hnamed).
    now destruct (last_under k _).
Qed.

End Tags.

(** ** C7: the enhanced parameters *)

Lemma get_fill_default (k key : string) (d : option value) (e : obj) :
  key <> "__proto__" ->
  get k (fill_default key d e)
  = if String.eqb k key && negb (truthy (get key e)) && truthy d then d else get k e.
Proof.
  intros Hkey. unfold fill_default. destruct d as [v|]; [|now rewrite andb_false_r].
  destruct (negb (truthy (get key e)) && truthy (Some v)) eqn:E.
  - rewrite get_set by assumption. rewrite <- andb_assoc, E, andb_true_r.
    now destruct (String.eqb k key).
  - now rewrite <- andb_assoc, E, andb_false_r.
Qed.

Lemma unlisted_not_proto (k : string) :
  listed k Object_prototype = false -> k <> "__proto__".
Proof. intros H ->. vm_compute in H. discriminate. Qed.

(** The ambient layer, key by key: a key that the object lacks is read
    through the prototype chain, so the name of a member of
    [Object.prototype] is never filled. *)
Lemma get_fold_ambient (k : string) : forall (toolParams e : obj),
  get k (fold_left fill_ambient toolParams e)
  = match get k e with
    | Some v => Some v
    | None => if listed k Object_prototype then None else get k toolParams
    end.
Proof.
  induction toolParams as [|[k' v'] tp IH]; intros e; cbn [fold_left].
  - destruct (get k e); [reflexivity|]. now destruct (listed k Object_prototype).
  - rewrite IH. unfold fill_ambient, is_undefined. cbn [fst snd get].
    destruct (get k' e) eqn:E.
    + destruct (get k e) eqn:Ek; [reflexivity|].
      destruct (String.eqb_spec k k'); [congruence | reflexivity].
    + destruct (listed k' Object_prototype) eqn:El; cbn [negb].
      * destruct (get k e); [reflexivity|].
        destruct (String.eqb_spec k k') as [->|]; [now rewrite El | reflexivity].
      * rewrite get_set by now apply unlisted_not_proto.
        destruct (String.eqb_spec k k') as [->|]; [now rewrite E, El|].
        reflexivity.
Qed.

(** The enhanced object, key by key. *)
Lemma get_enhanced (tool : Tool) (an : string) (params toolParams : obj) (k : string) :
  get k (enhanceToolParameters tool an (VObj params) toolParams)
  = match contextual tool params k with
    | Some v => Some v
    | None => if listed k Object_prototype then None else get k toolParams
    end.
Proof.
  unfold enhanceToolParameters, contextual. rewrite get_fold_ambient.
  cbn [spread].
  destruct (String.eqb (constructor_name tool) "GitHubTool"); [|reflexivity].
  rewrite !get_fill_default by discriminate. cbn [andb].
  destruct (String.eqb_spec k "owner") as [Eo|Ho];
    destruct (String.eqb_spec k "repo") as [Er|Hr];
    try (subst; discriminate); cbn [andb]; reflexivity.
Qed.

(** An ambient parameter that bears the name of a member of
    [Object.prototype] is never copied. *)
Lemma inherited_ambient_key_is_skipped (tool : Tool) (an : string)
    (params toolParams : obj) (k : string) :
  In k Object_prototype -> contextual tool params k = None ->
  get k (enhanceToolParameters tool an (VObj params) toolParams) = None.
Proof.
  intros Hk Hc. rewrite get_enhanced, Hc.
  apply listed_In in Hk. now rewrite Hk.
Qed.

(** C7, as the code has it.  Key by key, for the keys that are not names
    of members of [Object.prototype], the enhanced object is the
    three-layer merge [merged]: for a [GitHubTool], a truthy repository
    default replaces an [owner] or [repo] that is absent or falsy in the
    tag; every other key of the tag keeps its value; the ambient
    parameters fill the keys that are absent after that.  For every key,
    one that the tag gives a truthy value is never overwritten, nor is
    any key of the tag other than [owner] and [repo], nor any key of the
    tag for another kind of tool. *)
Theorem enhanced_parameters_merge (tool : Tool) (an : string) (params toolParams : obj)
    (k : string) :
  let enhanced := enhanceToolParameters tool an (VObj params) toolParams in
  (~ In k Object_prototype -> get k enhanced = merged tool params toolParams k)
  /\ (truthy (get k params) = true -> get k enhanced = get k params)
  /\ (k <> "owner" -> k <> "repo" -> get k params <> None -> get k enhanced = get k params)
  /\ (constructor_name tool <> "GitHubTool" -> get k params <> None ->
      get k enhanced = get k params)
  /\ (~ In k Object_prototype -> get k params = None -> contextual tool params k = None ->
      get k enhanced = get k toolParams).
Proof.
  cbv zeta. rewrite get_enhanced. unfold merged, contextual. repeat split.
  - intros Hk. now rewrite (listed_false _ _ Hk).
  - intros Ht.
    destruct (String.eqb (constructor_name tool) "GitHubTool"); cbn [andb];
      destruct (String.eqb_spec k "owner") as [Eo|Ho];
      destruct (String.eqb_spec k "repo") as [Er|Hr];
      try (subst; discriminate); subst; cbn [andb];
      rewrite ?Ht; cbn [negb andb];
      (destruct (get _ params); [reflexivity | discriminate]).
  - intros Ho Hr Hg.
    apply String.eqb_neq in Ho, Hr. rewrite Ho, Hr, !andb_false_r. cbn [andb].
    destruct (get k params); [reflexivity | congruence].
  - intros Hc Hg. apply String.eqb_neq in Hc. rewrite Hc. cbn [andb].
    destruct (get k params); [reflexivity | congruence].
  - intros Hk Hg Hc. unfold contextual in Hc. now rewrite Hc, (listed_false _ _ Hk).
Qed.

(** C7 as stated fails: an [owner] that the tag gives as the empty string
    (or [null], [false], [0]) is overwritten by the tool's default. *)
Lemma enhanced_parameters_counterexample :
  let text := "{" ++ quoted "owner" ++ ": " ++ quoted "" ++ ", "
                  ++ quoted "repo" ++ ": null, " ++ quoted "number" ++ ": 7}" in
  let params := [("owner", VStr ""); ("repo", VNull); ("number", VNum 7)] in
  JS.parse text = Some (VObj params)
  /\ enhanceToolParameters Samples.githubTool "getPR" (VObj params) []
     = [("owner", VStr "acme"); ("repo", VStr "dock"); ("number", VNum 7)]
  /\ get "owner" params = Some (VStr "")
  /\ get "owner" (enhanceToolParameters Samples.githubTool "getPR" (VObj params) [])
     <> get "owner" params.
Proof.
  cbv zeta. repeat split; try (vm_compute; reflexivity).
  vm_compute. discriminate.
Qed.

(** ** C9: failures on the fast path *)

Section FastPath.

Variable JSON_parse : string -> option value.
Variable parseInt : string -> value.
Variable Number_toString : value -> string.
Variable summary_report review_report : value -> value -> result string.
Variable github_context : value -> value -> value -> string.
Variable github_prompt : GitHubAgent.agent -> string -> string -> string.
Variable channel_report : value -> value -> result Outcome.
Variable slack_context : SlackAgent.agent -> result value -> result value -> string.
Variable slack_prompt : SlackAgent.agent -> string -> string -> string.

Local Abbreviation github_query :=
  (GitHubAgent.processQuery JSON_parse parseInt Number_toString summary_report review_report
     github_context github_prompt).
Local Abbreviation slack_query :=
  (SlackAgent.processQuery JSON_parse channel_report slack_context slack_prompt).
Local Abbreviation prNumber m := (parseInt (GitHubAgent.prDigits m)).

Lemma github_summary_failure a query toolParams h m key tool e :
  search true GitHubAgent.prSummaryPattern query = Some m ->
  GitHubAgent.findGithubTool (GitHubAgent.tools a) = Some (key, tool) ->
  let params := GitHubAgent.pr_params a (prNumber m) in
  execute tool h "summarizePR" params = Throw e ->
  github_query a query toolParams h
  = Some (Ok (GitHubAgent.summary_failed (Number_toString (prNumber m)) e),
          (h ++ [EvExecute key "summarizePR" params (Throw e)])%list).
Proof.
  intros Hm Hf params He.
  unfold GitHubAgent.processQuery, GitHubAgent.processGitHubPatterns.
  rewrite Hm, Hf. fold params. now rewrite He.
Qed.

Lemma github_review_failure a query toolParams h m key tool e :
  search true GitHubAgent.prSummaryPattern query = None ->
  search true GitHubAgent.codeReviewPattern query = Some m ->
  GitHubAgent.findGithubTool (GitHubAgent.tools a) = Some (key, tool) ->
  let params := GitHubAgent.pr_params a (prNumber m) in
  execute tool h "reviewCode" params = Throw e ->
  github_query a query toolParams h
  = Some (Ok (GitHubAgent.review_failed (Number_toString (prNumber m)) e),
          (h ++ [EvExecute key "reviewCode" params (Throw e)])%list).
Proof.
  intros Hn Hm Hf params He.
  unfold GitHubAgent.processQuery, GitHubAgent.processGitHubPatterns.
  rewrite Hn, Hm, Hf. fold params. now rewrite He.
Qed.

Lemma slack_info_failure a query toolParams h m c e :
  search true SlackAgent.sendMessagePattern query = None ->
  SlackAgent.match1 SlackAgent.getChannelInfoPattern query = Some m ->
  SlackAgent.client a = Some c ->
  let channel := capture 1 (caps m) in
  let args := [("channel", VStr channel)] in
  SlackAgent.conversations_info c h args = Throw e ->
  slack_query a query toolParams h
  = Some (Ok (SlackAgent.channel_info_failed channel e),
          (h ++ [EvSlack "conversations.info" args (Throw e)])%list).
Proof.
  intros Hn Hm Hc channel args He.
  unfold SlackAgent.processQuery, SlackAgent.processSlackQuery.
  rewrite Hn, Hm, Hc. fold channel. fold args. now rewrite He.
Qed.

Lemma slack_history_failure a query toolParams h m c info e :
  search true SlackAgent.sendMessagePattern query = None ->
  SlackAgent.match1 SlackAgent.getChannelInfoPattern query = Some m ->
  SlackAgent.client a = Some c ->
  let channel := capture 1 (caps m) in
  let args1 := [("channel", VStr channel)] in
  let args2 := [("channel", VStr channel); ("limit", VNum 5)] in
  let h1 := (h ++ [EvSlack "conversations.info" args1 (Ok info)])%list in
  SlackAgent.conversations_info c h args1 = Ok info ->
  SlackAgent.conversations_history c h1 args2 = Throw e ->
  slack_query a query toolParams h
  = Some (Ok (SlackAgent.channel_info_failed channel e),
          (h1 ++ [EvSlack "conversations.history" args2 (Throw e)])%list).
Proof.
  intros Hn Hm Hc channel args1 args2 h1 Hi He.
  unfold SlackAgent.processQuery, SlackAgent.processSlackQuery.
  rewrite Hn, Hm, Hc. fold channel. fold args1. rewrite Hi. fold h1. fold args2.
  now rewrite He.
Qed.

Lemma slack_create_failure a query toolParams h m c e :
  search true SlackAgent.sendMessagePattern query = None ->
  SlackAgent.match1 SlackAgent.getChannelInfoPattern query = None ->
  SlackAgent.match1 SlackAgent.createChannelPattern query = Some m ->
  SlackAgent.client a = Some c ->
  let channelName := toLowerCase (capture 1 (caps m)) in
  let args := [("name", VStr (SlackAgent.formattedName channelName));
               ("is_private", VBool false)] in
  SlackAgent.conversations_create c h args = Throw e ->
  slack_query a query toolParams h
  = Some (Ok (SlackAgent.create_channel_failed channelName e),
          (h ++ [EvSlack "conversations.create" args (Throw e)])%list).
Proof.
  intros Hn Hi Hm Hc channelName args He.
  unfold SlackAgent.processQuery, SlackAgent.processSlackQuery.
  rewrite Hn, Hi, Hm, Hc. fold channelName.
  unfold SlackAgent.createChannel. rewrite Hc. fold args. now rewrite He.
Qed.

Lemma slack_send_failure a query toolParams h m c e :
  search true SlackAgent.sendMessagePattern query = Some m ->
  SlackAgent.client a = Some c ->
  let channel := capture 1 (caps m) in
  let args := [("channel", VStr (if String.eqb channel "" then SlackAgent.defaultChannel a
                                 else channel));
               ("text", VStr (capture 2 (caps m)))] in
  SlackAgent.chat_postMessage c h args = Throw e ->
  slack_query a query toolParams h
  = BaseAgent.processQuery JSON_parse (SlackAgent.generateCompletion slack_context slack_prompt a)
      (SlackAgent.tools a) query toolParams
      (h ++ [EvSlack "chat.postMessage" args (Throw e)])%list.
Proof.
  intros Hm Hc channel args He.
  unfold SlackAgent.processQuery, SlackAgent.processSlackQuery.
  rewrite Hm, Hc. unfold SlackAgent.sendMessage. rewrite Hc.
  fold channel. fold args. now rewrite He.
Qed.

(** C9, as the code has it.  When a query matches a GitHub fast-path
    pattern, or the Slack channel-information or channel-creation
    pattern, and the call made for it fails, [processQuery] returns the
    degraded response that carries the failure's message (and, for
    GitHub, the number as [parseInt] read it); the history gains the
    failed call and no call to the completion service.  When it matches
    the Slack send-message pattern and the send fails, the query is
    processed by the generic protocol instead: [generateCompletion] of the
    Slack agent, completion included. *)
Theorem fast_path_failure_is_degraded :
  (forall a query toolParams h m key tool e,
     search true GitHubAgent.prSummaryPattern query = Some m ->
     GitHubAgent.findGithubTool (GitHubAgent.tools a) = Some (key, tool) ->
     execute tool h "summarizePR" (GitHubAgent.pr_params a (prNumber m))
     = Throw e ->
     github_query a query toolParams h
     = Some (Ok (GitHubAgent.summary_failed (Number_toString (prNumber m)) e),
             (h ++ [EvExecute key "summarizePR"
                      (GitHubAgent.pr_params a (prNumber m)) (Throw e)])%list))
  /\ (forall a query toolParams h m key tool e,
        search true GitHubAgent.prSummaryPattern query = None ->
        search true GitHubAgent.codeReviewPattern query = Some m ->
        GitHubAgent.findGithubTool (GitHubAgent.tools a) = Some (key, tool) ->
        execute tool h "reviewCode" (GitHubAgent.pr_params a (prNumber m))
        = Throw e ->
        github_query a query toolParams h
        = Some (Ok (GitHubAgent.review_failed (Number_toString (prNumber m)) e),
                (h ++ [EvExecute key "reviewCode"
                         (GitHubAgent.pr_params a (prNumber m)) (Throw e)])%list))
  /\ (forall a query toolParams h m c e,
        search true SlackAgent.sendMessagePattern query = None ->
        SlackAgent.match1 SlackAgent.getChannelInfoPattern query = Some m ->
        SlackAgent.client a = Some c ->
        SlackAgent.conversations_info c h [("channel", VStr (capture 1 (caps m)))] = Throw e ->
        slack_query a query toolParams h
        = Some (Ok (SlackAgent.channel_info_failed (capture 1 (caps m)) e),
                (h ++ [EvSlack "conversations.info"
                         [("channel", VStr (capture 1 (caps m)))] (Throw e)])%list))
  /\ (forall a query toolParams h m c info e,
        search true SlackAgent.sendMessagePattern query = None ->
        SlackAgent.match1 SlackAgent.getChannelInfoPattern query = Some m ->
        SlackAgent.client a = Some c ->
        SlackAgent.conversations_info c h [("channel", VStr (capture 1 (caps m)))] = Ok info ->
        SlackAgent.conversations_history c
          (h ++ [EvSlack "conversations.info" [("channel", VStr (capture 1 (caps m)))]
                   (Ok info)])%list
          [("channel", VStr (capture 1 (caps m))); ("limit", VNum 5)] = Throw e ->
        slack_query a query toolParams h
        = Some (Ok (SlackAgent.channel_info_failed (capture 1 (caps m)) e),
                ((h ++ [EvSlack "conversations.info" [("channel", VStr (capture 1 (caps m)))]
                          (Ok info)])
                 ++ [EvSlack "conversations.history"
                       [("channel", VStr (capture 1 (caps m))); ("limit", VNum 5)]
                       (Throw e)])%list))
  /\ (forall a query toolParams h m c e,
        search true SlackAgent.sendMessagePattern query = None ->
        SlackAgent.match1 SlackAgent.getChannelInfoPattern query = None ->
        SlackAgent.match1 SlackAgent.createChannelPattern query = Some m ->
        SlackAgent.client a = Some c ->
        SlackAgent.conversations_create c h
          [("name", VStr (SlackAgent.formattedName (toLowerCase (capture 1 (caps m)))));
           ("is_private", VBool false)] = Throw e ->
        slack_query a query toolParams h
        = Some (Ok (SlackAgent.create_channel_failed (toLowerCase (capture 1 (caps m))) e),
                (h ++ [EvSlack "conversations.create"
                         [("name", VStr (SlackAgent.formattedName
                                           (toLowerCase (capture 1 (caps m)))));
                          ("is_private", VBool false)] (Throw e)])%list))
  /\ (forall a query toolParams h m c e,
        search true SlackAgent.sendMessagePattern query = Some m ->
        SlackAgent.client a = Some c ->
        SlackAgent.chat_postMessage c h
          [("channel", VStr (if String.eqb (capture 1 (caps m)) ""
                             then SlackAgent.defaultChannel a else capture 1 (caps m)));
           ("text", VStr (capture 2 (caps m)))] = Throw e ->
        slack_query a query toolParams h
        = BaseAgent.processQuery JSON_parse (SlackAgent.generateCompletion slack_context slack_prompt a)
            (SlackAgent.tools a) query toolParams
            (h ++ [EvSlack "chat.postMessage"
                     [("channel", VStr (if String.eqb (capture 1 (caps m)) ""
                                        then SlackAgent.defaultChannel a
                                        else capture 1 (caps m)));
                      ("text", VStr (capture 2 (caps m)))] (Throw e)])%list).
Proof.
  repeat split; intros.
  - eapply github_summary_failure; eauto.
  - eapply github_review_failure; eauto.
  - eapply slack_info_failure; eauto.
  - eapply slack_history_failure; eauto.
  - eapply slack_create_failure; eauto.
  - eapply slack_send_failure; eauto.
Qed.

End FastPath.

Lemma fast_path_failure_witness :
  GitHubAgent.processQuery JS.parse Samples.parseInt Samples.Number_toString
    Samples.no_report Samples.no_report Samples.no_context Samples.plain_prompt
    (Samples.githubAgent Samples.downGithubTool) "Please summarize PR #42" [] []
  = Some (Ok {| response := "I encountered an error trying to summarize PR #42: Not Found";
                toolResults := [] |},
          [EvExecute "github" "summarizePR"
             [("owner", VStr "acme"); ("repo", VStr "dock"); ("number", VNum 42)]
             (Throw "Not Found")]).
Proof.
  exact (proj1 (fast_path_failure_is_degraded JS.parse Samples.parseInt
                  Samples.Number_toString Samples.no_report Samples.no_report
                  Samples.no_context Samples.plain_prompt Samples.no_channel_report
                  Samples.no_slack_context Samples.plain_prompt)
           (Samples.githubAgent Samples.downGithubTool) "Please summarize PR #42" [] []
           {| before := "Please "; matched := "summarize PR #42"; caps := [(1, "42")];
              rest := "" |}
           "github" Samples.downGithubTool "Not Found" eq_refl eq_refl eq_refl).
Defined.

(** C9 as stated fails for the send-message pattern of the Slack agent: a
    failed send makes [processSlackQuery] return [null], and the query
    goes on to [generateCompletion], which gathers the Slack context (two
    more calls, failing here like the send) and calls the completion
    service; the answer is the model's, not a degraded response. *)
Lemma slack_send_failure_falls_through :
  let query := "send a message to #general saying hello" in
  SlackAgent.processQuery JS.parse Samples.no_channel_report Samples.no_slack_context
    Samples.plain_prompt Samples.slackAgent query [] []
  = Some (Ok {| response := "model text"; toolResults := [] |},
          [EvSlack "chat.postMessage" [("channel", VStr "general"); ("text", VStr "hello")]
             (Throw "channel_not_found");
           EvSlack "conversations.list"
             [("limit", VNum 10); ("exclude_archived", VBool true)]
             (Throw "channel_not_found");
           EvSlack "conversations.history" [("channel", VStr "general"); ("limit", VNum 5)]
             (Throw "channel_not_found");
           EvCompletion query (Ok "model text")]).
Proof. vm_compute. reflexivity. Qed.

(* ================================================================== *)
(** * The claims on sample completions *)
(* ================================================================== *)

Import Samples.




Lemma required_parameters_witness :
  let m := tag "" "github" "" "getPR" "{}" "" in
  let st := process_tag JS.parse tools [] m (start (fullMatch m)) in
  calls st = []
  /\ results st = []
  /\ processedResponse st
     = "[github getPR result: Error - Missing required parameters for getPR: number]".
Proof.
  exact (proj1 (proj2 (proj2 (proj2 (proj2
    (required_parameters_are_checked JS.parse tools []
       {| name := "getPR"; parameters := Some [("number", {| required := true |})] |} [])))))
    (tag "" "github" "" "getPR" "{}" "") (start "[TOOL_ACTION:github:getPR:{}]") githubTool
    eq_refl eq_refl eq_refl eq_refl ltac:(discriminate)).
Defined.



Lemma enhanced_parameters_witness :
  get "owner" (enhanceToolParameters githubTool "getPR" (VObj [("number", VNum 7)])
                 [("verbose", VBool true)])
  = Some (VStr "acme").
Proof.
  exact (proj1 (enhanced_parameters_merge githubTool "getPR" [("number", VNum 7)]
                  [("verbose", VBool true)] "owner")
           ltac:(simpl; intuition discriminate)).
Defined.

Lemma results_order_witness :
  exists evs out,
    processToolActions JS.parse tools text_repeated [] [] = Some (out, ([] ++ concat evs)%list)
    /\ Forall2 tag_events tags_repeated evs
    /\ (forall tool action params r,
          In (EvExecute tool action params (Ok r)) (concat evs) ->
          In (tool ++ "_" ++ action, r) (stored (concat evs)))
    /\ keys (toolResults out) = first_occurrences [] (map fst (stored (concat evs)))
    /\ (forall k, get k (toolResults out) = last_under k (stored (concat evs))).
Proof.
  exact (results_keyed_in_first_occurrence_order JS.parse tools [] text_repeated []
           tags_repeated ltac:(vm_compute; reflexivity)
           ltac:(intros m [<-|[<-|[<-|[]]]]; discriminate)).
Defined.

(** C8 as stated fails: the tool [deploy_staging] with the action
    [status] and the tool [deploy] with the action [staging_status] are
    two tool and action pairs with the same key; both are executed, and
    the result map has one entry, which holds the result of the second. *)
Lemma results_key_collision :
  let registry := [("deploy_staging", deployTool "deploy_staging");
                   ("deploy", deployTool "deploy")] in
  let text := serialize "deploy_staging" "status" (json_number "1") ++ " "
              ++ serialize "deploy" "staging_status" (json_number "2") in
  let result n := VObj [("success", VBool true); ("data", VObj [("number", VNum n)])] in
  processToolActions JS.parse registry text [] []
  = Some ({| response := "[deploy_staging_status completed successfully] "
                         ++ "[deploy_staging_status completed successfully]";
             toolResults := [("deploy_staging_status", result 2%Z)] |},
          [EvExecute "deploy_staging" "status" [("number", VNum 1)] (Ok (result 1%Z));
           EvExecute "deploy" "staging_status" [("number", VNum 2)] (Ok (result 2%Z))]).
Proof. vm_compute. reflexivity. Qed.

(** The result map of [text_repeated]: the second [getPR] overwrote the
    first under the key's original position. *)
Example results_order_example :
  option_map (fun r => toolResults (fst r))
    (processToolActions JS.parse tools text_repeated [] [])
  = Some [("github_getPR",
           VObj [("success", VBool true);
                 ("data", VObj [("number", VNum 2); ("owner", VStr "acme");
                                ("repo", VStr "dock")])]);
          ("github_info",
           VObj [("success", VBool true);
                 ("data", VObj [("owner", VStr "acme"); ("repo", VStr "dock")])])].
Proof. vm_compute. reflexivity. Qed.

Lemma unlisted_action_witness :
  let m := tag "" "legacy" "" "anything" "42" "" in
  let st := process_tag JS.parse tools [] m (start (fullMatch m)) in
  checkRequiredParameters (getActionInfo brokenTool "anything") (VNum 42) = Ok []
  /\ calls st = [EvExecute "legacy" "anything" [] (Throw "service unavailable")]
  /\ processedResponse st = "[legacy anything result: Error - service unavailable]"
  /\ results st = [].
Proof.
  exact (unlisted_action_is_executed_unchecked JS.parse tools []
           (tag "" "legacy" "" "anything" "42" "") (start "[TOOL_ACTION:legacy:anything:42]")
           (VNum 42) brokenTool eq_refl eq_refl eq_refl (or_introl eq_refl)).
Defined.

(** C2 fails on the code.  The registry is searched for a tool whose
    configured name is the tag's token up to case, but the tool is then
    fetched with [Map.get] under the token as written.  With the GitHub
    tool registered as [github], the token [GitHub] finds a match and
    fetches [undefined]: nothing is executed and the tag becomes an error
    marker.  With a registry whose key [github] holds another tool, that
    other tool is fetched and executed. *)
Theorem case_insensitive_match_fetches_by_key :
  hasMatchingTool (Map_values [("github", githubTool)]) "GitHub" = Ok true
  /\ Map_get "GitHub" [("github", githubTool)] = None
  /\ processToolActions JS.parse [("github", githubTool)]
       (serialize "GitHubTool" "getPR" (json_number "1")) [] []
     = Some ({| response := "[GitHub getPR result: Error - Cannot read properties of "
                            ++ "undefined (reading 'getAvailableActions')]";
                toolResults := [] |}, [])
  /\ processToolActions JS.parse [("gh", githubTool); ("github", slackTool)]
       (serialize "github" "getPR" (json_number "1")) [] []
     = Some ({| response := "[github_getPR completed successfully]";
                toolResults :=
                  [("github_getPR",
                    VObj [("success", VBool true); ("data", VObj [("number", VNum 1)])])] |},
             [EvExecute "github" "getPR" [("number", VNum 1)]
                (Ok (VObj [("success", VBool true); ("data", VObj [("number", VNum 1)])]))]).
Proof. repeat split; vm_compute; reflexivity. Qed.

(* ================================================================== *)
(** * Further properties *)
(* ================================================================== *)

Import Shapes.

(** ** The extractor *)

Lemma lit_false_inv l : forall s s', lit false l s = Some s' -> s = l ++ s'.
Proof.
  induction l as [|a l IH]; simpl; intros s s' H.
  - now inversion H.
  - destruct s as [|c s]; [discriminate|].
    destruct (Ascii.eqb_spec a c) as [->|]; [|discriminate].
    now rewrite (IH _ _ H).
Qed.

(** A match of the tag pattern at the start of a text: the text starts
    with the serialization of the captured tokens. *)
Lemma match_at_tag_inv s rest0 cs :
  match_at false toolActionRegex s = Some (rest0, cs) ->
  exists t suffix a p,
    s = serialize (t ++ suffix) a p ++ rest0
    /\ cs = [(3, p); (2, a); (1, t)]
    /\ t <> "" /\ all (not_char ":") t = true
    /\ (suffix = "" \/ is_suffix_word suffix = true)
    /\ a <> "" /\ all (not_char ":") a = true
    /\ p <> "" /\ all (not_char "]") p = true.
Proof.
  unfold match_at, toolActionRegex. intros H.
  rewrite rmatch_seq in H. cbn [rmatch] in H.
  destruct (lit false "[TOOL_ACTION:" s) as [s1|] eqn:E0; [|discriminate].
  apply lit_false_inv in E0. subst s.
  apply plusL_inv in H as (t & s1' & -> & Ht & Htc & H).
  rewrite consumed_app in H.
  assert (HK : exists suffix sK,
             s1' = suffix ++ sK
             /\ (suffix = "" \/ is_suffix_word suffix = true)
             /\ match lit false ":" sK with
                | Some s2 =>
                    plusG (not_char ":") s2
                      (fun s2' =>
                         match lit false ":" s2' with
                         | Some s3 =>
                             plusG (not_char "]") s3
                               (fun s3' =>
                                  match lit false "]" s3' with
                                  | Some s4 =>
                                      Some (s4, [(3, consumed s3 s3'); (2, consumed s2 s2');
                                                 (1, t)])
                                  | None => None
                                  end)
                         | None => None
                         end)
                | None => None
                end = Some (rest0, cs)).
  { destruct s1' as [|c s1'']; cbn -[lit plusG Ascii.eqb] in H.
    - exists "", "". auto.
    - destruct (Ascii.eqb c "T" || (Ascii.eqb c "t" || false)) eqn:Ec;
        [|exists "", (String c s1''); auto].
      destruct (lit false "ool" s1'') as [s1'''|] eqn:El;
        [|exists "", (String c s1''); auto].
      apply lit_false_inv in El. subst s1''.
      match type of H with
      | match ?X with Some _ => _ | None => _ end = _ => destruct X as [x|] eqn:EX
      end.
      + inversion H; subst x. exists (String c "ool"), s1'''.
        split; [reflexivity|]. split; [|assumption]. right.
        unfold is_suffix_word. cbn -[Ascii.eqb].
        destruct (Ascii.eqb c "T"); [reflexivity|].
        destruct (Ascii.eqb c "t"); [reflexivity | discriminate].
      + exists "", (String c ("ool" ++ s1''')). auto. }
  destruct HK as (suffix & sK & -> & Hsuf & HK).
  destruct (lit false ":" sK) as [s2|] eqn:E1; [|discriminate].
  apply lit_false_inv in E1. subst sK.
  apply plusG_inv in HK as (a & s2' & -> & Ha & Hac & HK).
  destruct (lit false ":" s2') as [s3|] eqn:E2; [|discriminate].
  apply lit_false_inv in E2. subst s2'.
  apply plusG_inv in HK as (p & s3' & -> & Hp & Hpc & HK).
  destruct (lit false "]" s3') as [s4|] eqn:E3; [|discriminate].
  apply lit_false_inv in E3. subst s3'.
  rewrite !consumed_app in HK. inversion HK; subst.
  exists t, suffix, a, p. repeat split; auto.
  unfold serialize. rewrite !app_assoc. reflexivity.
Qed.

(** Each found match is a match at the start of some text. *)
Lemma search_match ci r : forall s f,
  search ci r s = Some f ->
  exists s0, match_at ci r s0 = Some (rest f, caps f) /\ matched f = consumed s0 (rest f).
Proof.
  induction s as [|c s IH]; intros f H; simpl in H.
  - destruct (match_at ci r "") as [[s' cs]|] eqn:E; [|discriminate].
    inversion H; subst f. exists "". auto.
  - destruct (match_at ci r (String c s)) as [[s' cs]|] eqn:E.
    + inversion H; subst f. exists (String c s). auto.
    + destruct (search ci r s) as [g|] eqn:Eg; [|discriminate].
      inversion H; subst f. cbn [rest caps matched]. now apply IH.
Qed.

Lemma exec_loop_all ci r : forall n s ms,
  exec_loop n ci r s = Some ms ->
  Forall (fun m => exists s0, search ci r s0 = Some m) ms.
Proof.
  induction n as [|n IH]; intros s ms H; simpl in H; [discriminate|].
  destruct (search ci r s) as [f|] eqn:E.
  - destruct (exec_loop n ci r (rest f)) as [l|] eqn:El; [|discriminate].
    inversion H; subst ms. constructor; eauto.
  - inversion H. constructor.
Qed.

Lemma exec_loop_tiles ci r : forall n s ms,
  exec_loop n ci r s = Some ms ->
  exists tail, s = reassemble ms tail /\ search ci r tail = None.
Proof.
  induction n as [|n IH]; intros s ms H; simpl in H; [discriminate|].
  destruct (search ci r s) as [f|] eqn:E.
  - destruct (exec_loop n ci r (rest f)) as [l|] eqn:El; [|discriminate].
    inversion H; subst ms. destruct (IH _ _ El) as (tail & Ht & Hn).
    exists tail. split; [|assumption].
    destruct (search_inv _ _ _ _ E) as (Hs & _). simpl. now rewrite <- Ht.
  - inversion H; subst ms. exists s. auto.
Qed.

Lemma search_tag_shape s m : search false toolActionRegex s = Some m -> tag_shape m.
Proof.
  intros H. destruct (search_match _ _ _ _ H) as (s0 & Hm & Hc).
  destruct (match_at_tag_inv _ _ _ Hm) as (t & suffix & a & p & -> & Hcs & Ht & Htc & Hsuf
                                             & Ha & Hac & Hp & Hpc).
  rewrite consumed_app in Hc.
  unfold tag_shape, toolName, actionName, paramsStr, fullMatch. rewrite Hcs, Hc. simpl.
  repeat split; auto. exists suffix. auto.
Qed.

(** X1.  The tags the extractor reads tile the response: the response is
    the text before the first tag, the tag, the text before the second
    tag, and so on, followed by a tail in which no tag is left; the tags
    do not overlap and come in textual order. *)
Theorem tags_tile_the_response (response : string) :
  exists ms tail,
    extract response = Some ms
    /\ response = reassemble ms tail
    /\ extract tail = Some []
    /\ Forall (fun m => 19 <= String.length (matched m)) ms.
Proof.
  destruct (extract_ends response) as [ms Hms]. unfold extract in *.
  destruct (exec_loop_tiles _ _ _ _ _ Hms) as (tail & Ht & Hn).
  exists ms, tail. repeat split; auto.
  - cbn [exec_loop]. now rewrite Hn.
  - apply exec_loop_all in Hms. eapply Forall_impl; [|exact Hms].
    intros m [s0 Hs]. now destruct (search_inv _ _ _ _ Hs) as (_ & _ & Hl).
Qed.

(** X2.  Every tag the extractor reads has a tool token and an action name
    that are not empty and have no colon, and a parameter text that is
    not empty and has no closing bracket; the text of the tag is the
    serialization of the three, the token followed or not by [Tool] or
    [tool]. *)
Theorem extracted_tags_are_serializations (response : string) (ms : list found) :
  extract response = Some ms -> Forall tag_shape ms.
Proof.
  intros H. apply exec_loop_all in H. eapply Forall_impl; [|exact H].
  intros m [s0 Hs]. now apply (search_tag_shape s0).
Qed.

Lemma includes_eq (n h : string) :
  includes n h = prefix n h || match h with
                               | EmptyString => false
                               | String _ h' => includes n h'
                               end.
Proof. destruct h; reflexivity. Qed.

Lemma includes_app_intro (n : string) : forall a b, includes n (a ++ n ++ b) = true.
Proof.
  induction a as [|c a IH]; intros b; rewrite includes_eq.
  - simpl. now rewrite prefix_app.
  - simpl. rewrite IH. apply orb_true_r.
Qed.

Lemma search_tag_includes s m :
  search false toolActionRegex s = Some m -> includes "[TOOL_ACTION:" s = true.
Proof.
  intros H. destruct (search_inv _ _ _ _ H) as (Hs & _).
  destruct (search_tag_shape _ _ H) as (_ & _ & _ & _ & _ & _ & suffix & _ & Hf).
  unfold fullMatch in Hf. rewrite Hs, Hf. unfold serialize.
  rewrite (app_assoc "[TOOL_ACTION:"). apply includes_app_intro.
Qed.

Section MoreTags.

Variable JSON_parse : string -> option value.
Variable tools : registry.
Variable toolParams : obj.

Local Abbreviation step := (BaseAgent.process_tag JSON_parse tools toolParams).
Local Abbreviation steps := (BaseAgent.process_tags JSON_parse tools toolParams).

(** X3.  A completion in which the text [[TOOL_ACTION:] does not occur is
    returned as it is: no tag is read, nothing is executed, the result
    map is empty. *)
Theorem text_without_tag_is_unchanged (response : string) (h : history) :
  includes "[TOOL_ACTION:" response = false ->
  processToolActions JSON_parse tools response toolParams h
  = Some ({| response := response; toolResults := [] |}, h).
Proof.
  intros Hn. unfold processToolActions.
  destruct (extract_ends response) as [ms Hms]. rewrite Hms.
  destruct ms as [|m ms]; [reflexivity|].
  unfold extract in Hms. apply exec_loop_head in Hms.
  apply search_tag_includes in Hms. congruence.
Qed.

Lemma dispatch_registered m params h r h' :
  dispatch tools toolParams m params h = (r, h') ->
  h' = h
  \/ exists tool enhanced out,
       Map_get (toolName m) tools = Some tool
       /\ h' = (h ++ [EvExecute (toolName m) (actionName m) enhanced out])%list.
Proof.
  unfold dispatch.
  destruct (hasMatchingTool (Map_values tools) (toolName m)) as [[|]|e];
    try (inversion 1; now left).
  destruct (Map_get (toolName m) tools) as [tool|]; [|inversion 1; now left].
  destruct (checkRequiredParameters (getActionInfo tool (actionName m)) params)
    as [[|x missing]|e]; try (inversion 1; now left).
  intros H. right.
  exists tool, (enhanceToolParameters tool (actionName m) params toolParams),
    (execute tool h (actionName m)
       (enhanceToolParameters tool (actionName m) params toolParams)).
  split; [reflexivity|]. cbv zeta in H.
  destruct (execute tool h (actionName m) _); now inversion H.
Qed.

Lemma process_tag_calls m st :
  exists ev, calls (step m st) = (calls st ++ ev)%list
             /\ List.length ev <= 1
             /\ Forall (registered_execution tools) ev.
Proof.
  unfold BaseAgent.process_tag.
  destruct (JSON_parse (paramsStr m)) as [params|].
  - destruct (dispatch tools toolParams m params (calls st)) as [r h'] eqn:E.
    destruct (dispatch_registered _ _ _ _ _ E) as [->|(tool & enhanced & out & Hg & ->)].
    + exists []. rewrite List.app_nil_r.
      destruct r as [[|key v]|e]; simpl; auto.
    + exists [EvExecute (toolName m) (actionName m) enhanced out].
      assert (Hr : registered_execution tools
                     (EvExecute (toolName m) (actionName m) enhanced out)).
      { unfold registered_execution. eauto 8. }
      destruct r as [[|key v]|e]; simpl; auto.
  - exists []. rewrite List.app_nil_r. simpl. auto.
Qed.

Lemma process_tags_calls : forall ms st,
  exists ev, calls (steps ms st) = (calls st ++ ev)%list
             /\ List.length ev <= List.length ms
             /\ Forall (registered_execution tools) ev.
Proof.
  induction ms as [|m ms IH]; intros st; simpl.
  - exists []. rewrite List.app_nil_r. auto.
  - destruct (process_tag_calls m st) as (ev1 & Hc1 & Hl1 & Hf1).
    destruct (IH (step m st)) as (ev2 & Hc2 & Hl2 & Hf2).
    exists (ev1 ++ ev2)%list. rewrite Hc2, Hc1, List.app_assoc, List.length_app.
    repeat split; [lia | now apply Forall_app].
Qed.

Lemma first_occurrences_length (l : list string) : forall seen,
  List.length (first_occurrences seen l) <= List.length l.
Proof.
  induction l as [|x l IH]; intros seen; simpl; [lia|].
  destruct (mem x seen); simpl; [specialize (IH seen) | specialize (IH (x :: seen))]; lia.
Qed.

Lemma stored_length (h : history) : List.length (stored h) <= List.length h.
Proof.
  induction h as [|e h IH]; simpl; [lia|].
  destruct e as [t an p [r|msg]| | |]; simpl; lia.
Qed.

(** X4.  Processing a completion only adds executions to the history, at
    most one for each tag; every one of them runs a tool that the
    registry holds under the token of its tag; and the result map has at
    most one entry for each execution. *)
Theorem executions_are_bounded_and_registered (response : string) (h : history) :
  exists ms out ev,
    extract response = Some ms
    /\ processToolActions JSON_parse tools response toolParams h = Some (out, (h ++ ev)%list)
    /\ List.length ev <= List.length ms
    /\ Forall (registered_execution tools) ev
    /\ List.length (toolResults out) <= List.length ev.
Proof.
  destruct (extract_ends response) as [ms Hms].
  set (st0 := {| processedResponse := response; results := []; calls := h |}).
  destruct (process_tags_calls ms st0) as (ev & Hc & Hl & Hf).
  destruct (process_tags_stores JSON_parse tools toolParams ms st0) as (evs & _ & Hc' & Hr).
  exists ms, {| response := processedResponse (steps ms st0);
               toolResults := results (steps ms st0) |}, ev.
  split; [assumption|]. split.
  - unfold processToolActions. rewrite Hms. fold st0. now rewrite Hc.
  - repeat split; auto. cbn [toolResults].
    assert (E : concat evs = ev).
    { rewrite Hc in Hc'. now apply List.app_inv_head in Hc'. }
    rewrite Hr, E. cbn [results st0].
    etransitivity; [apply length_fold_store|]. apply stored_length.
Qed.

End MoreTags.

(** ** Validation of parameters that are not objects *)

Lemma missing_required_scalar (v : value) :
  v <> VNull -> own_entries v = [] ->
  forall ps,
    missing_required ps v
    = Ok (filter (fun nm => negb (inherited v nm)) (required_names ps)).
Proof.
  intros Hv Hown. unfold required_names.
  assert (E : forall k, nullish_at v k = Ok (negb (inherited v k))).
  { intros k. unfold nullish_at. rewrite Hown. destruct v; [congruence|reflexivity..]. }
  induction ps as [|[nm info] ps IH]; [reflexivity|].
  cbn [missing_required filter map fst snd].
  destruct (required info); cbn [map fst filter]; rewrite IH; [|reflexivity].
  rewrite E. now destruct (negb (inherited v nm)).
Qed.

Lemma missing_required_null : forall ps,
  missing_required ps VNull
  = match required_names ps with
    | [] => Ok []
    | nm :: _ => Throw (TypeError_read "null" nm)
    end.
Proof.
  unfold required_names.
  induction ps as [|[nm info] ps IH]; simpl; [reflexivity|].
  destruct (required info); simpl; [reflexivity | assumption].
Qed.

(** X5.  Parameters that are valid JSON but no object.  For a number or a
    boolean, a required parameter of the schema is reported missing
    unless it bears the name of a member that the value inherits (from
    [Number.prototype] or [Boolean.prototype], and from
    [Object.prototype]): [toString], [valueOf], [constructor] and the
    like.  For [null], reading the first required parameter throws a
    TypeError, and a schema without required parameter reports nothing
    missing. *)
Theorem parameters_that_are_no_object (a : Action) :
  (forall n, checkRequiredParameters (Some a) (VNum n)
             = Ok (filter (fun nm => negb (listed nm (Number_prototype ++ Object_prototype)))
                     (required_names (schema_of a))))
  /\ (forall b, checkRequiredParameters (Some a) (VBool b)
                = Ok (filter (fun nm => negb (listed nm (Boolean_prototype ++ Object_prototype)))
                        (required_names (schema_of a))))
  /\ checkRequiredParameters (Some a) VNull
     = match required_names (schema_of a) with
       | [] => Ok []
       | nm :: _ => Throw (TypeError_read "null" nm)
       end.
Proof.
  unfold checkRequiredParameters, schema_of.
  destruct (parameters a) as [ps|]; repeat split; intros;
    try reflexivity;
    try (apply missing_required_scalar; [discriminate | reflexivity]);
    apply missing_required_null.
Qed.

(** ** The registry *)

Lemma Map_get_set (k nm : string) (t : Tool) : forall reg,
  Map_get k (Map_set nm t reg) = if String.eqb k nm then Some t else Map_get k reg.
Proof.
  induction reg as [|[k0 t0] reg IH]; simpl.
  - reflexivity.
  - destruct (String.eqb_spec nm k0) as [<-|Hk]; simpl.
    + now destruct (String.eqb k nm).
    + rewrite IH. destruct (String.eqb_spec k k0) as [->|]; [|reflexivity].
      destruct (String.eqb_spec k0 nm); [congruence | reflexivity].
Qed.

Lemma Map_get_delete (k nm : string) : forall reg : registry,
  Map_get k (filter (fun e => negb (String.eqb nm (fst e))) reg)
  = if String.eqb k nm then None else Map_get k reg.
Proof.
  induction reg as [|[k0 t0] reg IH]; simpl.
  - now destruct (String.eqb k nm).
  - destruct (String.eqb_spec nm k0) as [<-|Hk]; simpl.
    + rewrite IH. now destruct (String.eqb k nm).
    + rewrite IH. destruct (String.eqb_spec k k0) as [->|]; [|reflexivity].
      destruct (String.eqb_spec k0 nm); [congruence | reflexivity].
Qed.

Lemma Map_set_fresh (nm : string) (t : Tool) : forall reg,
  Map_get nm reg = None -> Map_set nm t reg = (reg ++ [(nm, t)])%list.
Proof.
  induction reg as [|[k0 t0] reg IH]; simpl; [reflexivity|].
  destruct (String.eqb nm k0); [discriminate|]. intros H. now rewrite IH.
Qed.

Lemma delete_fresh (nm : string) : forall reg : registry,
  Map_get nm reg = None ->
  filter (fun e => negb (String.eqb nm (fst e))) reg = reg.
Proof.
  induction reg as [|[k0 t0] reg IH]; simpl; [reflexivity|].
  destruct (String.eqb nm k0); [discriminate|]. intros H. simpl. now rewrite IH.
Qed.

Lemma registry_keys_set (nm : string) (t : Tool) : forall reg,
  registry_keys (Map_set nm t reg)
  = if mem nm (registry_keys reg) then registry_keys reg
    else (registry_keys reg ++ [nm])%list.
Proof.
  unfold registry_keys, mem. induction reg as [|[k0 t0] reg IH]; simpl; [reflexivity|].
  destruct (String.eqb_spec nm k0) as [<-|Hk]; simpl; [reflexivity|].
  rewrite IH. now destruct (existsb (String.eqb nm) (map fst reg)).
Qed.

(** X6.  The registry is a map with insertion order: after
    [registerTool] the name gives the new tool and every other name what
    it gave before; after [deregisterTool] the name gives nothing and
    every other name what it gave before; [deregisterTool] answers
    whether the name was registered; and both keep the names distinct and
    the other names in their order (a name registered again keeps its
    place, a new one comes last). *)
Theorem registry_is_an_ordered_map (nm : string) (tool : Tool) (reg : registry) :
  (forall k, Map_get k (registerTool nm tool reg)
             = if String.eqb k nm then Some tool else Map_get k reg)
  /\ (forall k, Map_get k (fst (deregisterTool nm reg))
                = if String.eqb k nm then None else Map_get k reg)
  /\ snd (deregisterTool nm reg)
     = match Map_get nm reg with Some _ => true | None => false end
  /\ registry_keys (registerTool nm tool reg)
     = (if mem nm (registry_keys reg) then registry_keys reg
        else registry_keys reg ++ [nm])%list
  /\ registry_keys (fst (deregisterTool nm reg))
     = filter (fun k => negb (String.eqb nm k)) (registry_keys reg).
Proof.
  unfold registerTool, deregisterTool. repeat split.
  - intros k. apply Map_get_set.
  - intros k. destruct (Map_get nm reg) eqn:E; cbn [fst].
    + apply Map_get_delete.
    + destruct (String.eqb_spec k nm) as [->|]; [assumption | reflexivity].
  - now destruct (Map_get nm reg).
  - apply registry_keys_set.
  - destruct (Map_get nm reg) eqn:E; cbn [fst].
    + unfold registry_keys. induction reg as [|[k0 t0] tl IH]; [reflexivity|].
      clear. induction tl as [|[k1 t1] tl IH]; simpl.
      * now destruct (String.eqb nm k0).
      * simpl in IH. destruct (String.eqb nm k0); simpl in *;
          destruct (String.eqb nm k1); simpl; congruence.
    + unfold registry_keys. rewrite <- (delete_fresh nm reg E) at 1.
      clear. induction reg as [|[k0 t0] tl IH]; simpl; [reflexivity|].
      destruct (String.eqb nm k0); simpl; now rewrite IH.
Qed.

(** X7.  Registering a tool under a name that is not in use and
    deregistering that name again gives the registry back as it was, and
    [deregisterTool] answers [true]. *)
Theorem register_then_deregister (nm : string) (tool : Tool) (reg : registry) :
  Map_get nm reg = None ->
  deregisterTool nm (registerTool nm tool reg) = (reg, true).
Proof.
  intros H. unfold deregisterTool, registerTool.
  rewrite Map_get_set, String.eqb_refl, (Map_set_fresh _ _ _ H).
  rewrite filter_app, (delete_fresh _ _ H). simpl.
  now rewrite String.eqb_refl, List.app_nil_r.
Qed.

Lemma register_then_deregister_witness :
  deregisterTool "mail" (registerTool "mail" Samples.slackTool Samples.tools)
  = (Samples.tools, true).
Proof. exact (register_then_deregister "mail" Samples.slackTool Samples.tools eq_refl). Defined.

(** ** Finding the tool of a tag *)

Lemma hasMatchingTool_configured (tn : string) : forall ts,
  Forall (fun t => config_name t <> None) ts ->
  hasMatchingTool ts tn = Ok (existsb (config_matches tn) ts).
Proof.
  induction ts as [|t ts IH]; intros H; [reflexivity|].
  inversion H as [|? ? Ht Hts]; subst. simpl. unfold config_matches at 1.
  destruct (config_name t) as [n|]; [|congruence].
  destruct (String.eqb (Str.toLowerCase n) (Str.toLowerCase tn)); [reflexivity|].
  now apply IH.
Qed.

Lemma Map_get_In (k : string) (t : Tool) : forall reg : registry,
  Map_get k reg = Some t -> In t (Map_values reg).
Proof.
  induction reg as [|[k0 t0] reg IH]; simpl; [discriminate|].
  destruct (String.eqb k k0); [inversion 1; now left | auto].
Qed.

(** X8.  When every registered tool has a configured name, a tag whose
    token is the key of a tool whose configured name is that token up to
    case, and whose parameters lack no required one, executes exactly that
    tool, once, with the enhanced parameters; its result is stored under
    [token_action], its failure thrown to the handler of the tag. *)
Theorem tag_naming_a_registry_key_runs_its_tool
    (reg : registry) (toolParams : obj) (m : found) (params : value) (h : history)
    (tool : Tool) :
  Forall (fun t => config_name t <> None) (Map_values reg) ->
  Map_get (toolName m) reg = Some tool ->
  config_matches (toolName m) tool = true ->
  checkRequiredParameters (getActionInfo tool (actionName m)) params = Ok [] ->
  let enhanced := enhanceToolParameters tool (actionName m) params toolParams in
  let out := execute tool h (actionName m) enhanced in
  dispatch reg toolParams m params h
  = (match out with
     | Ok r => Ok (Executed (toolName m ++ "_" ++ actionName m) r)
     | Throw e => Throw e
     end,
     (h ++ [EvExecute (toolName m) (actionName m) enhanced out])%list).
Proof.
  intros Hc Hg Hm Hr. apply dispatch_execute; auto.
  rewrite (hasMatchingTool_configured _ _ Hc). f_equal.
  apply existsb_exists. exists tool. split; [|assumption].
  now apply Map_get_In with (toolName m).
Qed.

(** ** Enhancement *)

Lemma truthy_get_fill_default (key : string) (d : option value) (e : obj) :
  key <> "__proto__" ->
  truthy (get key (fill_default key d e)) = truthy (get key e) || truthy d.
Proof.
  intros Hkey. rewrite get_fill_default by assumption. rewrite String.eqb_refl. simpl.
  destruct (truthy (get key e)) eqn:E; simpl; [assumption|].
  destruct (truthy d) eqn:Ed; assumption.
Qed.

Lemma fill_default_fixed (key : string) (d : option value) (e : obj) :
  truthy (get key e) || negb (truthy d) = true -> fill_default key d e = e.
Proof.
  unfold fill_default. destruct d as [v|]; [|reflexivity].
  destruct (truthy (get key e)); cbn [negb andb orb]; [reflexivity|].
  now destruct (truthy (Some v)).
Qed.

Lemma truthy_Some (v : option value) : truthy v = true -> exists x, v = Some x.
Proof. destruct v as [x|]; [eauto | discriminate]. Qed.

Lemma fold_ambient_fixed : forall (tp e : obj),
  (forall k, In k (keys tp) -> is_undefined k e = false) ->
  fold_left fill_ambient tp e = e.
Proof.
  induction tp as [|[k v] tp IH]; intros e H; simpl; [reflexivity|].
  unfold fill_ambient at 2. cbn [fst snd].
  rewrite (H k (or_introl eq_refl)).
  apply IH. intros k' Hk'. apply H. now right.
Qed.

Lemma get_In_keys (k : string) : forall o : obj, In k (keys o) -> get k o <> None.
Proof.
  induction o as [|[k0 v0] o IH]; simpl; [tauto|].
  intros [->|H]; [now rewrite String.eqb_refl|].
  destruct (String.eqb k k0); [discriminate | auto].
Qed.

(** X9.  Enhancing a parameter object a second time, for the same tool
    and the same ambient parameters, changes nothing. *)
Theorem enhancement_is_idempotent (tool : Tool) (an : string) (o toolParams : obj) :
  let e := enhanceToolParameters tool an (VObj o) toolParams in
  enhanceToolParameters tool an (VObj e) toolParams = e.
Proof.
  cbv zeta. unfold enhanceToolParameters. cbn [spread].
  set (own := if String.eqb (constructor_name tool) "GitHubTool"
              then fill_default "repo" (repoName tool)
                     (fill_default "owner" (repoOwner tool) o)
              else o).
  set (e := fold_left fill_ambient toolParams own).
  assert (Hamb : forall k, In k (keys toolParams) -> is_undefined k e = false).
  { intros k Hk. unfold is_undefined, e. rewrite get_fold_ambient.
    destruct (get k own); [reflexivity|].
    destruct (listed k Object_prototype); [reflexivity|].
    pose proof (get_In_keys k toolParams Hk).
    now destruct (get k toolParams). }
  destruct (String.eqb (constructor_name tool) "GitHubTool") eqn:Ec.
  - assert (Ho : truthy (get "owner" e) || negb (truthy (repoOwner tool)) = true).
    { destruct (truthy (repoOwner tool)) eqn:Ed; [|apply orb_true_r].
      rewrite orb_false_r.
      assert (H1 : truthy (get "owner" own) = true).
      { unfold own. rewrite get_fill_default by discriminate.
        cbn [String.eqb Ascii.eqb Bool.eqb andb].
        rewrite truthy_get_fill_default by discriminate. rewrite Ed. apply orb_true_r. }
      unfold e. rewrite get_fold_ambient.
      destruct (truthy_Some _ H1) as [x Hx]. now rewrite Hx in *. }
    assert (Hr : truthy (get "repo" e) || negb (truthy (repoName tool)) = true).
    { destruct (truthy (repoName tool)) eqn:Ed; [|apply orb_true_r].
      rewrite orb_false_r.
      assert (H1 : truthy (get "repo" own) = true).
      { unfold own. rewrite truthy_get_fill_default by discriminate.
        rewrite Ed. apply orb_true_r. }
      unfold e. rewrite get_fold_ambient.
      destruct (truthy_Some _ H1) as [x Hx]. now rewrite Hx in *. }
    rewrite (fill_default_fixed "owner" _ _ Ho), (fill_default_fixed "repo" _ _ Hr).
    now apply fold_ambient_fixed.
  - now apply fold_ambient_fixed.
Qed.

(** ** The direct paths of the two agents *)

(** X10.  [GitHubAgent.processQuery]: either neither pull-request pattern
    occurs in the query and the query is processed as by [BaseAgent], or
    the agent answers itself without calling the completion service: with
    the fixed text when no GitHub tool is registered, and otherwise after
    exactly one call, [summarizePR] or [reviewCode], of the tool that
    [find] gives, for the repository of the agent. *)
Theorem github_direct_path_calls
    (JSON_parse : string -> option value)
    (parseInt : string -> value) (Number_toString : value -> string)
    (summary_report review_report : value -> value -> result string)
    (context_report : value -> value -> value -> string)
    (prompt : GitHubAgent.agent -> string -> string -> string)
    (a : GitHubAgent.agent) (query : string) (toolParams : obj) (h : history) :
  (search true GitHubAgent.prSummaryPattern query = None
   /\ search true GitHubAgent.codeReviewPattern query = None
   /\ GitHubAgent.processQuery JSON_parse parseInt Number_toString summary_report
        review_report context_report prompt a query toolParams h
      = BaseAgent.processQuery JSON_parse
          (GitHubAgent.generateCompletion context_report prompt a)
          (GitHubAgent.tools a) query toolParams h)
  \/ exists r ev,
       GitHubAgent.processQuery JSON_parse parseInt Number_toString summary_report
         review_report context_report prompt a query toolParams h
       = Some (Ok r, (h ++ ev)%list)
       /\ ((ev = [] /\ GitHubAgent.findGithubTool (GitHubAgent.tools a) = None
            /\ r = GitHubAgent.no_github_tool)
           \/ exists key tool action n,
                GitHubAgent.findGithubTool (GitHubAgent.tools a) = Some (key, tool)
                /\ (action = "summarizePR" \/ action = "reviewCode")
                /\ ev = [EvExecute key action (GitHubAgent.pr_params a n)
                           (execute tool h action (GitHubAgent.pr_params a n))]).
Proof.
  unfold GitHubAgent.processQuery, GitHubAgent.processGitHubPatterns.
  destruct (search true GitHubAgent.prSummaryPattern query) as [m|].
  - right. destruct (GitHubAgent.findGithubTool (GitHubAgent.tools a)) as [[key tool]|].
    + cbv zeta.
      destruct (execute tool h "summarizePR" _) as [summary|msg] eqn:E;
        [destruct (summary_report _ summary)|];
        eexists _, _; (split; [reflexivity|]); right;
        exists key, tool, "summarizePR", (parseInt (GitHubAgent.prDigits m));
        rewrite E; auto.
    + exists GitHubAgent.no_github_tool, []. rewrite List.app_nil_r. auto.
  - destruct (search true GitHubAgent.codeReviewPattern query) as [m|]; [|now left].
    right. destruct (GitHubAgent.findGithubTool (GitHubAgent.tools a)) as [[key tool]|].
    + cbv zeta.
      destruct (execute tool h "reviewCode" _) as [review|msg] eqn:E;
        [destruct (review_report _ review)|];
        eexists _, _; (split; [reflexivity|]); right;
        exists key, tool, "reviewCode", (parseInt (GitHubAgent.prDigits m));
        rewrite E; auto.
    + exists GitHubAgent.no_github_tool, []. rewrite List.app_nil_r. auto.
Qed.

(** X11.  A Slack agent without client (no token configured) never calls
    Slack on its direct path: the history is unchanged, and a query that
    one of the three patterns recognises is answered with the text saying
    that the client is not initialized, with no tool result. *)
Theorem slack_without_client_calls_nothing
    (channel_report : value -> value -> result Outcome)
    (a : SlackAgent.agent) (query : string) (h : history) :
  SlackAgent.client a = None ->
  snd (SlackAgent.processSlackQuery channel_report a query h) = h
  /\ (fst (SlackAgent.processSlackQuery channel_report a query h) = None
      \/ exists what,
           (what = "send message" \/ what = "get channel info" \/ what = "create channel")
           /\ fst (SlackAgent.processSlackQuery channel_report a query h)
              = Some {| response := "Cannot " ++ what ++ ": Slack client not initialized";
                        toolResults := [] |}).
Proof.
  intros Hc. unfold SlackAgent.processSlackQuery. rewrite Hc.
  destruct (search true SlackAgent.sendMessagePattern query).
  { split; [reflexivity|]. right. exists "send message". auto. }
  destruct (SlackAgent.match1 SlackAgent.getChannelInfoPattern query).
  { split; [reflexivity|]. right. exists "get channel info". auto. }
  destruct (SlackAgent.match1 SlackAgent.createChannelPattern query).
  { split; [reflexivity|]. right. exists "create channel". auto. }
  auto.
Qed.

(** ** Channel names *)

Lemma channel_char_dashed (c : ascii) :
  channel_char (if Str.is_lower c || digit c || Ascii.eqb c "_" || Ascii.eqb c "-"
                then c else "-"%char) = true.
Proof.
  unfold channel_char.
  destruct (Str.is_lower c || digit c || Ascii.eqb c "_" || Ascii.eqb c "-") eqn:E;
    [assumption | reflexivity].
Qed.

Lemma all_dashed (s : string) : Str.all channel_char (SlackAgent.dashed s) = true.
Proof.
  induction s as [|c s IH]; [reflexivity|].
  cbn [SlackAgent.dashed Str.all]. now rewrite channel_char_dashed, IH.
Qed.

Lemma all_substring (p : ascii -> bool) : forall n s,
  Str.all p s = true -> Str.all p (substring 0 n s) = true.
Proof.
  induction n as [|n IH]; intros [|c s]; simpl; auto.
  intros H. apply andb_true_iff in H as [-> H]. simpl. now apply IH.
Qed.

Lemma length_substring : forall n s, String.length (substring 0 n s) <= n.
Proof.
  induction n as [|n IH]; intros [|c s]; simpl; try lia.
  specialize (IH s). lia.
Qed.

Lemma substring_short : forall n s, String.length s <= n -> substring 0 n s = s.
Proof.
  induction n as [|n IH]; intros [|c s]; simpl; intros H; try reflexivity; try lia.
  rewrite IH; [reflexivity | lia].
Qed.

Lemma channel_char_lower (c : ascii) : channel_char c = true -> Str.lower_char c = c.
Proof.
  destruct c as [[] [] [] [] [] [] [] []]; vm_compute; intros H;
    first [reflexivity | discriminate].
Qed.

Lemma dashed_valid : forall s,
  Str.all channel_char s = true -> SlackAgent.dashed (Str.toLowerCase s) = s.
Proof.
  induction s as [|c s IH]; [reflexivity|].
  cbn [Str.all Str.toLowerCase SlackAgent.dashed]. intros H.
  apply andb_true_iff in H as [Hc H]. rewrite (channel_char_lower _ Hc), (IH H).
  unfold channel_char in Hc. now rewrite Hc.
Qed.

(** X12.  The channel name [createChannel] sends to Slack has at most 79
    characters, all of them lower-case letters, digits, [_] or [-]; a name
    that is already of that form is sent as it is, so formatting a
    formatted name changes nothing. *)
Theorem formatted_channel_name (nm : string) :
  String.length (SlackAgent.formattedName nm) <= 79
  /\ Str.all channel_char (SlackAgent.formattedName nm) = true
  /\ (String.length nm <= 79 -> Str.all channel_char nm = true ->
      SlackAgent.formattedName nm = nm)
  /\ SlackAgent.formattedName (SlackAgent.formattedName nm) = SlackAgent.formattedName nm.
Proof.
  assert (H1 : String.length (SlackAgent.formattedName nm) <= 79)
    by apply length_substring.
  assert (H2 : Str.all channel_char (SlackAgent.formattedName nm) = true)
    by (apply all_substring, all_dashed).
  assert (H3 : forall s, String.length s <= 79 -> Str.all channel_char s = true ->
                         SlackAgent.formattedName s = s).
  { intros s Hl Ha. unfold SlackAgent.formattedName, Str.take.
    rewrite (dashed_valid _ Ha). now apply substring_short. }
  repeat split; auto.
Qed.

(** ** The phrasings of the pull-request patterns *)

Lemma plusG_stops {R} p (k : string -> option R) tail x : forall u,
  u <> "" -> all p u = true -> stops p tail = true -> k tail = Some x ->
  plusG p (u ++ tail) k = Some x.
Proof.
  induction u as [|a u IH]; intros Hne Hall Hc Hk; [congruence|].
  simpl in *. apply andb_prop in Hall as [Ha Hall]. rewrite Ha.
  destruct u as [|b u].
  - simpl. destruct tail as [|c tail]; simpl in *; [assumption|].
    apply negb_true_iff in Hc. now rewrite Hc.
  - rewrite IH; auto. discriminate.
Qed.

Lemma digit_not_hash (d : ascii) :
  digit d = true -> Ascii.eqb (canon true "#") (canon true d) = false.
Proof.
  destruct d as [[] [] [] [] [] [] [] []]; vm_compute; intros H;
    first [reflexivity | discriminate].
Qed.

(** [#?(\d+)] on a number, with or without the hash. *)
Lemma number_part (hash ds tail : string) (cs : captures) :
  hash = "" \/ hash = "#" ->
  ds <> "" -> all digit ds = true -> stops digit tail = true ->
  rmatch true (Opt (Lit "#") ;; Grp 1 (PlusG digit)) (hash ++ ds ++ tail) cs
    (fun s' cs' => Some (s', cs'))
  = Some (tail, (1, ds) :: cs).
Proof.
  intros Hh Hne Hall Hst.
  assert (G : rmatch true (Grp 1 (PlusG digit)) (ds ++ tail) cs
                (fun s' cs' => Some (s', cs')) = Some (tail, (1, ds) :: cs)).
  { rewrite rmatch_grp_plusG. apply plusG_stops; auto. now rewrite consumed_app. }
  rewrite rmatch_seq. destruct Hh as [->| ->].
  - cbn [append]. destruct ds as [|d ds]; [congruence|].
    cbn [all] in Hall. apply andb_prop in Hall as [Hd Hall].
    cbn [rmatch lit append]. rewrite (digit_not_hash _ Hd).
    exact G.
  - change (rmatch true (Opt (Lit "#")) ("#" ++ ds ++ tail) cs
              (fun s' cs' => rmatch true (Grp 1 (PlusG digit)) s' cs'
                               (fun s'0 cs'0 => Some (s'0, cs'0))))
      with (match rmatch true (Grp 1 (PlusG digit)) (ds ++ tail) cs
                    (fun s' cs' => Some (s', cs')) with
            | Some x => Some x
            | None => rmatch true (Grp 1 (PlusG digit)) ("#" ++ ds ++ tail) cs
                        (fun s' cs' => Some (s', cs'))
            end).
    now rewrite G.
Qed.

Lemma summary_phrase (verb noun rest0 : string) (K : cont) :
  In verb summary_verbs -> In noun summary_nouns ->
  rmatch true
    (alts (Lit "summarize") [Lit "summarise"; Lit "show"; Lit "explain"; Lit "tell me about"] ;;
     Lit " " ;; alts (Lit "pull request") [Lit "PR"] ;; Lit " ")
    (verb ++ " " ++ noun ++ " " ++ rest0) [] K
  = K rest0 [].
Proof.
  unfold summary_verbs, summary_nouns. cbn [In].
  intros Hv Hn.
  repeat match goal with H : _ \/ _ |- _ => destruct H as [H|H] end;
    try contradiction; subst; vm_compute; now destruct (K rest0 []).
Qed.

Lemma review_phrase (verb noun rest0 : string) (K : cont) :
  In verb review_verbs -> In noun review_nouns ->
  rmatch true
    (alts (Lit "review") [Lit "analyze"; Lit "analyse"] ;; Lit " " ;;
     alts (Lit "code") [Lit "changes"; Lit "pull request"; Lit "PR"] ;; Lit " ")
    (verb ++ " " ++ noun ++ " " ++ rest0) [] K
  = K rest0 [].
Proof.
  unfold review_verbs, review_nouns. cbn [In].
  intros Hv Hn.
  repeat match goal with H : _ \/ _ |- _ => destruct H as [H|H] end;
    try contradiction; subst; vm_compute; now destruct (K rest0 []).
Qed.

Lemma digit_val_stop (c : ascii) : digit c = false -> Str.digit_val c = None.
Proof. unfold digit, Str.digit_val. cbv zeta. now intros ->. Qed.

Lemma parse_digits_stop (acc : N) (tail : string) :
  stops digit tail = true -> Str.parse_digits acc tail = acc.
Proof.
  destruct tail as [|c tail]; [reflexivity|]. simpl. intros H.
  apply negb_true_iff in H. now rewrite (digit_val_stop _ H).
Qed.

Lemma parse_digits_cons (acc : N) (c : ascii) (s : string) :
  Str.parse_digits acc (String c s)
  = match Str.digit_val c with
    | Some d => Str.parse_digits (10 * acc + d)%N s
    | None => acc
    end.
Proof. reflexivity. Qed.

Lemma parse_string_of_uint (tail : string) :
  stops digit tail = true ->
  forall d acc,
    Str.parse_digits acc (NilEmpty.string_of_uint d ++ tail) = uint_value d acc.
Proof.
  intros Hst. induction d as [|d IH|d IH|d IH|d IH|d IH|d IH|d IH|d IH|d IH|d IH];
    intros acc; cbn [NilEmpty.string_of_uint append uint_value];
    [now apply parse_digits_stop | ..];
    rewrite parse_digits_cons;
    set (v := Str.digit_val _); vm_compute in v; subst v; cbv beta iota;
    rewrite IH; f_equal; lia.
Qed.

Lemma uint_value_pos : forall d acc,
  uint_value d (N.pos acc) = N.pos (Pos.of_uint_acc d acc).
Proof.
  induction d as [|d IH|d IH|d IH|d IH|d IH|d IH|d IH|d IH|d IH|d IH];
    intros acc; cbn [uint_value Pos.of_uint_acc]; [reflexivity | ..];
    rewrite <- IH; f_equal; lia.
Qed.

Lemma uint_value_zero : forall d, uint_value d 0 = N.of_uint d.
Proof.
  unfold N.of_uint.
  induction d as [|d IH|d IH|d IH|d IH|d IH|d IH|d IH|d IH|d IH|d IH];
    cbn [uint_value Pos.of_uint]; [reflexivity | exact IH | ..];
    rewrite <- uint_value_pos; f_equal.
Qed.

Lemma parse_digits_of_N (n : N) (tail : string) :
  stops digit tail = true -> Str.parse_digits 0 (Str.of_N n ++ tail) = n.
Proof.
  intros Hst. unfold Str.of_N, NilZero.string_of_uint.
  rewrite <- (DecimalN.Unsigned.of_to n) at 2.
  destruct (N.to_uint n) eqn:E;
    try (rewrite (parse_string_of_uint _ Hst); apply uint_value_zero).
  cbn [append]. simpl. now apply parse_digits_stop.
Qed.

Lemma phrased_assoc (verb noun hash : string) (n : N) (tail : string) :
  phrased verb noun hash n tail
  = (verb ++ " " ++ noun ++ " " ++ hash ++ Str.of_N n) ++ tail.
Proof. unfold phrased. now rewrite !app_assoc. Qed.

(** The conversion that runs the examples reads a numeral as the number
    it denotes. *)
Lemma parseInt_of_N (n : N) : Samples.parseInt (Str.of_N n) = VNum (Z.of_N n).
Proof.
  unfold Samples.parseInt. rewrite <- (app_nil_r (Str.of_N n)).
  now rewrite parse_digits_of_N.
Qed.

Lemma summary_phrasing_found (verb noun hash : string) (n : N) (tail : string) :
  In verb summary_verbs -> In noun summary_nouns -> hash = "" \/ hash = "#" ->
  stops digit tail = true ->
  search true GitHubAgent.prSummaryPattern (phrased verb noun hash n tail)
  = Some {| before := "";
            matched := verb ++ " " ++ noun ++ " " ++ hash ++ Str.of_N n;
            caps := [(1, Str.of_N n)];
            rest := tail |}.
Proof.
  intros Hv Hn Hh Hst. destruct (of_N_digits n) as [Hne Hall].
  assert (E : match_at true GitHubAgent.prSummaryPattern (phrased verb noun hash n tail)
              = Some (tail, [(1, Str.of_N n)])).
  { unfold match_at, GitHubAgent.prSummaryPattern, phrased.
    change (rmatch true
              (alts (Lit "summarize")
                 [Lit "summarise"; Lit "show"; Lit "explain"; Lit "tell me about"] ;;
               Lit " " ;; alts (Lit "pull request") [Lit "PR"] ;; Lit " ")
              (verb ++ " " ++ noun ++ " " ++ hash ++ Str.of_N n ++ tail) []
              (fun s' cs' =>
                 rmatch true (Opt (Lit "#") ;; Grp 1 (PlusG digit)) s' cs'
                   (fun s cs => Some (s, cs)))
            = Some (tail, [(1, Str.of_N n)])).
    rewrite (summary_phrase _ _ _ _ Hv Hn). now apply number_part. }
  rewrite (search_here _ _ _ _ _ E). now rewrite phrased_assoc, consumed_app.
Qed.

Lemma review_phrasing_found (verb noun hash : string) (n : N) (tail : string) :
  In verb review_verbs -> In noun review_nouns -> hash = "" \/ hash = "#" ->
  stops digit tail = true ->
  search true GitHubAgent.codeReviewPattern (phrased verb noun hash n tail)
  = Some {| before := "";
            matched := verb ++ " " ++ noun ++ " " ++ hash ++ Str.of_N n;
            caps := [(1, Str.of_N n)];
            rest := tail |}.
Proof.
  intros Hv Hn Hh Hst. destruct (of_N_digits n) as [Hne Hall].
  assert (E : match_at true GitHubAgent.codeReviewPattern (phrased verb noun hash n tail)
              = Some (tail, [(1, Str.of_N n)])).
  { unfold match_at, GitHubAgent.codeReviewPattern, phrased.
    change (rmatch true
              (alts (Lit "review") [Lit "analyze"; Lit "analyse"] ;; Lit " " ;;
               alts (Lit "code") [Lit "changes"; Lit "pull request"; Lit "PR"] ;; Lit " ")
              (verb ++ " " ++ noun ++ " " ++ hash ++ Str.of_N n ++ tail) []
              (fun s' cs' =>
                 rmatch true (Opt (Lit "#") ;; Grp 1 (PlusG digit)) s' cs'
                   (fun s cs => Some (s, cs)))
            = Some (tail, [(1, Str.of_N n)])).
    rewrite (review_phrase _ _ _ _ Hv Hn). now apply number_part. }
  rewrite (search_here _ _ _ _ _ E). now rewrite phrased_assoc, consumed_app.
Qed.

(** X13.  A query that starts with one of the summary phrasings (one of
    the five verbs, [pull request] or [PR], the number of the pull request
    in decimal, with or without [#], not followed by a digit) is
    recognised by the summary pattern with the digits of that number,
    whatever follows.  For a number below 2^53, which [parseInt] reads as
    it is written, and with a GitHub tool registered, the agent then
    calls [summarizePR] once, for that number and its own repository. *)
Theorem summary_phrasing_calls_summarizePR
    (parseInt : string -> value) (Number_toString : value -> string)
    (summary_report review_report : value -> value -> result string)
    (a : GitHubAgent.agent) (key : string) (tool : Tool)
    (verb noun hash : string) (n : N) (tail : string) (h : history) :
  In verb summary_verbs -> In noun summary_nouns -> hash = "" \/ hash = "#" ->
  stops digit tail = true ->
  (n < 2 ^ 53)%N -> parseInt (Str.of_N n) = VNum (Z.of_N n) ->
  GitHubAgent.findGithubTool (GitHubAgent.tools a) = Some (key, tool) ->
  let query := phrased verb noun hash n tail in
  let params := GitHubAgent.pr_params a (VNum (Z.of_N n)) in
  option_map GitHubAgent.prDigits (search true GitHubAgent.prSummaryPattern query)
  = Some (Str.of_N n)
  /\ snd (GitHubAgent.processGitHubPatterns parseInt Number_toString summary_report
            review_report a query h)
     = (h ++ [EvExecute key "summarizePR" params (execute tool h "summarizePR" params)])%list.
Proof.
  intros Hv Hn Hh Hst _ Hexact Hf. cbv zeta.
  unfold GitHubAgent.processGitHubPatterns.
  rewrite (summary_phrasing_found _ _ _ n _ Hv Hn Hh Hst), Hf.
  cbv zeta. unfold GitHubAgent.prDigits. cbn [option_map caps capture Nat.eqb].
  rewrite Hexact. split; [reflexivity|].
  destruct (execute tool h "summarizePR" (GitHubAgent.pr_params a (VNum (Z.of_N n))))
    as [s|e]; [destruct (summary_report _ s)|]; reflexivity.
Qed.

Lemma summary_phrasing_witness :
  option_map GitHubAgent.prDigits
    (search true GitHubAgent.prSummaryPattern "tell me about PR #42, please") = Some "42"
  /\ snd (GitHubAgent.processGitHubPatterns Samples.parseInt Samples.Number_toString
            Samples.no_report Samples.no_report
            (Samples.githubAgent Samples.githubTool) "tell me about PR #42, please" [])
     = [EvExecute "github" "summarizePR"
          (GitHubAgent.pr_params (Samples.githubAgent Samples.githubTool) (VNum 42))
          (execute Samples.githubTool [] "summarizePR"
             (GitHubAgent.pr_params (Samples.githubAgent Samples.githubTool) (VNum 42)))].
Proof.
  exact (summary_phrasing_calls_summarizePR Samples.parseInt Samples.Number_toString
           Samples.no_report Samples.no_report
           (Samples.githubAgent Samples.githubTool) "github" Samples.githubTool
           "tell me about" "PR" "#" 42 ", please" []
           ltac:(vm_compute; tauto) ltac:(vm_compute; tauto) ltac:(now right)
           eq_refl ltac:(vm_compute; reflexivity) ltac:(vm_compute; reflexivity) eq_refl).
Defined.

(** X14.  A query that starts with one of the review phrasings (one of
    the three verbs, [code], [changes], [pull request] or [PR], the
    number) and in which no summary phrasing occurs (the summary pattern
    is tried first) is recognised by the review pattern with the digits
    of that number.  For a number below 2^53, which [parseInt] reads as it
    is written, and with a GitHub tool registered, the agent then calls
    [reviewCode] once, for that number and its own repository. *)
Theorem review_phrasing_calls_reviewCode
    (parseInt : string -> value) (Number_toString : value -> string)
    (summary_report review_report : value -> value -> result string)
    (a : GitHubAgent.agent) (key : string) (tool : Tool)
    (verb noun hash : string) (n : N) (tail : string) (h : history) :
  In verb review_verbs -> In noun review_nouns -> hash = "" \/ hash = "#" ->
  stops digit tail = true ->
  (n < 2 ^ 53)%N -> parseInt (Str.of_N n) = VNum (Z.of_N n) ->
  search true GitHubAgent.prSummaryPattern (phrased verb noun hash n tail) = None ->
  GitHubAgent.findGithubTool (GitHubAgent.tools a) = Some (key, tool) ->
  let query := phrased verb noun hash n tail in
  let params := GitHubAgent.pr_params a (VNum (Z.of_N n)) in
  option_map GitHubAgent.prDigits (search true GitHubAgent.codeReviewPattern query)
  = Some (Str.of_N n)
  /\ snd (GitHubAgent.processGitHubPatterns parseInt Number_toString summary_report
            review_report a query h)
     = (h ++ [EvExecute key "reviewCode" params (execute tool h "reviewCode" params)])%list.
Proof.
  intros Hv Hn Hh Hst _ Hexact Hs Hf. cbv zeta.
  unfold GitHubAgent.processGitHubPatterns.
  rewrite Hs, (review_phrasing_found _ _ _ n _ Hv Hn Hh Hst), Hf.
  cbv zeta. unfold GitHubAgent.prDigits. cbn [option_map caps capture Nat.eqb].
  rewrite Hexact. split; [reflexivity|].
  destruct (execute tool h "reviewCode" (GitHubAgent.pr_params a (VNum (Z.of_N n))))
    as [s|e]; [destruct (review_report _ s)|]; reflexivity.
Qed.

Lemma review_phrasing_witness :
  option_map GitHubAgent.prDigits
    (search true GitHubAgent.codeReviewPattern "analyse changes 7") = Some "7"
  /\ snd (GitHubAgent.processGitHubPatterns Samples.parseInt Samples.Number_toString
            Samples.no_report Samples.no_report
            (Samples.githubAgent Samples.githubTool) "analyse changes 7" [])
     = [EvExecute "github" "reviewCode"
          (GitHubAgent.pr_params (Samples.githubAgent Samples.githubTool) (VNum 7))
          (execute Samples.githubTool [] "reviewCode"
             (GitHubAgent.pr_params (Samples.githubAgent Samples.githubTool) (VNum 7)))].
Proof.
  exact (review_phrasing_calls_reviewCode Samples.parseInt Samples.Number_toString
           Samples.no_report Samples.no_report
           (Samples.githubAgent Samples.githubTool) "github" Samples.githubTool
           "analyse" "changes" "" 7 "" []
           ltac:(vm_compute; tauto) ltac:(vm_compute; tauto) ltac:(now left)
           eq_refl ltac:(vm_compute; reflexivity) ltac:(vm_compute; reflexivity)
           ltac:(vm_compute; reflexivity) eq_refl).
Defined.

(** ** Instances *)

Lemma extracted_tags_witness : Forall tag_shape Samples.tags_repeated.
Proof.
  exact (extracted_tags_are_serializations Samples.text_repeated Samples.tags_repeated
           ltac:(vm_compute; reflexivity)).
Defined.

Lemma text_without_tag_witness :
  processToolActions JS.parse Samples.tools "[TOOL ACTION:github:info:{}] done" [] []
  = Some ({| response := "[TOOL ACTION:github:info:{}] done"; toolResults := [] |}, []).
Proof.
  exact (text_without_tag_is_unchanged JS.parse Samples.tools []
           "[TOOL ACTION:github:info:{}] done" [] ltac:(vm_compute; reflexivity)).
Defined.

Lemma tag_naming_a_registry_key_witness :
  let params := VObj [("number", VNum 1)] in
  let enhanced := enhanceToolParameters Samples.githubTool "getPR" params [] in
  let out := execute Samples.githubTool [] "getPR" enhanced in
  dispatch Samples.tools [] MoreSamples.getPR_tag params []
  = (match out with
     | Ok r => Ok (Executed "github_getPR" r)
     | Throw e => Throw e
     end,
     [EvExecute "github" "getPR" enhanced out]).
Proof.
  exact (tag_naming_a_registry_key_runs_its_tool Samples.tools [] MoreSamples.getPR_tag
           (VObj [("number", VNum 1)]) [] Samples.githubTool
           ltac:(repeat constructor; discriminate) eq_refl eq_refl eq_refl).
Defined.

Lemma slack_without_client_witness :
  snd (SlackAgent.processSlackQuery Samples.no_channel_report MoreSamples.offlineSlackAgent
         "create a new channel called #Release" []) = []
  /\ (fst (SlackAgent.processSlackQuery Samples.no_channel_report
             MoreSamples.offlineSlackAgent "create a new channel called #Release" []) = None
      \/ exists what,
           (what = "send message" \/ what = "get channel info" \/ what = "create channel")
           /\ fst (SlackAgent.processSlackQuery Samples.no_channel_report
                     MoreSamples.offlineSlackAgent "create a new channel called #Release" [])
              = Some {| response := "Cannot " ++ what ++ ": Slack client not initialized";
                        toolResults := [] |}).
Proof.
  exact (slack_without_client_calls_nothing Samples.no_channel_report
           MoreSamples.offlineSlackAgent "create a new channel called #Release" [] eq_refl).
Defined.

(** ** GitHubTool *)

Lemma switch_catalog :
  Forall (fun a => GitHubTool.switch (name a) <> None) GitHubTool.getAvailableActions.
Proof. repeat constructor; discriminate. Qed.

Lemma find_name_In (an : string) : forall (l : list Action) a,
  find (fun a => String.eqb (name a) an) l = Some a -> In a l /\ name a = an.
Proof.
  intros l a H. apply find_some in H as [H1 H2]. apply String.eqb_eq in H2. auto.
Qed.

(** X15.  With the catalog as the tool's action list and a repository
    configured, [execute] either refuses the action as not found (it is
    not in the catalog), or validates it and runs the method the [switch]
    gives: the [not implemented] branch is never taken, and an action
    that the [switch] handles but the catalog does not list, such as
    [listRepositories], is refused. *)
Theorem github_execute_follows_the_catalog
    (others : GitHubTool.method_name -> GitHubTool.tool -> obj -> GitHubTool.log
              -> result value * GitHubTool.log)
    (t : GitHubTool.tool) (action : string) (params : obj) (l : GitHubTool.log) :
  GitHubTool.actions t = GitHubTool.getAvailableActions ->
  truthy (GitHubTool.repoOwner t) = true -> truthy (GitHubTool.repoName t) = true ->
  (~ In action (map name GitHubTool.getAvailableActions)
   /\ GitHubTool.execute others t action params l
      = (Throw ("Action '" ++ action ++ "' not found for GitHub tool"), l))
  \/ (exists actionObj m,
        In actionObj GitHubTool.getAvailableActions /\ name actionObj = action
        /\ GitHubTool.switch action = Some m
        /\ GitHubTool.execute others t action params l
           = match GitHubTool.validateParams t action params (parameters actionObj) with
             | Throw message => (Throw message, l)
             | Ok _ => GitHubTool.run others m t params l
             end).
Proof.
  intros Ha Ho Hr. unfold GitHubTool.execute. rewrite Ho, Hr, Ha. cbn [negb orb].
  destruct (find (fun a => String.eqb (name a) action) GitHubTool.getAvailableActions)
    as [actionObj|] eqn:E.
  - right. destruct (find_name_In _ _ _ E) as [Hin Hn].
    pose proof (proj1 (Forall_forall _ _) switch_catalog _ Hin) as Hs.
    cbv beta in Hs. rewrite Hn in Hs. destruct (GitHubTool.switch action) as [m|]; [|congruence].
    exists actionObj, m. auto.
  - left. split; [|reflexivity]. intros Hin. apply in_map_iff in Hin as (a & Hn & Hin).
    apply (find_none _ _ E) in Hin. apply String.eqb_neq in Hin. congruence.
Qed.

Lemma github_execute_witness :
  GitHubTool.execute (fun _ _ _ l => (Ok VNull, l)) MoreSamples.dockTool
    "listRepositories" [] []
  = (Throw "Action 'listRepositories' not found for GitHub tool", []).
Proof.
  destruct (github_execute_follows_the_catalog (fun _ _ _ l => (Ok VNull, l))
              MoreSamples.dockTool "listRepositories" [] [] eq_refl eq_refl eq_refl)
    as [[_ H]|H].
  - exact H.
  - exfalso. destruct H as (a & m & Hin & Hn & _).
    cbn in Hin. intuition (subst; discriminate).
Defined.

Lemma missing_required_none (params : value) : forall ps,
  required_names ps = [] -> missing_required ps params = Ok [].
Proof.
  unfold required_names.
  induction ps as [|[nm info] ps IH]; [reflexivity|].
  cbn [filter map fst snd missing_required].
  destruct (required info); [discriminate | exact IH].
Qed.

Lemma indexed_not_required (n : nat) : required_names (GitHubTool.indexed n) = [].
Proof.
  unfold GitHubTool.indexed, required_names.
  induction (seq 0 n) as [|i l IH]; [reflexivity | exact IH].
Qed.

(** X16.  The catalog gives the parameters of [mergePullRequest] and
    [declinePullRequest] as an array, so the agent's validation finds no
    required parameter and lets every parameter value pass; the two
    methods read the number of the pull request under [number] (the
    catalog calls it [pullNumber]), and without it they throw before any
    call of the API. *)
Theorem merge_and_decline_are_not_validated (tool : Tool) (action : string) :
  Tools.getAvailableActions tool = Some GitHubTool.getAvailableActions ->
  action = "mergePullRequest" \/ action = "declinePullRequest" ->
  (forall params, checkRequiredParameters (getActionInfo tool action) params = Ok [])
  /\ (forall others m t params l,
        GitHubTool.switch action = Some m ->
        truthy (GitHubTool.or_default (get "owner" params) (GitHubTool.repoOwner t)) = true ->
        truthy (GitHubTool.or_default (get "repo" params) (GitHubTool.repoName t)) = true ->
        truthy (get "number" params) = false ->
        GitHubTool.run others m t params l
        = (Throw "Pull request number is required", l)).
Proof.
  intros Hc Ha. split.
  - intros params. unfold getActionInfo. rewrite Hc.
    destruct Ha as [-> | ->]; cbn [find GitHubTool.getAvailableActions name String.eqb
                                   Ascii.eqb Bool.eqb];
      unfold checkRequiredParameters; cbn [parameters];
      apply missing_required_none, indexed_not_required.
  - intros others m t params l Hs Ho Hr Hn.
    destruct Ha as [-> | ->]; vm_compute in Hs; inversion Hs; subst m;
      cbn [GitHubTool.run];
      unfold GitHubTool.mergePullRequest, GitHubTool.declinePullRequest;
      cbv zeta; now rewrite Ho, Hr, Hn.
Qed.

Lemma merge_and_decline_witness :
  (forall params,
     checkRequiredParameters
       (getActionInfo (GitHubTool.as_Tool (fun _ _ _ l => (Ok VNull, l)) "github"
                         (Some "github") MoreSamples.dockTool) "mergePullRequest") params
     = Ok [])
  /\ GitHubTool.mergePullRequest MoreSamples.dockTool [("pullNumber", VNum 7)] []
     = (Throw "Pull request number is required", []).
Proof.
  destruct (merge_and_decline_are_not_validated
              (GitHubTool.as_Tool (fun _ _ _ l => (Ok VNull, l)) "github" (Some "github")
                 MoreSamples.dockTool)
              "mergePullRequest" eq_refl (or_introl eq_refl)) as [H1 H2].
  split; [exact H1|].
  exact (H2 (fun _ _ _ l => (Ok VNull, l)) GitHubTool.MergePullRequest MoreSamples.dockTool
            [("pullNumber", VNum 7)] [] eq_refl eq_refl eq_refl eq_refl).
Defined.

(** X17.  [mergePullRequest] calls the API at most twice: it merges only
    after it has read the pull request, and only when what it read is not
    merged and its [mergeable] is not [false]; the merge is asked for the
    pull request that was read, with the parameters [number] names. *)
Theorem merge_only_after_the_check (t : GitHubTool.tool) (params : obj) (l : GitHubTool.log) :
  exists ev,
    snd (GitHubTool.mergePullRequest t params l) = (l ++ ev)%list
    /\ (ev = []
        \/ (exists c, ev = [c] /\ GitHubTool.method c = "pulls.get")
        \/ (exists pr merged more out,
              ev = [ {| GitHubTool.method := "pulls.get";
                        GitHubTool.args :=
                          GitHubTool.target
                            (GitHubTool.or_default (get "owner" params) (GitHubTool.repoOwner t))
                            (GitHubTool.or_default (get "repo" params) (GitHubTool.repoName t))
                            (get "number" params);
                        GitHubTool.outcome := Ok pr |};
                     {| GitHubTool.method := "pulls.merge";
                        GitHubTool.args :=
                          (GitHubTool.target
                             (GitHubTool.or_default (get "owner" params)
                                (GitHubTool.repoOwner t))
                             (GitHubTool.or_default (get "repo" params)
                                (GitHubTool.repoName t))
                             (get "number" params) ++ more)%list;
                        GitHubTool.outcome := out |} ]
              /\ truthy (get "number" params) = true
              /\ get_prop (Some pr) "merged" = Ok merged /\ truthy merged = false
              /\ get_prop (Some pr) "mergeable" <> Ok (Some (VBool false)))).
Proof.
  unfold GitHubTool.mergePullRequest. cbv zeta.
  set (owner := GitHubTool.or_default (get "owner" params) (GitHubTool.repoOwner t)).
  set (repo := GitHubTool.or_default (get "repo" params) (GitHubTool.repoName t)).
  destruct (negb (truthy owner) || negb (truthy repo)).
  { exists []. rewrite List.app_nil_r. auto. }
  destruct (truthy (get "number" params)) eqn:En; cbn [negb].
  2: { exists []. rewrite List.app_nil_r. auto. }
  unfold GitHubTool.request at 1. cbv zeta.
  destruct (GitHubTool.octokit t l "pulls.get" _) as [pr|msg] eqn:E1.
  2: { eexists. split; [reflexivity|]. right. left. eauto. }
  destruct (get_prop (Some pr) "merged") as [merged|msg] eqn:E2.
  2: { eexists. split; [reflexivity|]. right. left. eauto. }
  destruct (truthy merged) eqn:E3.
  { eexists. split; [reflexivity|]. right. left. eauto. }
  destruct (get_prop (Some pr) "mergeable") as [mergeable|msg] eqn:E4.
  2: { eexists. split; [reflexivity|]. right. left. eauto. }
  assert (Hm : mergeable = Some (VBool false) \/ mergeable <> Some (VBool false)).
  { destruct mergeable as [[| [|] | | | |]|]; auto; right; discriminate. }
  destruct Hm as [->|Hm].
  { eexists. split; [reflexivity|]. right. left. eauto. }
  match goal with
  | |- exists ev, snd (match mergeable with _ => _ end) = _ /\ _ =>
      assert (Hsame : forall (A : Type) (x y : A),
                match mergeable with
                | Some (VBool false) => x
                | _ => y
                end = y)
        by (intros A x y; destruct mergeable as [[| [|] | | | |]|];
            try reflexivity; congruence);
      rewrite Hsame; clear Hsame
  end.
  unfold GitHubTool.request. cbv zeta.
  match goal with
  | |- context [GitHubTool.octokit t ?l2 "pulls.merge" (?tg ++ ?more)%list] =>
      exists [ {| GitHubTool.method := "pulls.get";
                  GitHubTool.args := tg;
                  GitHubTool.outcome := Ok pr |};
               {| GitHubTool.method := "pulls.merge";
                  GitHubTool.args := (tg ++ more)%list;
                  GitHubTool.outcome :=
                    GitHubTool.octokit t l2 "pulls.merge" (tg ++ more)%list |} ];
      split;
      [ destruct (GitHubTool.octokit t l2 "pulls.merge" (tg ++ more)%list) as [result|];
        [destruct (get_prop (Some result) "merged");
         [destruct (get_prop (Some result) "sha")|]|];
        cbn [snd]; rewrite <- List.app_assoc; reflexivity
      | right; right;
        exists pr, merged, more, (GitHubTool.octokit t l2 "pulls.merge" (tg ++ more)%list);
        repeat split; auto; congruence ]
  end.
Qed.

(** X18.  [declinePullRequest] closes only a pull request that it has
    read and whose state is [open], and it closes the pull request it has
    read; when a reason is given it posts the comment first, and closes
    only if the comment was accepted. *)
Theorem decline_only_an_open_pull_request
    (t : GitHubTool.tool) (params : obj) (l : GitHubTool.log) :
  let pull :=
    GitHubTool.target
      (GitHubTool.or_default (get "owner" params) (GitHubTool.repoOwner t))
      (GitHubTool.or_default (get "repo" params) (GitHubTool.repoName t))
      (get "number" params) in
  exists ev,
    snd (GitHubTool.declinePullRequest t params l) = (l ++ ev)%list
    /\ (ev = []
        \/ (exists c, ev = [c] /\ GitHubTool.method c = "pulls.get")
        \/ (exists c1 c2 message,
              ev = [c1; c2] /\ GitHubTool.method c1 = "pulls.get"
              /\ GitHubTool.method c2 = "issues.createComment"
              /\ GitHubTool.outcome c2 = Throw message)
        \/ (exists pr comments out,
              ev = ({| GitHubTool.method := "pulls.get";
                       GitHubTool.args := pull;
                       GitHubTool.outcome := Ok pr |}
                    :: comments
                    ++ [ {| GitHubTool.method := "pulls.update";
                            GitHubTool.args := (pull ++ [("state", VStr "closed")])%list;
                            GitHubTool.outcome := out |} ])%list
              /\ get_prop (Some pr) "state" = Ok (Some (VStr "open"))
              /\ ((truthy (get "reason" params) = false /\ comments = [])
                  \/ (truthy (get "reason" params) = true
                      /\ exists c r, comments = [c]
                           /\ GitHubTool.method c = "issues.createComment"
                           /\ GitHubTool.outcome c = Ok r
                           /\ get "body" (GitHubTool.args c)
                              = Some (VStr ("Declining this pull request: "
                                            ++ template (get "reason" params))))))).
Proof.
  cbv zeta. unfold GitHubTool.declinePullRequest. cbv zeta.
  set (owner := GitHubTool.or_default (get "owner" params) (GitHubTool.repoOwner t)).
  set (repo := GitHubTool.or_default (get "repo" params) (GitHubTool.repoName t)).
  set (failed := fun message : string =>
                   if GitHubTool.logger_bound t
                   then Throw ("Failed to decline PR #" ++ template (get "number" params)
                               ++ ": " ++ message)
                   else @Throw value "logger is not defined").
  destruct (negb (truthy owner) || negb (truthy repo)).
  { exists []. rewrite List.app_nil_r. auto. }
  destruct (truthy (get "number" params)) eqn:En; cbn [negb].
  2: { exists []. rewrite List.app_nil_r. auto. }
  unfold GitHubTool.request at 1. cbv zeta.
  destruct (GitHubTool.octokit t l "pulls.get" _) as [pr|msg] eqn:E1.
  2: { eexists. split; [reflexivity|]. right. left. eauto. }
  destruct (get_prop (Some pr) "state") as [state|msg] eqn:E2.
  2: { eexists. split; [reflexivity|]. right. left. eauto. }
  assert (Hs : state = Some (VStr "open") \/ state <> Some (VStr "open")).
  { destruct state as [[| | |s| |]|]; try (right; discriminate).
    destruct (String.eqb_spec s "open") as [->|Hs]; [now left | right; congruence]. }
  destruct Hs as [->|Hs].
  2: { assert (Hsame : forall (A : Type) (x y : A),
                 match state with
                 | Some (VStr "open") => x
                 | _ => y
                 end = y).
       { intros A x y.
         destruct state as [[| | |s| |]|]; try reflexivity.
         destruct s as [|[[] [] [] [] [] [] [] []] s]; try reflexivity.
         destruct s as [|[[] [] [] [] [] [] [] []] s]; try reflexivity.
         destruct s as [|[[] [] [] [] [] [] [] []] s]; try reflexivity.
         destruct s as [|[[] [] [] [] [] [] [] []] s]; try reflexivity.
         destruct s; [congruence | reflexivity]. }
       rewrite Hsame. eexists. split; [reflexivity|]. right. left. eauto. }
  cbv iota beta.
  assert (Hclose : forall l2 : GitHubTool.log,
            exists out,
              snd (let (r, l3) :=
                     GitHubTool.request t l2 "pulls.update"
                       (GitHubTool.target owner repo (get "number" params)
                        ++ [("state", VStr "closed")])%list in
                   match r with
                   | Ok result =>
                       match get_prop (Some result) "state" with
                       | Ok result_state =>
                           (Ok (VObj
                              [("success", VBool true);
                               ("data",
                                VObj ([("message",
                                        VStr ("Pull request #"
                                              ++ template (get "number" params)
                                              ++ " declined successfully"))]
                                      ++ entry "state" result_state)%list)]), l3)
                       | Throw message => (failed message, l3)
                       end
                   | Throw message => (failed message, l3)
                   end)
              = (l2 ++ [ {| GitHubTool.method := "pulls.update";
                            GitHubTool.args :=
                              (GitHubTool.target owner repo (get "number" params)
                               ++ [("state", VStr "closed")])%list;
                            GitHubTool.outcome := out |} ])%list).
  { intros l2. unfold GitHubTool.request. cbv zeta.
    exists (GitHubTool.octokit t l2 "pulls.update"
              (GitHubTool.target owner repo (get "number" params)
               ++ [("state", VStr "closed")])%list).
    destruct (GitHubTool.octokit t l2 "pulls.update" _) as [result|];
      [destruct (get_prop (Some result) "state")|]; reflexivity. }
  destruct (truthy (get "reason" params)) eqn:Er.
  - unfold GitHubTool.request at 1. cbv zeta.
    destruct (GitHubTool.octokit t _ "issues.createComment" _) as [r|msg] eqn:E3.
    + match goal with
      | |- context [{| GitHubTool.method := "issues.createComment";
                       GitHubTool.args := ?a; GitHubTool.outcome := _ |}] =>
          set (c := {| GitHubTool.method := "issues.createComment";
                       GitHubTool.args := a; GitHubTool.outcome := Ok r |})
      end.
      match goal with
      | |- context [GitHubTool.request t ?l2 "pulls.update" _] =>
          destruct (Hclose l2) as [out Hout]
      end.
      eexists. split; [etransitivity; [exact Hout|]; rewrite <- !List.app_assoc; reflexivity|].
      right. right. right. exists pr, [c], out. cbn [List.app]. repeat split; auto.
      right. split; [reflexivity|]. exists c, r. repeat split; auto.
      unfold c. cbn [GitHubTool.args].
      destruct owner, repo, (get "number" params); reflexivity.
    + eexists. split; [cbn [snd]; rewrite <- List.app_assoc; reflexivity|].
      right. right. left. do 3 eexists. cbn [List.app]. repeat split; reflexivity.
  - match goal with
    | |- context [GitHubTool.request t ?l2 "pulls.update" _] =>
        destruct (Hclose l2) as [out Hout]
    end.
    eexists. split; [etransitivity; [exact Hout|]; rewrite <- !List.app_assoc; reflexivity|].
    right. right. right. exists pr, [], out. cbn [List.app]. repeat split; auto.
Qed.

Lemma Throw_inj (A : Type) (a b : string) : @Throw A a = Throw b -> a = b.
Proof. now inversion 1. Qed.

Ltac thrown :=
  let H := fresh "H" in
  intros H; cbn [fst] in H; apply Throw_inj in H; subst; eauto.

(** X19.  What the two methods throw.  [mergePullRequest] reports every
    failure after its two checks as [Failed to merge PR #n: cause].  The
    handler of [declinePullRequest] logs through the free name [logger]:
    where that name is not bound, every failure after the two checks is
    reported as [logger is not defined] and the cause is lost. *)
Theorem failures_of_merge_and_decline
    (t : GitHubTool.tool) (params : obj) (l : GitHubTool.log) (e : string) :
  GitHubTool.logger_bound t = false ->
  (fst (GitHubTool.mergePullRequest t params l) = Throw e ->
   e = "Repository owner and name are required"
   \/ e = "Pull request number is required"
   \/ exists cause, e = "Failed to merge PR #" ++ template (get "number" params)
                        ++ ": " ++ cause)
  /\ (fst (GitHubTool.declinePullRequest t params l) = Throw e ->
      e = "Repository owner and name are required"
      \/ e = "Pull request number is required"
      \/ e = "logger is not defined").
Proof.
  intros Hl. split.
  - unfold GitHubTool.mergePullRequest, GitHubTool.request. cbv zeta.
    destruct (negb _ || negb _); [thrown|].
    destruct (negb (truthy (get "number" params))); [thrown|].
    destruct (GitHubTool.octokit t l "pulls.get" _) as [pr|]; [|thrown].
    destruct (get_prop (Some pr) "merged") as [merged|]; [|thrown].
    destruct (truthy merged); [discriminate|].
    destruct (get_prop (Some pr) "mergeable") as [mergeable|]; [|thrown].
    destruct mergeable as [[| [|] | | | |]|]; try discriminate;
      (destruct (GitHubTool.octokit t _ "pulls.merge" _) as [result|];
       [destruct (get_prop (Some result) "merged");
        [destruct (get_prop (Some result) "sha")|]|];
       cbn [fst]; try discriminate; thrown).
  - unfold GitHubTool.declinePullRequest, GitHubTool.request. cbv zeta. rewrite Hl.
    destruct (negb _ || negb _); [thrown|].
    destruct (negb (truthy (get "number" params))); [thrown|].
    destruct (GitHubTool.octokit t l "pulls.get" _) as [pr|]; [|thrown].
    destruct (get_prop (Some pr) "state") as [state|]; [|thrown].
    assert (Hclose : forall l2,
              fst (let (r, l3) :=
                     (GitHubTool.octokit t l2 "pulls.update"
                        (GitHubTool.target
                           (GitHubTool.or_default (get "owner" params) (GitHubTool.repoOwner t))
                           (GitHubTool.or_default (get "repo" params) (GitHubTool.repoName t))
                           (get "number" params) ++ [("state", VStr "closed")])%list,
                      (l2 ++ [ {| GitHubTool.method := "pulls.update";
                                  GitHubTool.args :=
                                    (GitHubTool.target
                                       (GitHubTool.or_default (get "owner" params)
                                          (GitHubTool.repoOwner t))
                                       (GitHubTool.or_default (get "repo" params)
                                          (GitHubTool.repoName t))
                                       (get "number" params)
                                     ++ [("state", VStr "closed")])%list;
                                  GitHubTool.outcome :=
                                    GitHubTool.octokit t l2 "pulls.update"
                                      (GitHubTool.target
                                         (GitHubTool.or_default (get "owner" params)
                                            (GitHubTool.repoOwner t))
                                         (GitHubTool.or_default (get "repo" params)
                                            (GitHubTool.repoName t))
                                         (get "number" params)
                                       ++ [("state", VStr "closed")])%list |} ])%list) in
                   match r with
                   | Ok result =>
                       match get_prop (Some result) "state" with
                       | Ok result_state =>
                           (Ok (VObj
                              [("success", VBool true);
                               ("data",
                                VObj ([("message",
                                        VStr ("Pull request #"
                                              ++ template (get "number" params)
                                              ++ " declined successfully"))]
                                      ++ entry "state" result_state)%list)]), l3)
                       | Throw message => (@Throw value "logger is not defined", l3)
                       end
                   | Throw message => (Throw "logger is not defined", l3)
                   end) = Throw e ->
              e = "logger is not defined").
    { intros l2. destruct (GitHubTool.octokit t l2 "pulls.update" _) as [result|];
        [destruct (get_prop (Some result) "state")|]; cbn [fst];
        try discriminate; thrown. }
    destruct state as [[| | |s| |]|]; try discriminate.
    destruct s as [|[[] [] [] [] [] [] [] []] s]; try discriminate.
    destruct s as [|[[] [] [] [] [] [] [] []] s]; try discriminate.
    destruct s as [|[[] [] [] [] [] [] [] []] s]; try discriminate.
    destruct s as [|[[] [] [] [] [] [] [] []] s]; try discriminate.
    destruct s; try discriminate.
    destruct (truthy (get "reason" params)).
    + destruct (GitHubTool.octokit t _ "issues.createComment" _) as [r|];
        [|thrown].
      intros H. right. right. exact (Hclose _ H).
    + intros H. right. right. exact (Hclose _ H).
Qed.

Lemma failures_of_merge_and_decline_witness :
  (fst (GitHubTool.mergePullRequest MoreSamples.downDockTool [("number", VNum 7)] [])
   = Throw "Failed to merge PR #7: Not Found" ->
   "Failed to merge PR #7: Not Found" = "Repository owner and name are required"
   \/ "Failed to merge PR #7: Not Found" = "Pull request number is required"
   \/ exists cause, "Failed to merge PR #7: Not Found"
                    = "Failed to merge PR #" ++ template (Some (VNum 7)) ++ ": " ++ cause)
  /\ fst (GitHubTool.declinePullRequest MoreSamples.downDockTool [("number", VNum 7)] [])
     = Throw "logger is not defined".
Proof.
  split.
  - exact (proj1 (failures_of_merge_and_decline MoreSamples.downDockTool
                    [("number", VNum 7)] [] "Failed to merge PR #7: Not Found" eq_refl)).
  - reflexivity.
Defined.

(** ** SlackTool *)

Lemma find_fst_none {A : Type} (k : string) : forall l : list (string * A),
  find (fun c => String.eqb k (fst c)) l = None <-> ~ In k (map fst l).
Proof.
  induction l as [|[k0 a] l IH]; simpl; [tauto|].
  destruct (String.eqb_spec k k0) as [->|Hk].
  - split; [discriminate | intros H; exfalso; apply H; now left].
  - rewrite IH. split; [intros H [E|E]; [congruence | tauto] | tauto].
Qed.

(** X20.  [SlackTool.execute] with a client runs a method exactly for the
    actions of the catalog: an action that the catalog lists is run by
    the method its [case] gives, and every other action is refused as not
    implemented, before any call of Slack. *)
Theorem slack_execute_follows_the_catalog
    (others : SlackTool.method_name -> SlackTool.tool -> SlackTool.WebClient -> obj
              -> SlackTool.log -> result value * SlackTool.log)
    (t : SlackTool.tool) (c : SlackTool.WebClient)
    (action : string) (params : obj) (l : SlackTool.log) :
  SlackTool.client t = Some c ->
  (~ In action (map name SlackTool.getAvailableActions)
   /\ SlackTool.execute others t action params l
      = (Throw ("Action '" ++ action ++ "' not implemented for Slack tool"), l))
  \/ (exists m,
        In action (map name SlackTool.getAvailableActions)
        /\ SlackTool.switch action = Some m
        /\ SlackTool.execute others t action params l
           = SlackTool.run others m t c params l).
Proof.
  intros Hc. unfold SlackTool.execute. rewrite Hc.
  change (map name SlackTool.getAvailableActions) with (map fst SlackTool.cases).
  unfold SlackTool.switch.
  destruct (find (fun c0 => String.eqb action (fst c0)) SlackTool.cases) as [[k m]|] eqn:E.
  - right. exists m. repeat split; auto.
    destruct (in_dec string_dec action (map fst SlackTool.cases)) as [H|H]; [assumption|].
    apply find_fst_none in H. congruence.
  - left. split; [now apply find_fst_none | reflexivity].
Qed.

Lemma slack_execute_witness :
  SlackTool.execute (fun _ _ _ _ l => (Ok VNull, l)) MoreSamples.slackTool
    "deleteChannel" [] []
  = (Throw "Action 'deleteChannel' not implemented for Slack tool", []).
Proof.
  destruct (slack_execute_follows_the_catalog (fun _ _ _ _ l => (Ok VNull, l))
              MoreSamples.slackTool MoreSamples.createOnly "deleteChannel" [] [] eq_refl)
    as [[_ H]|(m & _ & H & _)].
  - exact H.
  - discriminate H.
Defined.

(** X21.  The default channel of [SlackTool.sendMessage] is not used for
    a tag: the catalog requires [channel], so a tag without it (or with
    [null]) is reported as lacking [channel] by the agent's validation;
    and a tag that has a channel posts to that channel, whatever the
    ambient parameters and the default of the tool are. *)
Theorem slack_default_channel_is_not_used_for_tags
    (others : SlackTool.method_name -> SlackTool.tool -> SlackTool.WebClient -> obj
              -> SlackTool.log -> result value * SlackTool.log)
    (nm : string) (cfg : option string) (t : SlackTool.tool) (c : SlackTool.WebClient)
    (o toolParams : obj) (l : SlackTool.log) :
  let tool := SlackTool.as_Tool others nm cfg t in
  (nullish (get "channel" o) = true ->
   exists missing,
     checkRequiredParameters (getActionInfo tool "sendMessage") (VObj o) = Ok missing
     /\ In "channel" missing)
  /\ (forall v, get "channel" o = Some v ->
      exists more,
        snd (SlackTool.sendMessage t c
               (enhanceToolParameters tool "sendMessage" (VObj o) toolParams) l)
        = (l ++ [ {| SlackTool.method := "chat.postMessage";
                     SlackTool.args := ("channel", v) :: more;
                     SlackTool.outcome :=
                       c l "chat.postMessage" (("channel", v) :: more) |} ])%list).
Proof.
  cbv zeta. split.
  - intros Hn. unfold getActionInfo, checkRequiredParameters.
    cbn [Tools.getAvailableActions SlackTool.as_Tool find SlackTool.getAvailableActions
         name String.eqb Ascii.eqb Bool.eqb parameters].
    rewrite missing_required_reported. unfold reported_names.
    cbn [SlackTool.required_all SlackTool.optional map List.app filter required snd fst].
    assert (Hc : reads_nullish o "channel" = true).
    { unfold reads_nullish. destruct (get "channel" o); [exact Hn | reflexivity]. }
    rewrite Hc. cbn [negb andb]. eexists. split; [reflexivity|].
    destruct (reads_nullish o "text"); now left.
  - intros v Hv. unfold enhanceToolParameters. cbn [spread].
    cbn [constructor_name SlackTool.as_Tool].
    change (String.eqb "SlackTool" "GitHubTool") with false. cbv iota.
    unfold SlackTool.sendMessage. cbv zeta.
    rewrite (get_fold_ambient "channel"), Hv. cbn [SlackTool.or_default entry List.app].
    unfold SlackTool.request. cbv zeta.
    match goal with
    | |- context [c l "chat.postMessage" (_ :: ?a)] =>
        exists a; destruct (c l "chat.postMessage" (("channel", v) :: a)) as [r|] eqn:E
    end; [|reflexivity].
    destruct (get_prop (Some r) "channel"); [|reflexivity].
    destruct (get_prop (Some r) "ts"); [|reflexivity].
    destruct (SlackTool.read (get_prop (Some r) "message") "text"); reflexivity.
Qed.

Lemma pair_eq {A B : Type} (a c : A) (b d : B) : (a, b) = (c, d) -> a = c /\ b = d.
Proof. intros H. now inversion H. Qed.

Ltac leaf :=
  let E := fresh "E" in
  intros E; apply pair_eq in E as [<- <-].

(** X22.  [SlackTool.createChannel] asks Slack for a name of at most 79
    characters of [[a-z0-9_-]]; it sets the topic only when a description
    is given, after the channel was created, and on the channel Slack
    answered; when setting the topic fails the method reports that the
    creation failed, although the channel was created. *)
Theorem topic_is_set_after_creation
    (t : SlackTool.tool) (c : SlackTool.WebClient) (params : obj) (l : SlackTool.log) :
  exists ev,
    snd (SlackTool.createChannel t c params l) = (l ++ ev)%list
    /\ (ev = []
        \/ exists formatted more created rest0,
             ev = {| SlackTool.method := "conversations.create";
                     SlackTool.args := ("name", VStr formatted) :: more;
                     SlackTool.outcome := created |} :: rest0
             /\ String.length formatted <= 79
             /\ all channel_char formatted = true
             /\ (rest0 = []
                 \/ exists r id out,
                      created = Ok r
                      /\ SlackTool.read (get_prop (Some r) "channel") "id" = Ok id
                      /\ truthy (get "description" params) = true
                      /\ rest0 = [ {| SlackTool.method := "conversations.setTopic";
                                      SlackTool.args :=
                                        (entry "channel" id
                                         ++ entry "topic" (get "description" params))%list;
                                      SlackTool.outcome := out |} ]
                      /\ forall message,
                           out = Throw message ->
                           fst (SlackTool.createChannel t c params l)
                           = Throw ("Failed to create Slack channel: " ++ message))).
Proof.
  assert (G : forall res l',
            SlackTool.createChannel t c params l = (res, l') ->
            exists ev,
              l' = (l ++ ev)%list
              /\ (ev = []
                  \/ exists formatted more created rest0,
                       ev = {| SlackTool.method := "conversations.create";
                               SlackTool.args := ("name", VStr formatted) :: more;
                               SlackTool.outcome := created |} :: rest0
                       /\ String.length formatted <= 79
                       /\ all channel_char formatted = true
                       /\ (rest0 = []
                           \/ exists r id out,
                                created = Ok r
                                /\ SlackTool.read (get_prop (Some r) "channel") "id" = Ok id
                                /\ truthy (get "description" params) = true
                                /\ rest0 = [ {| SlackTool.method := "conversations.setTopic";
                                                SlackTool.args :=
                                                  (entry "channel" id
                                                   ++ entry "topic"
                                                        (get "description" params))%list;
                                                SlackTool.outcome := out |} ]
                                /\ forall message,
                                     out = Throw message ->
                                     res = Throw ("Failed to create Slack channel: "
                                                  ++ message)))).
  2: { destruct (SlackTool.createChannel t c params l) as [res l'] eqn:E.
       exact (G res l' eq_refl). }
  intros res l'. unfold SlackTool.createChannel, SlackTool.request. cbv zeta.
  destruct (get "name" params) as [[| | |s| |]|];
    try (leaf; exists []; rewrite List.app_nil_r; auto; fail).
  cbn [SlackTool.formattedName List.app].
  assert (Hl : String.length (SlackAgent.formattedName s) <= 79) by apply length_substring.
  assert (Ha : all channel_char (SlackAgent.formattedName s) = true)
    by (apply all_substring, all_dashed).
  set (more := entry "is_private"
                 (SlackTool.or_default (get "is_private" params) (Some (VBool false)))).
  assert (Hone : forall created,
            exists ev,
              (l ++ [ {| SlackTool.method := "conversations.create";
                         SlackTool.args :=
                           ("name", VStr (SlackAgent.formattedName s)) :: more;
                         SlackTool.outcome := created |} ])%list = (l ++ ev)%list
              /\ (ev = []
                  \/ exists formatted more0 created0 rest0,
                       ev = {| SlackTool.method := "conversations.create";
                               SlackTool.args := ("name", VStr formatted) :: more0;
                               SlackTool.outcome := created0 |} :: rest0
                       /\ String.length formatted <= 79
                       /\ all channel_char formatted = true
                       /\ (rest0 = []
                           \/ exists r id out,
                                created0 = Ok r
                                /\ SlackTool.read (get_prop (Some r) "channel") "id" = Ok id
                                /\ truthy (get "description" params) = true
                                /\ rest0 = [ {| SlackTool.method := "conversations.setTopic";
                                                SlackTool.args :=
                                                  (entry "channel" id
                                                   ++ entry "topic"
                                                        (get "description" params))%list;
                                                SlackTool.outcome := out |} ]
                                /\ forall message,
                                     out = Throw message ->
                                     res = Throw ("Failed to create Slack channel: "
                                                  ++ message)))).
  { intros created. eexists. split; [reflexivity|]. right.
    exists (SlackAgent.formattedName s), more, created, []. auto. }
  destruct (c l "conversations.create" _) as [created|msg] eqn:E1.
  2: { leaf. apply Hone. }
  assert (Hanswer : forall l2 (P : Prop),
            P ->
            match SlackTool.read (get_prop (Some created) "channel") "id" with
            | Ok id =>
                match SlackTool.read (get_prop (Some created) "channel") "name" with
                | Ok channel_name =>
                    match SlackTool.read (get_prop (Some created) "channel")
                            "is_private" with
                    | Ok channel_private =>
                        match SlackTool.read (get_prop (Some created) "channel")
                                "creator" with
                        | Ok creator =>
                            (Ok (VObj
                               [("success", VBool true);
                                ("data",
                                 VObj (entry "id" id ++ entry "name" channel_name
                                       ++ entry "is_private" channel_private
                                       ++ entry "creator" creator)%list)]), l2)
                        | Throw message =>
                            (Throw ("Failed to create Slack channel: " ++ message), l2)
                        end
                    | Throw message =>
                        (Throw ("Failed to create Slack channel: " ++ message), l2)
                    end
                | Throw message =>
                    (Throw ("Failed to create Slack channel: " ++ message), l2)
                end
            | Throw message =>
                (@Throw value ("Failed to create Slack channel: " ++ message), l2)
            end = (res, l') -> l' = l2 /\ P).
  { intros l2 P HP.
    destruct (SlackTool.read (get_prop (Some created) "channel") "id");
      [destruct (SlackTool.read (get_prop (Some created) "channel") "name");
       [destruct (SlackTool.read (get_prop (Some created) "channel") "is_private");
        [destruct (SlackTool.read (get_prop (Some created) "channel") "creator")|]|]|];
      leaf; auto. }
  destruct (get "description" params) as [d|] eqn:Ed; cbn [SlackTool.or_default].
  2: { change (truthy (Some (VStr ""))) with false. cbv iota.
       intros E. apply (Hanswer _ True I) in E as [-> _]. apply Hone. }
  destruct (truthy (Some d)) eqn:Et.
  2: { intros E. apply (Hanswer _ True I) in E as [-> _]. apply Hone. }
  destruct (SlackTool.read (get_prop (Some created) "channel") "id") as [id|msg] eqn:Ei.
  2: { leaf. apply Hone. }
  set (l1 := (l ++ [ {| SlackTool.method := "conversations.create";
                        SlackTool.args :=
                          ("name", VStr (SlackAgent.formattedName s)) :: more;
                        SlackTool.outcome := Ok created |} ])%list).
  set (topic_args := (entry "channel" id ++ entry "topic" (Some d))%list).
  assert (Htwo : forall res0 : result value,
            (forall message,
               c l1 "conversations.setTopic" topic_args = Throw message ->
               res0 = Throw ("Failed to create Slack channel: " ++ message)) ->
            (res0, (l1 ++ [ {| SlackTool.method := "conversations.setTopic";
                               SlackTool.args := topic_args;
                               SlackTool.outcome :=
                                 c l1 "conversations.setTopic" topic_args |} ])%list)
            = (res, l') ->
            exists ev,
              l' = (l ++ ev)%list
              /\ (ev = []
                  \/ exists formatted more0 created0 rest0,
                       ev = {| SlackTool.method := "conversations.create";
                               SlackTool.args := ("name", VStr formatted) :: more0;
                               SlackTool.outcome := created0 |} :: rest0
                       /\ String.length formatted <= 79
                       /\ all channel_char formatted = true
                       /\ (rest0 = []
                           \/ exists r id0 out,
                                created0 = Ok r
                                /\ SlackTool.read (get_prop (Some r) "channel") "id" = Ok id0
                                /\ true = true
                                /\ rest0 = [ {| SlackTool.method := "conversations.setTopic";
                                                SlackTool.args :=
                                                  (entry "channel" id0
                                                   ++ entry "topic" (Some d))%list;
                                                SlackTool.outcome := out |} ]
                                /\ forall message,
                                     out = Throw message ->
                                     res = Throw ("Failed to create Slack channel: "
                                                  ++ message)))).
  { intros res0 Hres. leaf. eexists. split; [unfold l1; now rewrite <- List.app_assoc|].
    right.
    exists (SlackAgent.formattedName s), more, (Ok created),
      [ {| SlackTool.method := "conversations.setTopic";
           SlackTool.args := topic_args;
           SlackTool.outcome := c l1 "conversations.setTopic" topic_args |} ].
    split; [reflexivity|]. split; [exact Hl|]. split; [exact Ha|]. right.
    exists created, id, (c l1 "conversations.setTopic" topic_args).
    repeat split; auto. }
  destruct (c l1 "conversations.setTopic" topic_args) as [r|msg] eqn:E2.
  - destruct (SlackTool.read (get_prop (Some created) "channel") "name");
      [destruct (SlackTool.read (get_prop (Some created) "channel") "is_private");
       [destruct (SlackTool.read (get_prop (Some created) "channel") "creator")|]|];
      (intros E; eapply Htwo; [|exact E]; discriminate).
  - apply Htwo. intros message Hm. congruence.
Qed.

(** ** Splitting a text *)

Lemma split_first_shorter (sep : string) (s b a : string) :
  sep <> "" -> split_first sep s = Some (b, a) -> String.length a < String.length s.
Proof.
  intros Hne H. apply split_first_spec in H. subst s. rewrite !length_app.
  destruct sep; [congruence | simpl; lia].
Qed.

Lemma split_upto_enough (sep : string) : sep <> "" ->
  forall n m s, String.length s <= n -> String.length s <= m ->
    Files.split_upto n sep s = Files.split_upto m sep s.
Proof.
  intros Hne. induction n as [|n IH]; intros m s Hn Hm.
  - destruct s; [|simpl in Hn; lia]. destruct m; [reflexivity|].
    simpl. destruct sep; [congruence | reflexivity].
  - destruct m as [|m].
    + destruct s; [|simpl in Hm; lia].
      simpl. destruct sep; [congruence | reflexivity].
    + simpl. destruct (split_first sep s) as [[b a]|] eqn:E; [|reflexivity].
      pose proof (split_first_shorter _ _ _ _ Hne E). f_equal. apply IH; lia.
Qed.

(** [split] goes on after each occurrence of the separator. *)
Lemma split_step (sep s : string) : sep <> "" ->
  Files.split sep s
  = match split_first sep s with
    | None => [s]
    | Some (b, a) => b :: Files.split sep a
    end.
Proof.
  intros Hne. unfold Files.split. destruct (String.length s) as [|n] eqn:El.
  - destruct s; [|discriminate]. simpl.
    destruct sep; [congruence | reflexivity].
  - simpl. destruct (split_first sep s) as [[b a]|] eqn:E; [|reflexivity].
    pose proof (split_first_shorter _ _ _ _ Hne E). f_equal.
    apply split_upto_enough; auto; lia.
Qed.

Lemma split_first_cons (sep : string) (c : ascii) (s : string) :
  prefix sep (String c s) = false ->
  split_first sep (String c s)
  = match split_first sep s with
    | Some (b, a) => Some (String c b, a)
    | None => None
    end.
Proof. intros H. rewrite split_first_eq. now rewrite H. Qed.

Lemma prefix_head (d : ascii) (sep : string) (c : ascii) (s : string) :
  c <> d -> prefix (String d sep) (String c s) = false.
Proof. intros H. simpl. destruct (ascii_dec d c); [congruence | reflexivity]. Qed.

(** A text in which the first character of the separator does not occur
    holds no occurrence, and before an occurrence it is the first piece. *)
Lemma split_first_free (d : ascii) (sep : string) : forall a,
  all (not_char d) a = true -> split_first (String d sep) a = None.
Proof.
  induction a as [|c a IH]; intros H; [reflexivity|].
  cbn [all] in H. apply andb_prop in H as [Hc H].
  rewrite split_first_cons, (IH H); [reflexivity|].
  apply prefix_head. unfold not_char in Hc. intros ->.
  now rewrite Ascii.eqb_refl in Hc.
Qed.

Lemma split_first_at (d : ascii) (sep : string) (b : string) : forall a,
  all (not_char d) a = true ->
  split_first (String d sep) (a ++ String d sep ++ b) = Some (a, b).
Proof.
  induction a as [|c a IH]; intros H.
  - cbn [append]. rewrite split_first_eq.
    change (String d (sep ++ b)) with (String d sep ++ b).
    now rewrite prefix_app, drop_app.
  - cbn [all] in H. apply andb_prop in H as [Hc H].
    change (String c a ++ String d sep ++ b) with (String c (a ++ String d sep ++ b)).
    rewrite split_first_cons, (IH H); [reflexivity|].
    apply prefix_head. unfold not_char in Hc. intros ->.
    now rewrite Ascii.eqb_refl in Hc.
Qed.

Lemma split_free (d : ascii) (sep : string) (a : string) :
  all (not_char d) a = true -> Files.split (String d sep) a = [a].
Proof.
  intros H. rewrite split_step by discriminate. now rewrite split_first_free.
Qed.

Lemma split_at (d : ascii) (sep : string) (a b : string) :
  all (not_char d) a = true ->
  Files.split (String d sep) (a ++ String d sep ++ b) = a :: Files.split (String d sep) b.
Proof.
  intros H. rewrite split_step by discriminate. now rewrite split_first_at.
Qed.

(** A separator whose second character does not occur in a text does
    not occur in it. *)
Lemma prefix_second (e d : ascii) (sep : string) (c : ascii) (a : string) :
  all (not_char d) a = true -> prefix (String e (String d sep)) (String c a) = false.
Proof.
  intros H. cbn [prefix]. destruct (ascii_dec e c); [|reflexivity].
  destruct a as [|x a]; [reflexivity|].
  cbn [all] in H. apply andb_prop in H as [Hx _]. unfold not_char in Hx.
  cbn [prefix]. destruct (ascii_dec d x) as [->|]; [|reflexivity].
  now rewrite Ascii.eqb_refl in Hx.
Qed.

Lemma split_first_free2 (e d : ascii) (sep : string) : forall a,
  all (not_char d) a = true -> split_first (String e (String d sep)) a = None.
Proof.
  induction a as [|c a IH]; intros H; [reflexivity|].
  cbn [all] in H. apply andb_prop in H as [Hc H].
  rewrite split_first_cons, (IH H); [reflexivity|]. now apply prefix_second.
Qed.

Lemma closing_at (b : string) : forall a,
  Unified.no_at a = true -> split_first " @@" (a ++ " @@" ++ b) = Some (a, b).
Proof.
  unfold Unified.no_at.
  induction a as [|c a IH]; intros H.
  - cbn [append]. rewrite split_first_eq.
    change (String " " (String "@" (String "@" b))) with (" @@" ++ b).
    now rewrite prefix_app, drop_app.
  - cbn [all] in H. apply andb_prop in H as [Hc H].
    change (String c a ++ " @@" ++ b) with (String c (a ++ " @@" ++ b)).
    rewrite split_first_cons, (IH H); [reflexivity|].
    cbn [prefix]. destruct (ascii_dec " " c); [|reflexivity].
    destruct a as [|x a]; [reflexivity|].
    cbn [all] in H. apply andb_prop in H as [Hx _]. unfold not_char in Hx.
    cbn [append prefix]. destruct (ascii_dec "@" x) as [<-|]; [discriminate | reflexivity].
Qed.

(** The chunk of a plain hunk: the range, the closing marker and the
    lines. *)
Lemma chunk_of_plain_hunk (info text : string) :
  Unified.no_at info = true -> Unified.no_at text = true -> text <> "" ->
  Files.chunk_changes (info ++ " @@" ++ text)
  = [ {| Files.lineInfo := info;
         Files.changes :=
           map Files.classify
             (filter (fun line => negb (Files.trims_to_empty line))
                (Files.split Files.newline text)) |} ].
Proof.
  intros Hi Ht Hne. unfold Files.chunk_changes.
  rewrite split_step by discriminate. rewrite (closing_at _ _ Hi).
  rewrite split_step by discriminate. rewrite (split_first_free2 _ _ _ _ Ht).
  destruct (String.eqb_spec text ""); [congruence | reflexivity].
Qed.

(** A chunk without [@] adds nothing. *)
Lemma chunk_without_marker (chunk : string) :
  Unified.no_at chunk = true -> Files.chunk_changes chunk = [].
Proof.
  intros H. unfold Files.chunk_changes.
  rewrite split_step by discriminate. now rewrite (split_first_free2 _ _ _ _ H).
Qed.

Lemma body_cons (line : string) (lines : list string) :
  Unified.body (line :: lines) = Files.newline ++ line ++ Unified.body lines.
Proof.
  unfold Unified.body. cbn [map]. destruct (map _ lines) eqn:E.
  - cbn [String.concat]. now rewrite !app_nil_r.
  - cbn [String.concat]. cbn [append]. now rewrite <- !app_assoc.
Qed.

Lemma concat_empty_cons (x : string) (l : list string) :
  String.concat "" (x :: l) = x ++ String.concat "" l.
Proof. destruct l; cbn [String.concat]; [now rewrite app_nil_r | reflexivity]. Qed.

(** The lines of the text of a chunk. *)
Lemma lines_of_body (trailer : string) :
  trailer = "" \/ trailer = Files.newline ->
  forall lines l0,
    Unified.no_newline l0 = true ->
    forallb Unified.no_newline lines = true ->
    filter (fun line => negb (Files.trims_to_empty line))
      (Files.split Files.newline (l0 ++ Unified.body lines ++ trailer))
    = filter (fun line => negb (Files.trims_to_empty line)) (l0 :: lines).
Proof.
  intros Ht. induction lines as [|line lines IH]; intros l0 H0 Hl.
  - cbn [Unified.body map String.concat append].
    destruct Ht as [-> | ->].
    + rewrite app_nil_r. unfold Files.newline. now rewrite split_free.
    + unfold Files.newline.
      change (l0 ++ String (ascii_of_nat 10) "")
        with (l0 ++ String (ascii_of_nat 10) "" ++ "").
      rewrite split_at by assumption. reflexivity.
  - cbn [forallb] in Hl. apply andb_prop in Hl as [Hline Hl].
    rewrite body_cons. unfold Files.newline at 1 2.
    replace (l0 ++ (String (ascii_of_nat 10) "" ++ line ++ Unified.body lines) ++ trailer)
      with (l0 ++ String (ascii_of_nat 10) "" ++ (line ++ Unified.body lines ++ trailer))
      by (now rewrite <- !app_assoc).
    rewrite split_at by assumption.
    cbn [filter]. fold Files.newline. rewrite (IH line Hline Hl). reflexivity.
Qed.

Lemma filter_lines (lines : list string) :
  forallb Unified.is_line lines = true ->
  filter (fun line => negb (Files.trims_to_empty line)) lines = lines.
Proof.
  induction lines as [|line lines IH]; intros H; [reflexivity|].
  cbn [forallb] in H. apply andb_prop in H as [Hline H].
  unfold Unified.is_line in Hline. apply andb_prop in Hline as [_ Hb].
  cbn [filter]. now rewrite Hb, IH.
Qed.

Lemma lines_facts (lines : list string) :
  forallb Unified.is_line lines = true ->
  forallb Unified.no_newline lines = true /\ Unified.no_at (Unified.body lines) = true.
Proof.
  induction lines as [|line lines IH]; intros H; [split; reflexivity|].
  cbn [forallb] in H. apply andb_prop in H as [Hline H].
  destruct (IH H) as [H1 H2].
  unfold Unified.is_line in Hline. apply andb_prop in Hline as [Hline _].
  apply andb_prop in Hline as [Hn Ha].
  split; [cbn [forallb]; now rewrite Hn, H1|].
  rewrite body_cons. unfold Unified.no_at in *. rewrite !all_app, Ha, H2.
  reflexivity.
Qed.

(** The closing marker of a plain hunk, which a line break follows, does
    not open a chunk. *)
Lemma opening_after_plain (text r : string) : forall info,
  Unified.no_at info = true -> Unified.no_at text = true ->
  split_first "@@ " (info ++ " @@" ++ Files.newline ++ text ++ "@@ " ++ r)
  = Some (info ++ " @@" ++ Files.newline ++ text, r).
Proof.
  unfold Unified.no_at. induction info as [|c info IH]; intros Hi Ht.
  - cbn [append Files.newline].
    rewrite split_first_cons by reflexivity.
    rewrite split_first_cons by reflexivity.
    rewrite split_first_cons by reflexivity.
    rewrite split_first_cons by reflexivity.
    change (String "@" (String "@" (String " " r))) with ("@@ " ++ r).
    now rewrite (split_first_at "@" "@ " r text Ht).
  - cbn [all] in Hi. apply andb_prop in Hi as [Hc Hi].
    change (String c info ++ " @@" ++ Files.newline ++ text ++ "@@ " ++ r)
      with (String c (info ++ " @@" ++ Files.newline ++ text ++ "@@ " ++ r)).
    rewrite split_first_cons, (IH Hi Ht); [reflexivity|].
    apply prefix_head. unfold not_char in Hc. intros ->. discriminate.
Qed.

Lemma no_opening_in_plain (text : string) : forall info,
  Unified.no_at info = true -> Unified.no_at text = true ->
  split_first "@@ " (info ++ " @@" ++ Files.newline ++ text) = None.
Proof.
  unfold Unified.no_at. induction info as [|c info IH]; intros Hi Ht.
  - cbn [append Files.newline].
    rewrite split_first_cons by reflexivity.
    rewrite split_first_cons by reflexivity.
    rewrite split_first_cons by reflexivity.
    rewrite split_first_cons by reflexivity.
    now rewrite (split_first_free "@" "@ " text Ht).
  - cbn [all] in Hi. apply andb_prop in Hi as [Hc Hi].
    change (String c info ++ " @@" ++ Files.newline ++ text)
      with (String c (info ++ " @@" ++ Files.newline ++ text)).
    rewrite split_first_cons, (IH Hi Ht); [reflexivity|].
    apply prefix_head. unfold not_char in Hc. intros ->. discriminate.
Qed.

Lemma join_plain (h : string * list string) (hs : list (string * list string)) :
  Str.join Files.newline (map Unified.plain (h :: hs)) = "@@ " ++ Unified.after (h :: hs).
Proof.
  revert h. induction hs as [|h2 hs IH]; intros h.
  - cbn [map Str.join String.concat Unified.after]. unfold Unified.plain.
    now rewrite !app_nil_r.
  - unfold Str.join in *. cbn [map]. cbn [map] in IH.
    change (String.concat Files.newline
              (Unified.plain h :: Unified.plain h2 :: map Unified.plain hs))
      with (Unified.plain h ++ Files.newline
            ++ String.concat Files.newline (Unified.plain h2 :: map Unified.plain hs)).
    rewrite IH. cbn [Unified.after]. unfold Unified.plain.
    now rewrite <- !app_assoc.
Qed.

Lemma plain_hunk_facts (h : string * list string) :
  Unified.is_plain_hunk h = true ->
  Unified.no_at (fst h) = true
  /\ forallb Unified.is_line (snd h) = true
  /\ exists line lines, snd h = line :: lines.
Proof.
  unfold Unified.is_plain_hunk. intros H.
  apply andb_prop in H as [H Hl]. apply andb_prop in H as [Hi Hn].
  repeat split; auto. destruct (snd h) as [|line lines]; [discriminate | eauto].
Qed.

Lemma chunk_of_plain (h : string * list string) (trailer : string) :
  Unified.is_plain_hunk h = true ->
  trailer = "" \/ trailer = Files.newline ->
  Files.chunk_changes (fst h ++ " @@" ++ Unified.body (snd h) ++ trailer)
  = [Unified.parsed h].
Proof.
  intros Hh Ht. destruct (plain_hunk_facts _ Hh) as (Hi & Hl & line & lines & E).
  destruct (lines_facts _ Hl) as [Hn Ha].
  rewrite chunk_of_plain_hunk; auto.
  - unfold Unified.parsed. do 2 f_equal.
    change (Unified.body (snd h) ++ trailer) with ("" ++ Unified.body (snd h) ++ trailer).
    rewrite (lines_of_body trailer Ht (snd h) "" eq_refl Hn).
    cbn [filter Files.trims_to_empty all negb]. now rewrite filter_lines.
  - unfold Unified.no_at in *. rewrite all_app, Ha.
    destruct Ht as [-> | ->]; reflexivity.
  - rewrite E, body_cons. discriminate.
Qed.

(** The chunks of a patch made of plain hunks. *)
Lemma chunks_of_plain_hunks : forall hs,
  forallb Unified.is_plain_hunk hs = true ->
  flat_map Files.chunk_changes (Files.split "@@ " (Unified.after hs))
  = map Unified.parsed hs.
Proof.
  induction hs as [|h hs IH]; intros H; [reflexivity|].
  cbn [forallb] in H. apply andb_prop in H as [Hh H].
  destruct (plain_hunk_facts _ Hh) as (Hi & Hl & line & lines & E).
  destruct (lines_facts _ Hl) as [Hn Ha].
  cbn [Unified.after map]. destruct hs as [|h2 hs].
  - rewrite split_step by discriminate.
    assert (Hnone : split_first "@@ " (fst h ++ " @@" ++ Unified.body (snd h) ++ "") = None).
    { rewrite E, body_cons.
      replace (fst h ++ " @@" ++ (Files.newline ++ line ++ Unified.body lines) ++ "")
        with (fst h ++ " @@" ++ Files.newline ++ (line ++ Unified.body lines ++ ""))
        by (now rewrite <- !app_assoc).
      apply no_opening_in_plain; [assumption|].
      rewrite E, body_cons in Ha. unfold Unified.no_at in Ha |- *.
      rewrite !all_app in Ha. apply andb_prop in Ha as [_ Ha].
      apply andb_prop in Ha as [Ha1 Ha2]. now rewrite !all_app, Ha1, Ha2. }
    rewrite Hnone. cbn [flat_map]. rewrite List.app_nil_r.
    apply chunk_of_plain; auto.
  - rewrite split_step by discriminate.
    assert (Hsome : split_first "@@ "
                      (fst h ++ " @@" ++ Unified.body (snd h)
                       ++ Files.newline ++ "@@ " ++ Unified.after (h2 :: hs))
                    = Some (fst h ++ " @@" ++ Unified.body (snd h) ++ Files.newline,
                            Unified.after (h2 :: hs))).
    { rewrite E, body_cons.
      replace (fst h ++ " @@" ++ (Files.newline ++ line ++ Unified.body lines)
               ++ Files.newline ++ "@@ " ++ Unified.after (h2 :: hs))
        with (fst h ++ " @@" ++ Files.newline
              ++ (line ++ Unified.body lines ++ Files.newline)
              ++ "@@ " ++ Unified.after (h2 :: hs))
        by (now rewrite <- !app_assoc).
      rewrite opening_after_plain; [now rewrite <- !app_assoc | assumption |].
      rewrite E, body_cons in Ha. unfold Unified.no_at in Ha |- *.
      rewrite !all_app in Ha. apply andb_prop in Ha as [_ Ha].
      apply andb_prop in Ha as [Ha1 Ha2]. now rewrite !all_app, Ha1, Ha2. }
    rewrite Hsome. cbn [flat_map]. rewrite (IH H).
    rewrite chunk_of_plain; auto.
Qed.

(** X23.  The parser of [getChangedFiles] on a patch made of plain hunks,
    each [@@ range @@] followed by its lines, one hunk after the other:
    when the ranges and the lines hold no [@], and a line is not blank, it
    finds each hunk with its range and its lines in order, a line that
    starts with [+] as an addition, one that starts with [-] as a
    deletion, every other as context. *)
Theorem plain_hunks_are_parsed (hunks : list (string * list string)) :
  forallb Unified.is_plain_hunk hunks = true ->
  Files.lineChanges (Str.join Files.newline (map Unified.plain hunks))
  = map Unified.parsed hunks.
Proof.
  intros H. unfold Files.lineChanges. destruct hunks as [|h hs]; [reflexivity|].
  rewrite join_plain. rewrite split_step by discriminate.
  rewrite split_first_eq, prefix_app, drop_app. cbn [tl].
  now apply chunks_of_plain_hunks.
Qed.

Lemma plain_hunks_witness :
  Files.lineChanges
    (Str.join Files.newline
       (map Unified.plain [("-1,2 +1,3", [" a"; "+b"; "-c"]); ("-9 +10", ["+z"])]))
  = map Unified.parsed [("-1,2 +1,3", [" a"; "+b"; "-c"]); ("-9 +10", ["+z"])].
Proof.
  exact (plain_hunks_are_parsed [("-1,2 +1,3", [" a"; "+b"; "-c"]); ("-9 +10", ["+z"])]
           eq_refl).
Defined.

Lemma chunks_of_headed_hunks : forall hs pre,
  Unified.no_at pre = true ->
  forallb Unified.is_headed_hunk hs = true ->
  flat_map Files.chunk_changes
    (Files.split "@@ " (pre ++ String.concat "" (map Unified.headed hs)))
  = [].
Proof.
  induction hs as [|h hs IH]; intros pre Hp H.
  - cbn [map String.concat]. rewrite app_nil_r.
    unfold Unified.no_at in Hp. rewrite (split_free "@" "@ " pre Hp).
    cbn [flat_map]. now rewrite chunk_without_marker.
  - cbn [forallb] in H. apply andb_prop in H as [Hh H].
    unfold Unified.is_headed_hunk in Hh. apply andb_prop in Hh as [Hi Hr].
    cbn [map]. rewrite concat_empty_cons. unfold Unified.headed at 1.
    replace (pre ++ ("@@ " ++ fst h ++ " @@ " ++ snd h)
             ++ String.concat "" (map Unified.headed hs))
      with (pre ++ "@@ " ++ ((fst h ++ " ") ++ "@@ "
                             ++ (snd h ++ String.concat "" (map Unified.headed hs))))
      by (rewrite !app_assoc; reflexivity).
    unfold Unified.no_at in Hp. rewrite (split_at "@" "@ " _ _ Hp).
    assert (Hi' : all (not_char "@") (fst h ++ " ") = true).
    { unfold Unified.no_at in Hi. now rewrite all_app, Hi. }
    rewrite (split_at "@" "@ " _ _ Hi').
    cbn [flat_map]. rewrite (IH _ Hr H).
    now rewrite !chunk_without_marker.
Qed.


(** X24.  A hunk whose header carries a section heading,
    [@@ range @@ heading], gives the parser nothing: for a patch made of
    such hunks, with no other [@] in it, no line change is found and the
    [lineChanges] of the file is [null]. *)
Theorem headed_hunks_are_not_parsed (hunks : list (string * string)) :
  forallb Unified.is_headed_hunk hunks = true ->
  Files.file_lineChanges (Some (String.concat "" (map Unified.headed hunks))) = None.
Proof.
  intros H. unfold Files.file_lineChanges.
  destruct (String.eqb _ ""); [reflexivity|].
  unfold Files.lineChanges.
  pose proof (chunks_of_headed_hunks hunks "" eq_refl H) as G.
  change ("" ++ String.concat "" (map Unified.headed hunks))
    with (String.concat "" (map Unified.headed hunks)) in G.
  destruct (Files.split "@@ " (String.concat "" (map Unified.headed hunks))) as [|x l].
  - reflexivity.
  - cbn [flat_map] in G. apply List.app_eq_nil in G as [_ G]. cbn [tl]. now rewrite G.
Qed.

Lemma headed_hunks_witness :
  Files.file_lineChanges
    (Some (String.concat ""
             (map Unified.headed
                [("-10,7 +10,8", "function run() {" ++ Files.newline ++ " a"
                                 ++ Files.newline ++ "+b" ++ Files.newline)])))
  = None.
Proof.
  exact (headed_hunks_are_not_parsed
           [("-10,7 +10,8", "function run() {" ++ Files.newline ++ " a"
                            ++ Files.newline ++ "+b" ++ Files.newline)] eq_refl).
Defined.

(** ** The extension of a file name *)






(** ** The phrasings of the Slack patterns *)

Lemma lit_same (ci : bool) (l s : string) : lit ci l (l ++ s) = Some s.
Proof.
  induction l as [|a l IH]; simpl; [reflexivity|].
  now rewrite Ascii.eqb_refl.
Qed.

Lemma word_not_hash (c : ascii) :
  word c = true -> Ascii.eqb (canon true "#") (canon true c) = false.
Proof.
  destruct c as [[] [] [] [] [] [] [] []]; vm_compute; intros H;
    first [reflexivity | discriminate].
Qed.

Lemma word_lower_channel_char (c : ascii) :
  word c = true -> channel_char (Str.lower_char c) = true.
Proof.
  destruct c as [[] [] [] [] [] [] [] []]; vm_compute; intros H;
    first [reflexivity | discriminate].
Qed.

Lemma lower_word_is_channel_name (w : string) :
  all word w = true -> all channel_char (Str.toLowerCase w) = true.
Proof.
  induction w as [|c w IH]; intros H; [reflexivity|].
  cbn [all] in H. apply andb_prop in H as [Hc H].
  cbn [Str.toLowerCase all]. now rewrite (word_lower_channel_char _ Hc), IH.
Qed.

(** [#?(\w+)] on a word, with or without the hash. *)
Lemma channel_part (hash w tail : string) (cs : captures) (k : cont)
    (x : string * captures) :
  hash = "" \/ hash = "#" ->
  w <> "" -> all word w = true -> stops word tail = true ->
  k tail ((1, w) :: cs) = Some x ->
  rmatch true (Opt (Lit "#") ;; Grp 1 (PlusG word)) (hash ++ w ++ tail) cs k = Some x.
Proof.
  intros Hh Hne Hall Hst Hk.
  assert (G : rmatch true (Grp 1 (PlusG word)) (w ++ tail) cs k = Some x).
  { rewrite rmatch_grp_plusG. apply plusG_stops; auto. now rewrite consumed_app. }
  rewrite rmatch_seq. destruct Hh as [->| ->].
  - cbn [append]. destruct w as [|d w]; [congruence|].
    cbn [all] in Hall. apply andb_prop in Hall as [Hd Hall].
    cbn [rmatch lit append]. rewrite (word_not_hash _ Hd).
    exact G.
  - change (rmatch true (Opt (Lit "#")) ("#" ++ w ++ tail) cs
              (fun s' cs' => rmatch true (Grp 1 (PlusG word)) s' cs' k))
      with (match rmatch true (Grp 1 (PlusG word)) (w ++ tail) cs k with
            | Some y => Some y
            | None => rmatch true (Grp 1 (PlusG word)) ("#" ++ w ++ tail) cs k
            end).
    now rewrite G.
Qed.

(** [ saying (.+)] after the channel. *)
Lemma saying_part (w msg tail : string) (cs : captures) :
  msg <> "" -> all dot msg = true -> stops dot tail = true ->
  rmatch true (Lit " saying " ;; Grp 2 (PlusG dot)) (" saying " ++ msg ++ tail)
    ((1, w) :: cs) (fun s' cs' => Some (s', cs'))
  = Some (tail, (2, msg) :: (1, w) :: cs).
Proof.
  intros Hne Hall Hst. rewrite rmatch_seq.
  change (rmatch true (Lit " saying ") (" saying " ++ msg ++ tail) ((1, w) :: cs)
            (fun s' cs' => rmatch true (Grp 2 (PlusG dot)) s' cs'
                             (fun s'0 cs'0 => Some (s'0, cs'0))))
    with (match lit true " saying " (" saying " ++ msg ++ tail) with
          | Some s' => rmatch true (Grp 2 (PlusG dot)) s' ((1, w) :: cs)
                         (fun s'0 cs'0 => Some (s'0, cs'0))
          | None => None
          end).
  rewrite lit_same, rmatch_grp_plusG. apply plusG_stops; auto.
  now rewrite consumed_app.
Qed.

Lemma send_head (article chan rest0 : string) (K : cont) (x : string * captures) :
  article = "" \/ article = "a " ->
  (chan = "channel " \/ (chan = "" /\ exists r, rest0 = "#" ++ r)) ->
  K rest0 [] = Some x ->
  rmatch true
    (Lit "send " ;; Opt (Lit "a ") ;; Lit "message to " ;; Opt (Lit "channel "))
    ("send " ++ article ++ "message to " ++ chan ++ rest0) [] K
  = Some x.
Proof.
  intros Ha Hc Hk.
  destruct Ha as [-> | ->]; destruct Hc as [-> | [-> [r ->]]];
    vm_compute; vm_compute in Hk; now rewrite Hk.
Qed.

Lemma send_phrasing_found (article chan hash w msg tail : string) :
  article = "" \/ article = "a " ->
  Phrases.introduced chan hash "channel " ->
  w <> "" -> all word w = true ->
  msg <> "" -> all dot msg = true -> stops dot tail = true ->
  match_at true SlackAgent.sendMessagePattern
    (Phrases.send_phrase article chan hash w msg tail)
  = Some (tail, [(2, msg); (1, w)]).
Proof.
  intros Ha Hi Hw Hwa Hm Hma Hst.
  unfold match_at, SlackAgent.sendMessagePattern, Phrases.send_phrase.
  change (rmatch true
            (Lit "send " ;; Opt (Lit "a ") ;; Lit "message to " ;; Opt (Lit "channel "))
            ("send " ++ article ++ "message to " ++ chan
             ++ (hash ++ w ++ " saying " ++ msg ++ tail)) []
            (fun s cs =>
               rmatch true (Opt (Lit "#") ;; Grp 1 (PlusG word)) s cs
                 (fun s' cs' =>
                    rmatch true (Lit " saying " ;; Grp 2 (PlusG dot)) s' cs'
                      (fun s'0 cs'0 => Some (s'0, cs'0))))
          = Some (tail, [(2, msg); (1, w)])).
  apply send_head; auto.
  - destruct Hi as [[-> _] | [-> ->]]; [now left | right; eauto].
  - apply channel_part; auto.
    + destruct Hi as [[_ H] | [_ H]]; auto.
    + now apply saying_part.
Qed.

(** X26.  A query that starts with a send phrasing, [send (a )message to]
    followed by [channel ] or [#] or both, a channel name of word
    characters, [ saying ] and a message, is recognised with that channel
    and with the message up to the end of its line; the agent posts that
    message to that channel once; it answers [Message sent to ...] with
    the result when Slack accepts it, and answers nothing itself when
    Slack refuses. *)
Theorem send_phrasing_posts_the_message
    (channel_report : value -> value -> result Outcome)
    (a : SlackAgent.agent) (c : SlackAgent.WebClient)
    (article chan hash w msg tail : string) (h : history) :
  SlackAgent.client a = Some c ->
  article = "" \/ article = "a " ->
  Phrases.introduced chan hash "channel " ->
  w <> "" -> all word w = true ->
  msg <> "" -> all dot msg = true -> stops dot tail = true ->
  let args := [("channel", VStr w); ("text", VStr msg)] in
  let out := SlackAgent.chat_postMessage c h args in
  SlackAgent.processSlackQuery channel_report a
    (Phrases.send_phrase article chan hash w msg tail) h
  = (match out with
     | Ok r => Some {| response := "Message sent to #" ++ w ++ ": " ++ Str.quoted msg;
                       toolResults := [("slack_sendMessage", r)] |}
     | Throw _ => None
     end,
     (h ++ [EvSlack "chat.postMessage" args out])%list).
Proof.
  intros Hc Ha Hi Hw Hwa Hm Hma Hst. cbv zeta.
  unfold SlackAgent.processSlackQuery.
  rewrite (search_here _ _ _ _ _
             (send_phrasing_found article chan hash w msg tail Ha Hi Hw Hwa Hm Hma Hst)).
  cbn [caps capture Nat.eqb]. rewrite Hc.
  unfold SlackAgent.sendMessage. rewrite Hc.
  destruct (String.eqb_spec w "") as [E|_]; [congruence|]. cbv zeta.
  destruct (SlackAgent.chat_postMessage c h _); reflexivity.
Qed.

Lemma send_phrasing_witness :
  SlackAgent.processSlackQuery Samples.no_channel_report Samples.slackAgent
    "send a message to #general saying deploy at 5" []
  = (None,
     [EvSlack "chat.postMessage"
        [("channel", VStr "general"); ("text", VStr "deploy at 5")]
        (Throw "channel_not_found")]).
Proof.
  exact (send_phrasing_posts_the_message Samples.no_channel_report Samples.slackAgent
           (Samples.downClient "channel_not_found")
           "a " "" "#" "general" "deploy at 5" "" []
           eq_refl (or_intror eq_refl) (or_intror (conj eq_refl eq_refl))
           ltac:(discriminate) eq_refl ltac:(discriminate) eq_refl eq_refl).
Defined.

Lemma create_head (article new called rest0 : string) (K : cont) (x : string * captures) :
  article = "" \/ article = "a " ->
  new = "" \/ new = "new " ->
  (called = "called " \/ (called = "" /\ exists r, rest0 = "#" ++ r)) ->
  K rest0 [] = Some x ->
  rmatch true
    (Lit "create " ;; Opt (Lit "a ") ;; Opt (Lit "new ") ;; Lit "channel " ;;
     Opt (Lit "called "))
    ("create " ++ article ++ new ++ "channel " ++ called ++ rest0) [] K
  = Some x.
Proof.
  intros Ha Hn Hc Hk.
  destruct Ha as [-> | ->]; destruct Hn as [-> | ->];
    destruct Hc as [-> | [-> [r ->]]];
    vm_compute; vm_compute in Hk; now rewrite Hk.
Qed.

Lemma create_phrasing_found (article new called hash w tail : string) :
  article = "" \/ article = "a " ->
  new = "" \/ new = "new " ->
  Phrases.introduced called hash "called " ->
  w <> "" -> all word w = true -> stops word tail = true ->
  match_at true SlackAgent.createChannelPattern
    (Phrases.create_phrase article new called hash w tail)
  = Some (tail, [(1, w)]).
Proof.
  intros Ha Hn Hi Hw Hwa Hst.
  unfold match_at, SlackAgent.createChannelPattern, Phrases.create_phrase.
  change (rmatch true
            (Lit "create " ;; Opt (Lit "a ") ;; Opt (Lit "new ") ;; Lit "channel " ;;
             Opt (Lit "called "))
            ("create " ++ article ++ new ++ "channel " ++ called ++ (hash ++ w ++ tail)) []
            (fun s cs =>
               rmatch true (Opt (Lit "#") ;; Grp 1 (PlusG word)) s cs
                 (fun s' cs' => Some (s', cs')))
          = Some (tail, [(1, w)])).
  apply create_head; auto.
  - destruct Hi as [[-> _] | [-> ->]]; [now left | right; eauto].
  - apply channel_part; auto. destruct Hi as [[_ H] | [_ H]]; auto.
Qed.

(** X27.  A query that starts with a create phrasing,
    [create (a )(new )channel] followed by [called ] or [#] or both and a
    name of word characters, and in which the two patterns tried before
    find nothing, is recognised with that name; the agent asks Slack once
    for a public channel named by the name in lower case, cut after 79
    characters, and answers itself whether Slack accepts or refuses. *)
Theorem create_phrasing_creates_the_channel
    (channel_report : value -> value -> result Outcome)
    (a : SlackAgent.agent) (c : SlackAgent.WebClient)
    (article new called hash w tail : string) (h : history) :
  SlackAgent.client a = Some c ->
  article = "" \/ article = "a " ->
  new = "" \/ new = "new " ->
  Phrases.introduced called hash "called " ->
  w <> "" -> all word w = true -> stops word tail = true ->
  search true SlackAgent.sendMessagePattern
    (Phrases.create_phrase article new called hash w tail) = None ->
  SlackAgent.match1 SlackAgent.getChannelInfoPattern
    (Phrases.create_phrase article new called hash w tail) = None ->
  let args := [("name", VStr (Str.take 79 (Str.toLowerCase w)));
               ("is_private", VBool false)] in
  let out := SlackAgent.conversations_create c h args in
  snd (SlackAgent.processSlackQuery channel_report a
         (Phrases.create_phrase article new called hash w tail) h)
  = (h ++ [EvSlack "conversations.create" args out])%list
  /\ fst (SlackAgent.processSlackQuery channel_report a
            (Phrases.create_phrase article new called hash w tail) h) <> None.
Proof.
  intros Hc Ha Hn Hi Hw Hwa Hst Hs Hg. cbv zeta.
  assert (G : exists o,
            SlackAgent.processSlackQuery channel_report a
              (Phrases.create_phrase article new called hash w tail) h
            = (Some o,
               (h ++ [EvSlack "conversations.create"
                        [("name", VStr (Str.take 79 (Str.toLowerCase w)));
                         ("is_private", VBool false)]
                        (SlackAgent.conversations_create c h
                           [("name", VStr (Str.take 79 (Str.toLowerCase w)));
                            ("is_private", VBool false)])])%list)).
  { unfold SlackAgent.processSlackQuery. rewrite Hs, Hg.
    unfold SlackAgent.match1.
    rewrite (search_here _ _ _ _ _
               (create_phrasing_found article new called hash w tail Ha Hn Hi Hw Hwa Hst)).
    cbn [caps capture Nat.eqb].
    destruct (String.eqb_spec w "") as [E|_]; [congruence|].
    cbn [caps capture Nat.eqb]. rewrite Hc.
    unfold SlackAgent.createChannel. rewrite Hc. cbv zeta.
    assert (Hf : SlackAgent.formattedName (Str.toLowerCase w)
                 = Str.take 79 (Str.toLowerCase w)).
    { unfold SlackAgent.formattedName.
      now rewrite (dashed_valid _ (lower_word_is_channel_name _ Hwa)). }
    rewrite Hf.
    destruct (SlackAgent.conversations_create c h _) as [r|message];
      [destruct (SlackAgent.channel_name r)|]; eexists; reflexivity. }
  destruct G as [o G]. rewrite G. split; [reflexivity | discriminate].
Qed.

Lemma create_phrasing_witness :
  snd (SlackAgent.processSlackQuery Samples.no_channel_report Samples.slackAgent
         "create a new channel called #Release_Notes now" [])
  = [EvSlack "conversations.create"
       [("name", VStr "release_notes"); ("is_private", VBool false)]
       (Throw "channel_not_found")]
  /\ fst (SlackAgent.processSlackQuery Samples.no_channel_report Samples.slackAgent
            "create a new channel called #Release_Notes now" []) <> None.
Proof.
  exact (create_phrasing_creates_the_channel Samples.no_channel_report Samples.slackAgent
           (Samples.downClient "channel_not_found")
           "a " "new " "called " "#" "Release_Notes" " now" []
           eq_refl (or_intror eq_refl) (or_intror eq_refl)
           (or_introl (conj eq_refl (or_intror eq_refl)))
           ltac:(discriminate) eq_refl eq_refl
           ltac:(vm_compute; reflexivity) ltac:(vm_compute; reflexivity)).
Defined.
